(** * Synthetic Oralable demo data: the two CSV generators

    A shallow embedding of

    - [Scripts/generate_demo_csv.py] (the single-session generator), and
    - [Scripts/generate_professional_demo_csv.py] (the multi-session
      generator),

    followed by the properties of the generated sample streams.

    Modelling conventions.

    - Python floats are read as real numbers ([R]), without rounding
      errors; [math.sin] and [math.pi] are [sin] and [PI].  Python
      integers are [Z].  The one exception is [int(ppg_ir * 0.7)] of the
      multi-session script, an integer made from a float product alone:
      there the binary64 rounding decides the value emitted and is
      modelled exactly ([int_fmul]).  Statements about sums that involve
      random draws leave room for the rounding.
    - [random.gauss] is read with the bound of its Box-Muller
      implementation ([wf_gauss]) where a statement depends on it.
    - Failures of the environment are outside the model: [open] and the
      CSV writer are taken to succeed, and [datetime] arithmetic is taken
      to stay within the years 1 to 9999.
    - The hidden state of the [random] module is a _source_ of draws (an
      infinite tape) together with a cursor.  Every call of
      [random.uniform], [random.gauss] or [random.randint] consumes the
      cell under the cursor.  The tape is never written, only the cursor
      moves, so generator code lives in a reader/state/exception monad
      [M].
    - Text that the scripts produce by fixed-point formatting is kept as
      the integer number of its smallest unit: [f"{x:.1f}"] is the
      number of tenths, [f"{x:.2f}"] the number of hundredths, and
      [strftime("%Y-%m-%d %H:%M:%S.%f")[:-3]] the number of milliseconds
      of the instant.
    - [print] is not modelled. *)

From Stdlib Require Import ZArith String List Bool Reals Lra Lia.
From Stdlib Require Import DecimalString Sorted.
Import ListNotations.

Local Open Scope Z_scope.
Local Open Scope R_scope.

(* ================================================================= *)
(** ** Python numerics *)

(** Boolean comparisons of floats. *)
Definition Rleb (x y : R) : bool := if Rle_dec x y then true else false.
Definition Rltb (x y : R) : bool := if Rlt_dec x y then true else false.

(** [math.floor] on reals. *)
Definition py_floor (x : R) : Z := Int_part x.

(** [int(x)] for a float [x]: truncation towards zero. *)
Definition py_int (x : R) : Z :=
  if Rle_dec 0 x then py_floor x else (- py_floor (- x))%Z.

(** [n / 2^s] rounded to the nearest integer, ties to even, for
    [0 < s]. *)
Definition rne_shift (n s : Z) : Z :=
  let q := (n / 2 ^ s)%Z in
  let r := (n mod 2 ^ s)%Z in
  let h := (2 ^ (s - 1))%Z in
  if (r <? h)%Z then q
  else if (h <? r)%Z then (q + 1)%Z
  else if Z.even q then q else (q + 1)%Z.

(** An integer rounded to 53 significant bits, ties to even: the
    significand of a binary64 number. *)
Definition round53 (n : Z) : Z :=
  let s := (Z.log2 (Z.abs n) + 1 - 53)%Z in
  if (s <=? 0)%Z then n else (rne_shift n s * 2 ^ s)%Z.

(** [int(n * c)] for a Python integer [n] and the binary64 constant
    [c = m / 2^k]: [n] is converted to binary64, the product is rounded
    to binary64, and [int] truncates it towards zero.  (No overflow
    below [2^1024], which an [int] of a finite float never reaches.) *)
Definition int_fmul (n m k : Z) : Z :=
  Z.quot (round53 (round53 n * m)) (2 ^ k).

(** The float literal [0.7]: the binary64 number nearest to 7/10 is
    [3152519739159347 / 2^52]. *)
Definition b64_0_7_num : Z := 3152519739159347.
Definition b64_0_7_exp : Z := 52.

(** Rounding to the nearest integer, ties to even: the rounding of
    [timedelta(seconds=...)] to microseconds and of fixed-point float
    formatting. *)
Definition round_half_even (x : R) : Z :=
  let f := py_floor x in
  let r := x - IZR f in
  if Rlt_dec r (1 / 2) then f
  else if Rlt_dec (1 / 2) r then (f + 1)%Z
  else if Z.even f then f else (f + 1)%Z.

(** [f"{x:.<digits>f}"], as the integer count of units of
    [10^-digits]. *)
Definition fmt_fixed (digits : nat) (x : R) : Z :=
  round_half_even (x * 10 ^ digits).

(** [range(n)]. *)
Definition py_range (n : Z) : list Z :=
  map Z.of_nat (seq 0 (Z.to_nat n)).

(** Number of elements of [range(start, stop, step)] for [step <> 0]. *)
Definition range_len (start stop step : Z) : nat :=
  if (0 <? step)%Z then
    if (start <? stop)%Z then Z.to_nat ((stop - start + step - 1) / step)
    else 0%nat
  else
    if (stop <? start)%Z then Z.to_nat ((start - stop - step - 1) / (- step))
    else 0%nat.

(** [range(start, stop, step)]; [None] stands for the [ValueError] that
    Python raises when [step] is zero. *)
Definition py_range3 (start stop step : Z) : option (list Z) :=
  if (step =? 0)%Z then None
  else Some (map (fun k => (start + Z.of_nat k * step)%Z)
                 (seq 0 (range_len start stop step))).

(** [str(n)] for an integer. *)
Definition py_str (n : Z) : string := NilZero.string_of_int (Z.to_int n).

(* ================================================================= *)
(** ** Dates *)

(** A naive [datetime], as microseconds since the epoch; the bounds of
    the type (years 1 to 9999) are not modelled. *)
Definition datetime := Z.

(** [timedelta(seconds=x)] for a float [x], in microseconds. *)
Definition timedelta_seconds (x : R) : Z := round_half_even (x * 1000000).

(** [timedelta(days=n)], in microseconds. *)
Definition timedelta_days (n : Z) : Z := (n * 86400 * 1000000)%Z.

(** [dt.strftime("%Y-%m-%d %H:%M:%S.%f")[:-3]]: the instant with its
    last three microsecond digits cut off, as a millisecond count. *)
Definition strftime_ms (dt : datetime) : Z := (dt / 1000)%Z.

(* ================================================================= *)
(** ** The random source and the generator monad *)

(** One cell of the random tape.  A cell is read as [unit01] by
    [random.uniform] (the value of the underlying [random()]), as
    [normal] by [random.gauss] (the standard normal deviate) and as
    [bits] by [random.randint]. *)
Record draw : Type := mkDraw { unit01 : R; normal : R; bits : Z }.

Definition source := nat -> draw.

(** [random()] lies in the unit interval. *)
Definition wf_source (tp : source) : Prop :=
  forall n, 0 <= unit01 (tp n) <= 1.

(** [random.gauss] is a Box-Muller transform of two values of
    [random()]: its standard deviate is
    [cos(2 pi u1) * sqrt(-2 ln(1 - u2))] with [1 - u2 >= 2^-53], hence
    at most [sqrt(106 ln 2) < 8.58] in absolute value. *)
Definition wf_gauss (tp : source) : Prop :=
  forall n, -9 <= normal (tp n) <= 9.

Inductive exn : Type := ValueError.

Inductive outcome (A : Type) : Type :=
| Ok (a : A) (cursor : nat)
| Raise (e : exn).
Arguments Ok {A} a cursor.
Arguments Raise {A} e.

Definition M (A : Type) : Type := source -> nat -> outcome A.

Definition ret {A} (a : A) : M A := fun _ p => Ok a p.

Definition bind {A B} (m : M A) (k : A -> M B) : M B :=
  fun tp p =>
    match m tp p with
    | Ok a p' => k a tp p'
    | Raise e => Raise e
    end.

Definition raise {A} (e : exn) : M A := fun _ _ => Raise e.

Notation "x <- m ;; k" := (bind m (fun x => k))
  (at level 61, m at next level, right associativity).
Notation "' pat <- m ;; k" := (bind m (fun x => match x with pat => k end))
  (at level 61, pat pattern, m at next level, right associativity).

(** Reading the cell under the cursor. *)
Definition next_draw : M draw := fun tp p => Ok (tp p) (S p).

(** [random.uniform(a, b)], that is [a + (b - a) * random()]. *)
Definition uniform_of (a b : R) (d : draw) : R := a + (b - a) * unit01 d.
Definition uniform (a b : R) : M R :=
  d <- next_draw ;; ret (uniform_of a b d).

(** [random.gauss(mu, sigma)]. *)
Definition gauss_of (mu sigma : R) (d : draw) : R := mu + normal d * sigma.
Definition gauss (mu sigma : R) : M R :=
  d <- next_draw ;; ret (gauss_of mu sigma d).

(** [random.randint(a, b)]. *)
Definition randint_of (a b : Z) (d : draw) : Z :=
  (a + bits d mod (b - a + 1))%Z.
Definition randint (a b : Z) : M Z :=
  d <- next_draw ;; ret (randint_of a b d).

(** A [range] with a step, raising [ValueError] on a zero step. *)
Definition range3 (start stop step : Z) : M (list Z) :=
  match py_range3 start stop step with
  | Some l => ret l
  | None => raise ValueError
  end.

(** [for x in l: ...] collecting one result per iteration. *)
Fixpoint mapM {A B} (f : A -> M B) (l : list A) : M (list B) :=
  match l with
  | [] => ret []
  | a :: l' => b <- f a ;; bs <- mapM f l' ;; ret (b :: bs)
  end.

(** [for x in l: ...] updating loop-carried variables. *)
Fixpoint foldM {A B} (f : B -> A -> M B) (b : B) (l : list A) : M B :=
  match l with
  | [] => ret b
  | a :: l' => b' <- f b a ;; foldM f b' l'
  end.

(** The computation returns, and its result and final cursor satisfy
    [Q]. *)
Definition returns {A} (o : outcome A) (Q : A -> nat -> Prop) : Prop :=
  match o with
  | Ok a p => Q a p
  | Raise _ => False
  end.

(* ================================================================= *)
(** ** Data model *)

(** One CSV data row, i.e. one simulated device reading.  [timestamp] is
    in milliseconds, [temperature] in hundredths of a degree and [spo2]
    in tenths of a percent (see the conventions above). *)
Record Row : Type := mkRow {
  timestamp : Z;
  ppg_ir : Z;
  ppg_red : Z;
  ppg_green : Z;
  accel_x : Z;
  accel_y : Z;
  accel_z : Z;
  temperature : Z;
  heart_rate : Z;
  spo2 : Z;
  battery : Z;
  device_id : string
}.

(** The header row shared by both scripts. *)
Definition fieldnames : list string :=
  ["timestamp"; "ppg_ir"; "ppg_red"; "ppg_green";
   "accel_x"; "accel_y"; "accel_z"; "temperature";
   "heart_rate"; "spo2"; "battery"; "device_id"]%string.

(** What [csv.DictWriter] leaves in a file after [writeheader()] and
    [writerows(rows)], when [open] and the writes succeed. *)
Record csv_file : Type := mkCsv {
  header : list string;
  data_rows : list Row
}.

Definition write_csv (rows : list Row) : csv_file :=
  {| header := fieldnames; data_rows := rows |}.

(** The files written by a script, oldest first. *)
Definition files := list (string * csv_file).

(** The content of the file called [name], if it was written. *)
Definition file_named (name : string) (fs : files) : option csv_file :=
  match find (fun nf => String.eqb (fst nf) name) (rev fs) with
  | Some nf => Some (snd nf)
  | None => None
  end.

(* ================================================================= *)
(** ** The clench envelope

    Both scripts contain the same inner loop over the clench windows and
    differ only in its literals, which are collected here. *)

Record clench_consts : Type := mkClench {
  d_min : R;      (* random.uniform(d_min, d_max): clench duration *)
  d_max : R;
  ramp : R;       (* progress < ramp: ramp up *)
  fall : R;       (* progress > fall: ramp down *)
  a_min : R;      (* random.uniform(a_min, a_max): amplitude *)
  a_max : R
}.

(** The body of [for clench_start in range(...)]: [Some a] when the
    window test succeeds and [clench_amplitude] is assigned [a], [None]
    when the variable is left alone. *)
Definition clench_window (c : clench_consts) (t : R) (clench_start : Z)
  : M (option R) :=
  clench_duration <- uniform (d_min c) (d_max c) ;;
  if Rleb (IZR clench_start) t
     && Rltb t (IZR clench_start + clench_duration)
  then
    let progress := (t - IZR clench_start) / clench_duration in
    if Rltb progress (ramp c) then
      a <- uniform (a_min c) (a_max c) ;;
      ret (Some ((progress / ramp c) * a))
    else if Rltb (fall c) progress then
      a <- uniform (a_min c) (a_max c) ;;
      ret (Some (((1 - progress) / ramp c) * a))
    else
      a <- uniform (a_min c) (a_max c) ;;
      ret (Some a)
  else ret None.

(** One iteration, on the loop-carried [clench_amplitude].  The second
    component is a ghost variable: the starts of the windows whose test
    succeeded so far. *)
Definition clench_step (c : clench_consts) (t : R)
    (st : R * list Z) (clench_start : Z) : M (R * list Z) :=
  r <- clench_window c t clench_start ;;
  ret (match r with
       | Some a => (a, snd st ++ [clench_start])
       | None => st
       end).

(** [clench_amplitude = 0] followed by the loop over the windows. *)
Definition clench_loop (c : clench_consts) (t : R) (windows : list Z)
  : M (R * list Z) :=
  foldM (clench_step c t) (0, []) windows.

(* ================================================================= *)
(** ** generate_demo_csv.py *)

Module Demo.

Definition sample_rate : Z := 20.

Definition clench : clench_consts :=
  {| d_min := 2; d_max := 4; ramp := 0.2; fall := 0.8;
     a_min := 10000; a_max := 20000 |}.

(** The local variables of one iteration of the sample loop that do
    not reach the row directly. *)
Record locals : Type := mkLocals {
  t : R;
  baseline : R;
  bpm : R;                    (* the local [heart_rate] *)
  cardiac : R;
  breathing : R;
  clench_amplitude : R;
  clench_hits : list Z;       (* ghost, see [clench_step] *)
  noise : R;
  noise_red : R;
  noise_green : R;
  spo2_raw : R                (* [spo2] after clamping, before formatting *)
}.

(** The body of [for i in range(total_samples)]. *)
Definition sample (start_time : datetime) (duration_seconds : Z) (i : Z)
  : M (locals * Row) :=
  let timestamp := (start_time + timedelta_seconds (IZR i / IZR sample_rate))%Z in
  let timestamp_str := strftime_ms timestamp in
  let t := IZR i / IZR sample_rate in
  let baseline := 50000 + 2000 * sin (t / 30) in
  u <- uniform (-2) 2 ;;
  let heart_rate := 70 + u in
  let cardiac := 1500 * sin (2 * PI * (heart_rate / 60) * t) in
  let breathing := 800 * sin (2 * PI * (15 / 60) * t) in
  windows <- range3 0 duration_seconds 15 ;;
  '(clench_amplitude, hits) <- clench_loop clench t windows ;;
  noise <- gauss 0 300 ;;
  let ppg_ir := py_int (baseline + cardiac + breathing + clench_amplitude + noise) in
  let ppg_ir := Z.max 0 (Z.min 262143 ppg_ir) in
  n_red <- gauss 0 200 ;;
  let ppg_red := py_int (IZR ppg_ir * 0.7 + n_red) in
  n_green <- gauss 0 150 ;;
  let ppg_green := py_int (IZR ppg_ir * 0.5 + n_green) in
  accel_base_x <- gauss 0 0.01 ;;
  accel_base_y <- gauss 0 0.01 ;;
  g <- gauss 0 0.01 ;;
  let accel_base_z := 1.0 + g in
  '(accel_base_x, accel_base_y) <-
     (if Rltb 5000 clench_amplitude then
        ex <- gauss 0 0.05 ;;
        ey <- gauss 0 0.05 ;;
        ret (accel_base_x + ex, accel_base_y + ey)
      else ret (accel_base_x, accel_base_y)) ;;
  let accel_x := py_int (accel_base_x * 16384) in
  let accel_y := py_int (accel_base_y * 16384) in
  let accel_z := py_int (accel_base_z * 16384) in
  e <- gauss 0 0.05 ;;
  let temperature := 36.5 + 0.3 * sin (t / 60) + e in
  h <- gauss 0 1 ;;
  let heart_rate_display := py_int (heart_rate + h) in
  s <- gauss 0 0.5 ;;
  let spo2 := 98 + s in
  let spo2 := Rmax 95 (Rmin 100 spo2) in
  let battery := 85%Z in
  ret ({| t := t; baseline := baseline; bpm := heart_rate;
          cardiac := cardiac; breathing := breathing;
          clench_amplitude := clench_amplitude; clench_hits := hits;
          noise := noise; noise_red := n_red; noise_green := n_green;
          spo2_raw := spo2 |},
       {| timestamp := timestamp_str;
          ppg_ir := ppg_ir;
          ppg_red := ppg_red;
          ppg_green := ppg_green;
          accel_x := accel_x;
          accel_y := accel_y;
          accel_z := accel_z;
          temperature := fmt_fixed 2 temperature;
          heart_rate := heart_rate_display;
          spo2 := fmt_fixed 1 spo2;
          battery := battery;
          device_id := "DEMO-ORALABLE-001" |}).

(** The sample loop: the rows appended, each with the locals of its
    iteration. *)
Definition sample_loop (start_time : datetime) (duration_seconds : Z)
  : M (list (locals * Row)) :=
  let total_samples := (duration_seconds * sample_rate)%Z in
  mapM (sample start_time duration_seconds) (py_range total_samples).

(** [generate_demo_csv(output_path, duration_seconds)]; [now] is what
    [datetime.now()] answers.  The result is the file written. *)
Definition generate_demo_csv (now : datetime) (output_path : string)
    (duration_seconds : Z) : M (string * csv_file) :=
  let start_time := now in
  trace <- sample_loop start_time duration_seconds ;;
  let rows := map snd trace in
  ret (output_path, write_csv rows).

(** The script's entry point. *)
Definition main (now : datetime) : M (string * csv_file) :=
  generate_demo_csv now "oralable_demo_data.csv" 120.

End Demo.

(* ================================================================= *)
(** ** generate_professional_demo_csv.py *)

Module Professional.

Definition sample_rate : Z := 20.

Definition clench : clench_consts :=
  {| d_min := 1.5; d_max := 3.5; ramp := 0.15; fall := 0.85;
     a_min := 8000; a_max := 18000 |}.

(** The local variables of one iteration of the sample loop. *)
Record locals : Type := mkLocals {
  t : R;
  baseline : R;
  cardiac : R;
  breathing : R;
  clench_frequency : Z;
  clench_amplitude : R;
  clench_hits : list Z;       (* ghost, see [clench_step] *)
  noise : R;
  spo2_raw : R                (* the float formatted into [spo2] *)
}.

(** The body of [for i in range(total_samples)]. *)
Definition sample (session_id : Z) (session_date : datetime)
    (duration_minutes : Z) (i : Z) : M (locals * Row) :=
  let timestamp := (session_date + timedelta_seconds (IZR i / IZR sample_rate))%Z in
  let timestamp_str := strftime_ms timestamp in
  let t := IZR i / IZR sample_rate in
  let baseline := 48000 + 4000 * sin (t / 45) in
  let cardiac := 1200 * sin (2 * PI * (72 / 60) * t) in
  let breathing := 600 * sin (2 * PI * (14 / 60) * t) in
  let clench_frequency := (12 + session_id * 3)%Z in
  windows <- range3 0 (duration_minutes * 60) clench_frequency ;;
  '(clench_amplitude, hits) <- clench_loop clench t windows ;;
  noise <- gauss 0 250 ;;
  let ppg_ir := py_int (baseline + cardiac + breathing + clench_amplitude + noise) in
  ax <- gauss 0 150 ;;
  let accel_x := py_int ax in
  ay <- gauss 0 150 ;;
  let accel_y := py_int ay in
  az <- gauss 0 150 ;;
  let accel_z := py_int (16384 + az) in
  e <- gauss 0 0.03 ;;
  let temperature := 36.4 + 0.2 * sin (t / 120) + e in
  h <- randint (-3) 3 ;;
  s <- gauss 0 0.4 ;;
  ret ({| t := t; baseline := baseline; cardiac := cardiac;
          breathing := breathing; clench_frequency := clench_frequency;
          clench_amplitude := clench_amplitude; clench_hits := hits;
          noise := noise; spo2_raw := 98.0 + s |},
       {| timestamp := timestamp_str;
          ppg_ir := ppg_ir;
          ppg_red := int_fmul ppg_ir b64_0_7_num b64_0_7_exp;
          ppg_green := py_int (IZR ppg_ir * 0.5);
          accel_x := accel_x;
          accel_y := accel_y;
          accel_z := accel_z;
          temperature := fmt_fixed 2 temperature;
          heart_rate := (72 + h)%Z;
          spo2 := fmt_fixed 1 (98.0 + s);
          battery := (90 - session_id * 5)%Z;
          device_id := "ORALABLE-DEMO-DEVICE" |}).

(** The sample loop of [generate_session], with the locals of every
    iteration. *)
Definition sample_loop (session_id : Z) (session_date : datetime)
    (duration_minutes : Z) : M (list (locals * Row)) :=
  let total_samples := (duration_minutes * 60 * sample_rate)%Z in
  mapM (sample session_id session_date duration_minutes)
       (py_range total_samples).

(** [generate_session(session_id, session_date, duration_minutes)]. *)
Definition generate_session (session_id : Z) (session_date : datetime)
    (duration_minutes : Z) : M (list Row) :=
  trace <- sample_loop session_id session_date duration_minutes ;;
  ret (map snd trace).

(** An entry of the [sessions] list. *)
Record session : Type := mkSession {
  id : Z;
  date : datetime;
  duration : Z
}.

(** The [sessions] literal; [now1], [now2], [now3] are the answers of
    its three calls of [datetime.now()]. *)
Definition sessions (now1 now2 now3 : datetime) : list session :=
  [ {| id := 1; date := (now1 - timedelta_days 5)%Z; duration := 8 |};
    {| id := 2; date := (now2 - timedelta_days 3)%Z; duration := 10 |};
    {| id := 3; date := (now3 - timedelta_days 1)%Z; duration := 12 |} ].

(** [f"demo_participant_session_{session['id']}.csv"]. *)
Definition session_filename (s : session) : string :=
  ("demo_participant_session_" ++ py_str (id s) ++ ".csv")%string.

Definition all_sessions_filename : string :=
  "demo_participant_all_sessions.csv".

(** The body of the first [for session in sessions]: one file per
    session. *)
Definition write_session (s : session) : M (string * csv_file) :=
  rows <- generate_session (id s) (date s) (duration s) ;;
  let filename := session_filename s in
  ret (filename, write_csv rows).

(** The second [for session in sessions]: the rows of [all_rows]. *)
Definition collect_all (ss : list session) : M (list Row) :=
  foldM (fun all_rows s =>
           rows <- generate_session (id s) (date s) (duration s) ;;
           ret (all_rows ++ rows))
        [] ss.

(** The two loops of [generate_professional_demo] over a session list. *)
Definition write_sessions (ss : list session) : M files :=
  per_session <- mapM write_session ss ;;
  all_rows <- collect_all ss ;;
  ret (per_session ++ [(all_sessions_filename, write_csv all_rows)]).

(** [generate_professional_demo()]: the files written, oldest first. *)
Definition generate_professional_demo (now1 now2 now3 : datetime) : M files :=
  write_sessions (sessions now1 now2 now3).

End Professional.

(* ================================================================= *)
(** ** Auxiliary notions used by the statements *)

(** The sequence of iterations of a loop [mapM f l]: started with the
    cursor at [p], it yields [bs] and leaves the cursor at [p']. *)
Inductive run_chain {A B} (f : A -> M B) (tp : source)
  : nat -> list A -> list B -> nat -> Prop :=
| chain_nil p : run_chain f tp p [] [] p
| chain_cons p a b p' l bs p'' :
    f a tp p = Ok b p' ->
    run_chain f tp p' l bs p'' ->
    run_chain f tp p (a :: l) (b :: bs) p''.

(** The cursor after the iterations of a loop [mapM f l] started at
    [p]. *)
Fixpoint cursor_after {A B} (f : A -> M B) (tp : source) (p : nat)
    (l : list A) : nat :=
  match l with
  | [] => p
  | a :: l' =>
      match f a tp p with
      | Ok _ q => cursor_after f tp q l'
      | Raise _ => p
      end
  end.

(** The cursor at which sample [i] of a run of the sample loop starts;
    sample [i] reads the cells from [demo_cursor ... i] up to, and not
    including, [demo_cursor ... (S i)], and no other sample reads
    them. *)
Definition demo_cursor (start_time : datetime) (duration_seconds : Z)
    (tp : source) (p : nat) (i : nat) : nat :=
  cursor_after (Demo.sample start_time duration_seconds) tp p
    (firstn i (py_range (duration_seconds * Demo.sample_rate))).

Definition session_cursor (session_id : Z) (session_date : datetime)
    (duration_minutes : Z) (tp : source) (p : nat) (i : nat) : nat :=
  cursor_after (Professional.sample session_id session_date duration_minutes)
    tp p
    (firstn i (py_range (duration_minutes * 60 * Professional.sample_rate))).

(** What the literals of a clench loop must satisfy for its envelope to
    stay between [0] and [a_max]. *)
Definition sane (c : clench_consts) : Prop :=
  0 < d_min c <= d_max c /\ 0 < ramp c /\ 1 - fall c <= ramp c
  /\ 0 <= a_min c <= a_max c.

(** Consecutive elements of [l] are at least [gap] apart, in increasing
    order. *)
Fixpoint spaced (gap : Z) (l : list Z) : Prop :=
  match l with
  | [] => True
  | s :: l' => (forall s', In s' l' -> (s + gap <= s')%Z) /\ spaced gap l'
  end.

(** What one iteration of the sample loop of [generate_demo_csv.py]
    leaves in its locals and in its row when it starts with the cursor
    at [p] and stops with the cursor at [p']: the clench loop runs from
    cell [S p] to cell [q], the PPG noises are the cells [q], [q + 1]
    and [q + 2]. *)
Definition demo_sample_post (start_time : datetime) (duration_seconds i : Z)
    (tp : source) (p : nat) (loc : Demo.locals) (row : Row) (p' : nat)
  : Prop :=
  exists windows q,
    py_range3 0 duration_seconds 15 = Some windows /\
    clench_loop Demo.clench (IZR i / 20) windows tp (S p)
      = Ok (Demo.clench_amplitude loc, Demo.clench_hits loc) q /\
    (q + 9 <= p')%nat /\
    Demo.t loc = IZR i / 20 /\
    Demo.baseline loc = 50000 + 2000 * sin (Demo.t loc / 30) /\
    Demo.bpm loc = 70 + uniform_of (-2) 2 (tp p) /\
    Demo.cardiac loc
      = 1500 * sin (2 * PI * (Demo.bpm loc / 60) * Demo.t loc) /\
    Demo.breathing loc = 800 * sin (2 * PI * (15 / 60) * Demo.t loc) /\
    Demo.noise loc = gauss_of 0 300 (tp q) /\
    ppg_ir row
      = Z.max 0 (Z.min 262143
          (py_int (Demo.baseline loc + Demo.cardiac loc + Demo.breathing loc
                   + Demo.clench_amplitude loc + Demo.noise loc))) /\
    Demo.noise_red loc = gauss_of 0 200 (tp (S q)) /\
    Demo.noise_green loc = gauss_of 0 150 (tp (S (S q))) /\
    ppg_red row = py_int (IZR (ppg_ir row) * 0.7 + Demo.noise_red loc) /\
    ppg_green row = py_int (IZR (ppg_ir row) * 0.5 + Demo.noise_green loc) /\
    Demo.spo2_raw loc
      = Rmax 95 (Rmin 100 (98 + gauss_of 0 0.5 (tp (Nat.pred p')))) /\
    spo2 row = fmt_fixed 1 (Demo.spo2_raw loc) /\
    battery row = 85%Z /\
    timestamp row = strftime_ms (start_time + 50000 * i)%Z /\
    device_id row = "DEMO-ORALABLE-001"%string.

(** The same for the sample loop of [generate_session]: the clench loop
    runs from cell [p] to cell [q], the PPG noise is cell [q] and the
    SpO2 jitter is cell [q + 6]. *)
Definition session_sample_post (session_id : Z) (session_date : datetime)
    (duration_minutes i : Z)
    (tp : source) (p : nat) (loc : Professional.locals) (row : Row) (p' : nat)
  : Prop :=
  exists windows q,
    py_range3 0 (duration_minutes * 60) (12 + session_id * 3) = Some windows /\
    clench_loop Professional.clench (IZR i / 20) windows tp p
      = Ok (Professional.clench_amplitude loc, Professional.clench_hits loc) q /\
    p' = (q + 7)%nat /\
    Professional.t loc = IZR i / 20 /\
    Professional.clench_frequency loc = (12 + session_id * 3)%Z /\
    Professional.baseline loc = 48000 + 4000 * sin (Professional.t loc / 45) /\
    Professional.cardiac loc
      = 1200 * sin (2 * PI * (72 / 60) * Professional.t loc) /\
    Professional.breathing loc
      = 600 * sin (2 * PI * (14 / 60) * Professional.t loc) /\
    Professional.noise loc = gauss_of 0 250 (tp q) /\
    ppg_ir row
      = py_int (Professional.baseline loc + Professional.cardiac loc
                + Professional.breathing loc
                + Professional.clench_amplitude loc + Professional.noise loc) /\
    ppg_red row = int_fmul (ppg_ir row) b64_0_7_num b64_0_7_exp /\
    ppg_green row = py_int (IZR (ppg_ir row) * 0.5) /\
    heart_rate row = (72 + randint_of (-3) 3 (tp (q + 5)%nat))%Z /\
    Professional.spo2_raw loc = 98.0 + gauss_of 0 0.4 (tp (q + 6)%nat) /\
    spo2 row = fmt_fixed 1 (Professional.spo2_raw loc) /\
    battery row = (90 - session_id * 5)%Z /\
    timestamp row = strftime_ms (session_date + 50000 * i)%Z /\
    device_id row = "ORALABLE-DEMO-DEVICE"%string.

(** Rows whose timestamps start at [start] (as printed, i.e. cut to
    milliseconds) and advance by exactly 50 ms, one sample period at
    20 Hz, from each row to the next. *)
Definition regular_timestamps (start : datetime) (rows : list Row) : Prop :=
  (forall i r, nth_error rows i = Some r ->
     timestamp r = strftime_ms (start + 50000 * Z.of_nat i)%Z) /\
  (forall i r, nth_error rows i = Some r ->
     timestamp r = (strftime_ms start + 50 * Z.of_nat i)%Z) /\
  (forall i r r', nth_error rows i = Some r -> nth_error rows (S i) = Some r' ->
     timestamp r' = (timestamp r + 50)%Z) /\
  (forall i j r r', (i < j)%nat ->
     nth_error rows i = Some r -> nth_error rows j = Some r' ->
     (timestamp r < timestamp r')%Z).

(** Two rows agree on the fields that do not depend on the random
    source. *)
Definition same_fixed_fields (r r' : Row) : Prop :=
  timestamp r = timestamp r' /\ battery r = battery r'
  /\ device_id r = device_id r'.

(** Random sources used to exercise the generators. *)

(** Every cell reads the same. *)
Definition tape_const (u z : R) (b : Z) : source := fun _ => mkDraw u z b.

(** The Gaussian reading of cell [n] is [n]. *)
Definition tape_count : source := fun n => mkDraw 0 (INR n) 0.

(** [random()] answers [0] first and [1] ever after. *)
Definition tape_step : source :=
  fun n => mkDraw (if Nat.eqb n 0 then 0 else 1) 0 0.

(** [random()] answers [1], [1/2], [1/3], ... *)
Definition tape_harmonic : source := fun n => mkDraw (/ (INR n + 1)) 0 0.

(** The envelope the specification describes: over the window that
    starts at [start] and lasts [d], a linear rise over the first
    fraction [r] of the window, a plateau at [a], a linear descent over
    the last fraction [r]; zero outside the window. *)
Definition trapezoid (start d r a t : R) : R :=
  let progress := (t - start) / d in
  if Rltb t start || Rleb (start + d) t then 0
  else if Rltb progress r then progress / r * a
  else if Rltb (1 - r) progress then (1 - progress) / r * a
  else a.

(** What the clench loop of one sample leaves behind: either no window
    test succeeded and the amplitude is [0], or exactly one did, for the
    window starting at [s], and the amplitude is the trapezoid whose
    duration and plateau are two consecutive cells among the cells
    [lo], ..., [hi - 1]. *)
Definition own_envelope (c : clench_consts) (tp : source) (lo hi : nat)
    (t amp : R) (hits : list Z) : Prop :=
  (hits = [] /\ amp = 0) \/
  exists s q, hits = [s] /\ (lo <= q)%nat /\ (S q < hi)%nat /\
    let d := uniform_of (d_min c) (d_max c) (tp q) in
    let a := uniform_of (a_min c) (a_max c) (tp (S q)) in
    d_min c <= d <= d_max c /\ a_min c <= a <= a_max c /\
    IZR s <= t < IZR s + d /\
    amp = trapezoid (IZR s) d (ramp c) a t.

(** The remaining fields of a row of [generate_demo_csv.py]: the
    accelerometer, the temperature and the displayed heart rate, in
    terms of the cells read after the clench loop, which stops at cell
    [q].  The two extra draws of the motion artifact are the cells
    [q + 6] and [q + 7]. *)
Definition demo_sample_rest (duration_seconds i : Z)
    (tp : source) (p : nat) (loc : Demo.locals) (row : Row) (p' : nat)
  : Prop :=
  exists windows q,
    py_range3 0 duration_seconds 15 = Some windows /\
    clench_loop Demo.clench (IZR i / 20) windows tp (S p)
      = Ok (Demo.clench_amplitude loc, Demo.clench_hits loc) q /\
    (if Rltb 5000 (Demo.clench_amplitude loc) then
       p' = (q + 11)%nat /\
       accel_x row
       = py_int ((gauss_of 0 0.01 (tp (q + 3)%nat)
                  + gauss_of 0 0.05 (tp (q + 6)%nat)) * 16384) /\
       accel_y row
       = py_int ((gauss_of 0 0.01 (tp (q + 4)%nat)
                  + gauss_of 0 0.05 (tp (q + 7)%nat)) * 16384)
     else
       p' = (q + 9)%nat /\
       accel_x row = py_int (gauss_of 0 0.01 (tp (q + 3)%nat) * 16384) /\
       accel_y row = py_int (gauss_of 0 0.01 (tp (q + 4)%nat) * 16384)) /\
    accel_z row = py_int ((1.0 + gauss_of 0 0.01 (tp (q + 5)%nat)) * 16384) /\
    temperature row
    = fmt_fixed 2 (36.5 + 0.3 * sin (IZR i / 20 / 60)
                   + gauss_of 0 0.05 (tp (p' - 3)%nat)) /\
    heart_rate row
    = py_int (Demo.bpm loc + gauss_of 0 1 (tp (p' - 2)%nat)).

(** The same for a row of [generate_session]. *)
Definition session_sample_rest (session_id duration_minutes i : Z)
    (tp : source) (p : nat) (loc : Professional.locals) (row : Row) (p' : nat)
  : Prop :=
  exists windows q,
    py_range3 0 (duration_minutes * 60) (12 + session_id * 3) = Some windows /\
    clench_loop Professional.clench (IZR i / 20) windows tp p
      = Ok (Professional.clench_amplitude loc, Professional.clench_hits loc) q /\
    p' = (q + 7)%nat /\
    accel_x row = py_int (gauss_of 0 150 (tp (q + 1)%nat)) /\
    accel_y row = py_int (gauss_of 0 150 (tp (q + 2)%nat)) /\
    accel_z row = py_int (16384 + gauss_of 0 150 (tp (q + 3)%nat)) /\
    temperature row
    = fmt_fixed 2 (36.4 + 0.2 * sin (IZR i / 20 / 120)
                   + gauss_of 0 0.03 (tp (q + 4)%nat)).

(** The timestamps of the rows, in file order, are strictly
    increasing. *)
Definition increasing_timestamps (rows : list Row) : Prop :=
  StronglySorted Z.lt (map timestamp rows).

(** An integer obtained by truncating a float that is [y] up to its
    rounding. *)
Definition near (x : Z) (y : R) : Prop := y - 1.001 < IZR x < y + 1.001.

(** How the accelerometer of a sample of [generate_demo_csv.py] depends
    on its clench.  The sample reads the cells [lo], ..., [hi - 1];
    [windows] are the window starts.  Outside every window the sample
    reads one cell per window and nine more, and the x and y axes are
    their base noise; on the part of a window where every admissible
    clench is on its plateau it reads three cells more, and the x and y
    axes are the sum of their base noise and of the motion noise. *)
Definition motion_rule (tp : source) (windows : list Z) (lo hi : nat)
    (lr : Demo.locals * Row) : Prop :=
  let loc := fst lr in
  let row := snd lr in
  let n := length windows in
  ((forall s, In s windows ->
      Demo.t loc < IZR s \/ IZR s + 4 <= Demo.t loc) ->
   Demo.clench_amplitude loc = 0 /\ hi = (lo + n + 10)%nat /\
   near (accel_x row) (gauss_of 0 0.01 (tp (lo + n + 4)%nat) * 16384) /\
   near (accel_y row) (gauss_of 0 0.01 (tp (lo + n + 5)%nat) * 16384) /\
   near (accel_z row)
     ((1.0 + gauss_of 0 0.01 (tp (lo + n + 6)%nat)) * 16384)) /\
  (forall s, In s windows ->
     IZR s + 0.85 <= Demo.t loc <= IZR s + 1.55 ->
     10000 <= Demo.clench_amplitude loc <= 20000 /\
     hi = (lo + n + 13)%nat /\
     near (accel_x row)
       ((gauss_of 0 0.01 (tp (lo + n + 5)%nat)
         + gauss_of 0 0.05 (tp (lo + n + 8)%nat)) * 16384) /\
     near (accel_y row)
       ((gauss_of 0 0.01 (tp (lo + n + 6)%nat)
         + gauss_of 0 0.05 (tp (lo + n + 9)%nat)) * 16384) /\
     near (accel_z row)
       ((1.0 + gauss_of 0 0.01 (tp (lo + n + 7)%nat)) * 16384)).

(* ================================================================= *)
(** * Properties *)

(** ** Numerics *)

Lemma Rleb_true x y : Rleb x y = true <-> x <= y.
Proof. unfold Rleb; destruct (Rle_dec x y); split; intros; try easy. Qed.

Lemma Rleb_false x y : Rleb x y = false <-> y < x.
Proof.
  unfold Rleb; destruct (Rle_dec x y); split; intros; try easy; lra.
Qed.

Lemma Rltb_true x y : Rltb x y = true <-> x < y.
Proof. unfold Rltb; destruct (Rlt_dec x y); split; intros; try easy. Qed.

Lemma Rltb_false x y : Rltb x y = false <-> y <= x.
Proof.
  unfold Rltb; destruct (Rlt_dec x y); split; intros; try easy; lra.
Qed.

Lemma py_floor_spec x : IZR (py_floor x) <= x < IZR (py_floor x) + 1.
Proof.
  unfold py_floor. destruct (base_Int_part x) as [H1 H2]. lra.
Qed.

Lemma py_floor_unique x z : IZR z <= x < IZR z + 1 -> py_floor x = z.
Proof.
  intros H. unfold py_floor. symmetry. apply Int_part_spec. lra.
Qed.

Lemma py_floor_IZR z : py_floor (IZR z) = z.
Proof. apply py_floor_unique. lra. Qed.

Lemma py_floor_range a b x :
  IZR a <= x <= IZR b -> (a <= py_floor x <= b)%Z.
Proof.
  intros [Ha Hb]. destruct (py_floor_spec x) as [H1 H2]. split.
  - apply Z.lt_succ_r, lt_IZR. rewrite succ_IZR. lra.
  - apply le_IZR. lra.
Qed.

Lemma py_int_IZR z : py_int (IZR z) = z.
Proof.
  unfold py_int. destruct (Rle_dec 0 (IZR z)).
  - apply py_floor_IZR.
  - rewrite <- opp_IZR, py_floor_IZR. lia.
Qed.

Lemma py_int_nonneg_range a b x :
  0 <= x -> IZR a <= x <= IZR b -> (a <= py_int x <= b)%Z.
Proof.
  intros H0 H. unfold py_int. destruct (Rle_dec 0 x); [|lra].
  now apply py_floor_range.
Qed.

Lemma round_half_even_IZR z : round_half_even (IZR z) = z.
Proof.
  unfold round_half_even. rewrite py_floor_IZR.
  destruct (Rlt_dec (IZR z - IZR z) (1 / 2)); [reflexivity | lra].
Qed.

Lemma round_half_even_range a b x :
  IZR a <= x <= IZR b -> (a <= round_half_even x <= b)%Z.
Proof.
  intros H. pose proof (py_floor_range a b x H) as Hf.
  pose proof (py_floor_spec x) as Hs.
  unfold round_half_even.
  destruct (Rlt_dec (x - IZR (py_floor x)) (1 / 2)); [exact Hf|].
  assert (py_floor x < b)%Z.
  { apply lt_IZR. lra. }
  destruct (Rlt_dec (1 / 2) (x - IZR (py_floor x))); [lia|].
  destruct (Z.even (py_floor x)); lia.
Qed.

(** Rounding to the nearest integer moves a number by at most a half. *)
Lemma round_half_even_error x :
  x - 1 / 2 <= IZR (round_half_even x) <= x + 1 / 2.
Proof.
  pose proof (py_floor_spec x) as Hs. unfold round_half_even.
  destruct (Rlt_dec (x - IZR (py_floor x)) (1 / 2)); [lra|].
  destruct (Rlt_dec (1 / 2) (x - IZR (py_floor x))).
  - rewrite plus_IZR. lra.
  - destruct (Z.even (py_floor x)); rewrite ?plus_IZR; lra.
Qed.

Lemma timedelta_seconds_sample (i : Z) :
  timedelta_seconds (IZR i / 20) = (50000 * i)%Z.
Proof.
  unfold timedelta_seconds.
  replace (IZR i / 20 * 1000000) with (IZR (50000 * i)).
  - apply round_half_even_IZR.
  - rewrite mult_IZR. lra.
Qed.

(** ** Loops *)

Lemma mapM_chain {A B} (f : A -> M B) tp l : forall p bs p',
  mapM f l tp p = Ok bs p' <-> run_chain f tp p l bs p'.
Proof.
  induction l as [|a l IH]; intros p bs p'; simpl.
  - unfold ret. split; intros H.
    + injection H as <- <-. constructor.
    + inversion H; subst. reflexivity.
  - unfold bind at 1. split; intros H.
    + destruct (f a tp p) as [b q|e] eqn:Hf; [|discriminate].
      unfold bind in H.
      destruct (mapM f l tp q) as [bs' q'|e] eqn:Hm; [|discriminate].
      unfold ret in H. injection H as <- <-.
      econstructor; [eassumption|]. now apply IH.
    + inversion H as [|? ? b q ? bs' ? Hf Hc]; subst.
      rewrite Hf. unfold bind. apply IH in Hc. rewrite Hc. reflexivity.
Qed.

(** A loop whose body always returns, returns. *)
Lemma mapM_total {A B} (f : A -> M B) tp l :
  (forall a p, In a l -> exists b p', f a tp p = Ok b p') ->
  forall p, exists bs p', mapM f l tp p = Ok bs p'.
Proof.
  induction l as [|a l IH]; intros Hf p; simpl.
  - now exists [], p.
  - destruct (Hf a p (or_introl eq_refl)) as (b & q & Hb).
    destruct (IH (fun a' p' H => Hf a' p' (or_intror H)) q) as (bs & q' & Hbs).
    exists (b :: bs), q'. unfold bind. rewrite Hb, Hbs. reflexivity.
Qed.

Lemma chain_length {A B} (f : A -> M B) tp p l bs p' :
  run_chain f tp p l bs p' -> length bs = length l.
Proof. induction 1; simpl; congruence. Qed.

(** The [i]-th result of a loop comes from the [i]-th element. *)
Lemma chain_nth {A B} (f : A -> M B) tp p l bs p' :
  run_chain f tp p l bs p' ->
  forall i b, nth_error bs i = Some b ->
  exists a q q', nth_error l i = Some a /\ f a tp q = Ok b q'.
Proof.
  induction 1 as [|p a b p' l bs p'' Hf Hc IH]; intros [|i] b0 Hb;
    simpl in Hb; try discriminate.
  - injection Hb as <-. now exists a, p, p'.
  - now apply IH.
Qed.

(** Two consecutive results of a loop: the second iteration starts where
    the first one stopped. *)
Lemma chain_nth_next {A B} (f : A -> M B) tp p l bs p' :
  run_chain f tp p l bs p' ->
  forall i b b', nth_error bs i = Some b -> nth_error bs (S i) = Some b' ->
  exists a a' q q' q'',
    nth_error l i = Some a /\ nth_error l (S i) = Some a' /\
    f a tp q = Ok b q' /\ f a' tp q' = Ok b' q''.
Proof.
  induction 1 as [|p a b p' l bs p'' Hf Hc IH]; intros [|i] b0 b1 Hb Hb';
    simpl in Hb, Hb'; try discriminate.
  - injection Hb as <-.
    destruct Hc as [|q a' b' q' l' bs' q'' Hf' Hc']; simpl in Hb';
      [discriminate|].
    injection Hb' as <-. now exists a, a', p, q, q'.
  - now apply (IH i).
Qed.

(** The first result of a loop. *)
Lemma chain_head {A B} (f : A -> M B) tp p a l bs p' :
  run_chain f tp p (a :: l) bs p' ->
  exists b q bs', bs = b :: bs' /\ f a tp p = Ok b q /\ run_chain f tp q l bs' p'.
Proof. inversion 1; subst. eauto 6. Qed.

(** The [i]-th iteration of a loop runs from the cursor after the first
    [i] iterations to the cursor after the first [i + 1]. *)
Lemma chain_cursor {A B} (f : A -> M B) tp p l bs p' :
  run_chain f tp p l bs p' ->
  forall i b, nth_error bs i = Some b ->
  exists a, nth_error l i = Some a /\
    f a tp (cursor_after f tp p (firstn i l))
    = Ok b (cursor_after f tp p (firstn (S i) l)).
Proof.
  induction 1 as [|p a b p' l bs p'' Hf Hc IH]; intros [|i] b0 Hb;
    simpl in Hb; try discriminate.
  - injection Hb as <-. exists a. split; [reflexivity|].
    cbn [firstn cursor_after]. now rewrite Hf.
  - destruct (IH i b0 Hb) as (a' & Ha' & Hf').
    exists a'. split; [exact Ha'|].
    change (firstn (S i) (a :: l)) with (a :: firstn i l).
    change (firstn (S (S i)) (a :: l)) with (a :: firstn (S i) l).
    cbn [cursor_after]. rewrite Hf. exact Hf'.
Qed.

Lemma py_range_length n : length (py_range n) = Z.to_nat n.
Proof. unfold py_range. now rewrite length_map, length_seq. Qed.

Lemma py_range_nth n i a :
  nth_error (py_range n) i = Some a -> a = Z.of_nat i /\ (i < Z.to_nat n)%nat.
Proof.
  unfold py_range. intros H.
  assert (Hi : (i < Z.to_nat n)%nat).
  { assert (Hs : nth_error (map Z.of_nat (seq 0 (Z.to_nat n))) i <> None)
      by congruence.
    apply nth_error_Some in Hs. now rewrite length_map, length_seq in Hs. }
  rewrite nth_error_map, nth_error_seq in H.
  destruct (Nat.ltb_spec i (Z.to_nat n)) as [_|Hge]; [|lia].
  simpl in H. injection H as <-. now split.
Qed.

Lemma py_range_cons n :
  (0 < n)%Z -> exists l, py_range n = 0%Z :: l.
Proof.
  intros Hn. unfold py_range.
  destruct (Z.to_nat n) as [|k] eqn:Hk; [lia|].
  simpl. eauto.
Qed.

(** ** The clench loop *)

(** One window, evaluated: the duration is the cell under the cursor and,
    when the window test succeeds, the amplitude is the next cell. *)
Lemma clench_window_eval c t s tp p :
  clench_window c t s tp p =
  let d := uniform_of (d_min c) (d_max c) (tp p) in
  if Rleb (IZR s) t && Rltb t (IZR s + d) then
    let progress := (t - IZR s) / d in
    let a := uniform_of (a_min c) (a_max c) (tp (S p)) in
    Ok (Some (if Rltb progress (ramp c) then progress / ramp c * a
              else if Rltb (fall c) progress then (1 - progress) / ramp c * a
              else a)) (S (S p))
  else Ok None (S p).
Proof.
  cbv beta iota zeta delta [clench_window bind uniform next_draw ret].
  destruct (Rleb (IZR s) t && Rltb t (IZR s + _)); [|reflexivity].
  destruct (Rltb _ (ramp c)); [reflexivity|].
  destruct (Rltb (fall c) _); reflexivity.
Qed.

Lemma uniform_of_range a b d :
  a <= b -> 0 <= unit01 d <= 1 -> a <= uniform_of a b d <= b.
Proof. unfold uniform_of. intros Hab [H0 H1]. split; nra. Qed.

(** A window whose test fails consumes one cell and assigns nothing. *)
Lemma clench_window_inactive c t s tp p :
  wf_source tp -> d_min c <= d_max c ->
  t < IZR s \/ IZR s + d_max c <= t ->
  clench_window c t s tp p = Ok None (S p).
Proof.
  intros Hwf Hd Hout. rewrite clench_window_eval. cbv zeta.
  pose proof (uniform_of_range _ _ (tp p) Hd (Hwf p)) as Hu.
  destruct (Rleb (IZR s) t) eqn:E1; [|reflexivity].
  destruct (Rltb t _) eqn:E2; [|reflexivity].
  apply Rleb_true in E1. apply Rltb_true in E2. lra.
Qed.

(** A window only ever assigns a value between [0] and [a_max]. *)
Lemma clench_window_bound c t s tp p a q :
  sane c -> wf_source tp ->
  clench_window c t s tp p = Ok (Some a) q ->
  0 <= a <= a_max c /\ IZR s <= t < IZR s + d_max c.
Proof.
  intros (Hd & Hr & Hf & Ha) Hwf. rewrite clench_window_eval. cbv zeta.
  pose proof (uniform_of_range _ _ (tp p) (proj2 Hd) (Hwf p)) as Hu.
  pose proof (uniform_of_range _ _ (tp (S p)) (proj2 Ha) (Hwf (S p))) as Hv.
  set (d := uniform_of (d_min c) (d_max c) (tp p)) in *.
  set (v := uniform_of (a_min c) (a_max c) (tp (S p))) in *.
  destruct (Rleb (IZR s) t) eqn:E1; [|discriminate].
  destruct (Rltb t _) eqn:E2; [|discriminate]. simpl.
  apply Rleb_true in E1. apply Rltb_true in E2.
  assert (Hd0 : 0 < d) by lra.
  assert (Hp : 0 <= (t - IZR s) / d < 1).
  { split.
    - apply Rmult_le_pos; [lra|]. left. now apply Rinv_0_lt_compat.
    - apply (Rmult_lt_reg_r d); [assumption|].
      unfold Rdiv. rewrite Rmult_assoc, Rinv_l by lra. lra. }
  set (pr := (t - IZR s) / d) in *.
  intros H. injection H as <- _. split; [|lra].
  assert (Hscale : forall k, 0 <= k <= 1 -> 0 <= k * v <= a_max c).
  { intros k Hk. split; nra. }
  assert (Hdiv : forall x, 0 <= x <= ramp c -> 0 <= x / ramp c <= 1).
  { intros x Hx. split.
    - apply Rmult_le_pos; [lra|]. left. now apply Rinv_0_lt_compat.
    - apply (Rmult_le_reg_r (ramp c)); [assumption|].
      unfold Rdiv. rewrite Rmult_assoc, Rinv_l by lra. lra. }
  destruct (Rltb pr (ramp c)) eqn:E3.
  - apply Rltb_true in E3. apply Hscale, Hdiv. lra.
  - destruct (Rltb (fall c) pr) eqn:E4.
    + apply Rltb_true in E4. apply Hscale, Hdiv. lra.
    + lra.
Qed.

(** At [t = 0] a window can only assign [0]. *)
Lemma clench_window_origin c s tp p r q :
  0 < ramp c -> (0 <= s)%Z ->
  clench_window c 0 s tp p = Ok r q ->
  (r = None \/ r = Some 0) /\ (p < q)%nat.
Proof.
  intros Hr Hs. rewrite clench_window_eval. cbv zeta.
  destruct (Rleb (IZR s) 0) eqn:E1; simpl.
  - apply Rleb_true in E1.
    assert (s = 0%Z) as ->.
    { apply IZR_le in Hs. apply eq_IZR. lra. }
    destruct (Rltb 0 _); simpl.
    + replace ((0 - 0) / _) with 0 by (unfold Rdiv; ring).
      destruct (Rltb 0 (ramp c)) eqn:E3.
      * intros H. injection H as <- <-. split; [|lia]. right. f_equal.
        unfold Rdiv. ring.
      * apply Rltb_false in E3. lra.
    + intros H. injection H as <- <-. split; [now left | lia].
  - intros H. injection H as <- <-. split; [now left | lia].
Qed.

Lemma clench_step_eval c t st s tp p :
  clench_step c t st s tp p =
  match clench_window c t s tp p with
  | Ok r q => Ok (match r with
                  | Some a => (a, snd st ++ [s])
                  | None => st
                  end) q
  | Raise e => Raise e
  end.
Proof. reflexivity. Qed.

Lemma foldM_cons {A B} (f : B -> A -> M B) b a l tp p :
  foldM f b (a :: l) tp p =
  match f b a tp p with
  | Ok b' q => foldM f b' l tp q
  | Raise e => Raise e
  end.
Proof. reflexivity. Qed.

(** The clench loop never raises and consumes at least one cell per
    window. *)
Lemma clench_fold_total c t ws : forall st tp p,
  exists st' q, foldM (clench_step c t) st ws tp p = Ok st' q
                /\ (p + length ws <= q)%nat.
Proof.
  induction ws as [|s ws IH]; intros st tp p.
  - exists st, p. split; [reflexivity | simpl; lia].
  - rewrite foldM_cons, clench_step_eval, clench_window_eval. cbv zeta.
    destruct (_ && _).
    + edestruct IH as (st' & q & -> & Hq). exists st', q.
      split; [reflexivity | simpl; lia].
    + edestruct IH as (st' & q & -> & Hq). exists st', q.
      split; [reflexivity | simpl; lia].
Qed.

(** The loop-carried amplitude stays between [0] and [a_max]. *)
Lemma clench_fold_bound c t tp ws : forall st p st' q,
  sane c -> wf_source tp ->
  0 <= fst st <= a_max c ->
  foldM (clench_step c t) st ws tp p = Ok st' q ->
  0 <= fst st' <= a_max c.
Proof.
  induction ws as [|s ws IH]; intros st p st' q Hc Hwf Hst.
  - simpl. unfold ret. intros H. now injection H as <- _.
  - rewrite foldM_cons, clench_step_eval.
    destruct (clench_window c t s tp p) as [r q1|e] eqn:Hw; [|discriminate].
    apply IH; try assumption.
    destruct r as [a|]; [|assumption].
    simpl. eapply clench_window_bound; eassumption.
Qed.

(** Windows that cannot contain [t] leave the loop-carried variables
    alone; each consumes exactly one cell. *)
Lemma clench_fold_inactive c t tp ws : forall st p,
  wf_source tp -> d_min c <= d_max c ->
  (forall s, In s ws -> t < IZR s \/ IZR s + d_max c <= t) ->
  foldM (clench_step c t) st ws tp p = Ok st (p + length ws)%nat.
Proof.
  induction ws as [|s ws IH]; intros st p Hwf Hd Hout.
  - simpl. unfold ret. f_equal. lia.
  - rewrite foldM_cons, clench_step_eval.
    rewrite clench_window_inactive by (auto; apply Hout; now left).
    rewrite IH by (auto; intros; apply Hout; now right).
    f_equal. simpl. lia.
Qed.

(** With window starts further apart than the longest clench, at most
    one window test succeeds per sample. *)
Lemma clench_fold_one_hit c t tp gap ws : forall amp p st' q,
  sane c -> wf_source tp ->
  d_max c <= IZR gap -> spaced gap ws ->
  foldM (clench_step c t) (amp, []) ws tp p = Ok st' q ->
  (length (snd st') <= 1)%nat.
Proof.
  induction ws as [|s ws IH]; intros amp p st' q Hc Hwf Hgap Hsp.
  - simpl. unfold ret. intros H. injection H as <- _. simpl. lia.
  - destruct Hsp as [Hs Hsp].
    rewrite foldM_cons, clench_step_eval.
    destruct (clench_window c t s tp p) as [[a|] q1|e] eqn:Hw;
      [| |discriminate].
    + destruct (clench_window_bound _ _ _ _ _ _ _ Hc Hwf Hw) as [_ Hin].
      rewrite clench_fold_inactive.
      * intros H. injection H as <- _. simpl. lia.
      * assumption.
      * apply Hc.
      * intros s' Hs'. left. apply Hs in Hs'. apply IZR_le in Hs'.
        rewrite plus_IZR in Hs'. lra.
    + now apply IH.
Qed.

(** At [t = 0] the loop leaves [clench_amplitude] at [0]. *)
Lemma clench_fold_origin c tp ws : forall st p st' q,
  0 < ramp c -> (forall s, In s ws -> (0 <= s)%Z) ->
  fst st = 0 ->
  foldM (clench_step c 0) st ws tp p = Ok st' q ->
  fst st' = 0 /\ (p <= q)%nat.
Proof.
  induction ws as [|s ws IH]; intros st p st' q Hr Hpos Hst.
  - simpl. unfold ret. intros H. injection H as <- <-. now split.
  - rewrite foldM_cons, clench_step_eval.
    destruct (clench_window c 0 s tp p) as [r q1|e] eqn:Hw; [|discriminate].
    destruct (clench_window_origin _ _ _ _ _ _ Hr (Hpos s (or_introl eq_refl)) Hw)
      as [Hr0 Hq1].
    intros H. apply IH in H; auto.
    + split; [apply H | lia].
    + intros s' Hs'. apply Hpos. now right.
    + destruct Hr0 as [-> | ->]; [assumption | reflexivity].
Qed.

Lemma sane_demo : sane Demo.clench.
Proof. unfold sane, Demo.clench; simpl. lra. Qed.

Lemma sane_professional : sane Professional.clench.
Proof. unfold sane, Professional.clench; simpl. lra. Qed.

(** ** Ranges with a step *)

Lemma spaced_multiples step n : (0 <= step)%Z -> forall k,
  spaced step (map (fun j => (0 + Z.of_nat j * step)%Z) (seq k n)).
Proof.
  intros Hstep.
  induction n as [|n IH]; intros k; simpl; [exact I|].
  split; [|apply IH].
  intros s' Hs'. apply in_map_iff in Hs' as (j & <- & Hj).
  apply in_seq in Hj. nia.
Qed.

Lemma py_range3_spaced stop step l :
  (0 < step)%Z -> py_range3 0 stop step = Some l -> spaced step l.
Proof.
  unfold py_range3. intros Hstep. destruct (step =? 0)%Z; [discriminate|].
  intros H. injection H as <-. apply spaced_multiples. lia.
Qed.

Lemma py_range3_nonneg stop step l s :
  (0 < step)%Z -> py_range3 0 stop step = Some l -> In s l -> (0 <= s)%Z.
Proof.
  unfold py_range3. intros Hstep. destruct (step =? 0)%Z; [discriminate|].
  intros H Hs. injection H as <-.
  apply in_map_iff in Hs as (j & <- & _). nia.
Qed.

Lemma py_range3_some start stop step :
  step <> 0%Z -> exists l, py_range3 start stop step = Some l.
Proof.
  intros H. unfold py_range3. apply Z.eqb_neq in H. rewrite H. eauto.
Qed.

(** ** One iteration of each sample loop *)

Lemma demo_sample_spec start_time duration_seconds i tp p :
  exists loc row p',
    Demo.sample start_time duration_seconds i tp p = Ok (loc, row) p'
    /\ demo_sample_post start_time duration_seconds i tp p loc row p'.
Proof.
  destruct (py_range3_some 0 duration_seconds 15) as [ws Hws]; [lia|].
  destruct (clench_fold_total Demo.clench (IZR i / 20) ws (0, []) tp (S p))
    as ([amp hits] & q & Hloop & Hq).
  cbv beta iota zeta delta [Demo.sample bind uniform gauss next_draw ret range3].
  rewrite Hws. cbv beta iota.
  change (IZR Demo.sample_rate) with 20.
  rewrite timedelta_seconds_sample.
  unfold clench_loop at 1. rewrite Hloop. cbv beta iota.
  destruct (Rltb 5000 amp); cbv beta iota;
    (eexists _, _, _; split; [reflexivity|]);
    exists ws, q; simpl; repeat split; try reflexivity; try assumption; lia.
Qed.

Lemma session_sample_spec session_id session_date duration_minutes i tp p :
  session_id <> (-4)%Z ->
  exists loc row p',
    Professional.sample session_id session_date duration_minutes i tp p
      = Ok (loc, row) p'
    /\ session_sample_post session_id session_date duration_minutes i
         tp p loc row p'.
Proof.
  intros Hid.
  destruct (py_range3_some 0 (duration_minutes * 60) (12 + session_id * 3))
    as [ws Hws]; [lia|].
  destruct (clench_fold_total Professional.clench (IZR i / 20) ws (0, []) tp p)
    as ([amp hits] & q & Hloop & Hq).
  cbv beta iota zeta
      delta [Professional.sample bind uniform gauss randint next_draw ret range3].
  rewrite Hws. cbv beta iota.
  change (IZR Professional.sample_rate) with 20.
  rewrite timedelta_seconds_sample.
  unfold clench_loop at 1. rewrite Hloop. cbv beta iota.
  eexists _, _, _; split; [reflexivity|].
  exists ws, q; simpl.
  replace (q + 5)%nat with (S (S (S (S (S q))))) by lia.
  replace (q + 6)%nat with (S (S (S (S (S (S q)))))) by lia.
  repeat split; try reflexivity; try assumption; lia.
Qed.

(** ** The sample loops *)

Lemma demo_loop_total start_time duration_seconds tp p :
  exists trace p', Demo.sample_loop start_time duration_seconds tp p = Ok trace p'.
Proof.
  unfold Demo.sample_loop. apply mapM_total. intros i q _.
  destruct (demo_sample_spec start_time duration_seconds i tp q)
    as (loc & row & q' & H & _).
  now exists (loc, row), q'.
Qed.

Lemma demo_loop_length start_time duration_seconds tp p trace p' :
  Demo.sample_loop start_time duration_seconds tp p = Ok trace p' ->
  length trace = Z.to_nat (duration_seconds * 20).
Proof.
  unfold Demo.sample_loop. intros H. apply mapM_chain in H.
  apply chain_length in H. now rewrite H, py_range_length.
Qed.

(** Every element of the trace satisfies the postcondition of its
    iteration. *)
Lemma demo_loop_nth start_time duration_seconds tp p trace p' i loc row :
  Demo.sample_loop start_time duration_seconds tp p = Ok trace p' ->
  nth_error trace i = Some (loc, row) ->
  exists q q',
    demo_sample_post start_time duration_seconds (Z.of_nat i) tp q loc row q'.
Proof.
  unfold Demo.sample_loop. intros H Hi. apply mapM_chain in H.
  destruct (chain_nth _ _ _ _ _ _ H _ _ Hi) as (a & q & q' & Ha & Hf).
  apply py_range_nth in Ha as [-> _].
  destruct (demo_sample_spec start_time duration_seconds (Z.of_nat i) tp q)
    as (loc0 & row0 & q0 & Hs & Hpost).
  rewrite Hs in Hf. injection Hf as -> -> ->. now exists q, q'.
Qed.

(** Two consecutive elements of the trace: the second iteration starts
    where the first one stopped. *)
Lemma demo_loop_nth_next start_time duration_seconds tp p trace p'
    i loc row loc' row' :
  Demo.sample_loop start_time duration_seconds tp p = Ok trace p' ->
  nth_error trace i = Some (loc, row) ->
  nth_error trace (S i) = Some (loc', row') ->
  exists q q' q'',
    demo_sample_post start_time duration_seconds (Z.of_nat i) tp q loc row q'
    /\ demo_sample_post start_time duration_seconds (Z.of_nat (S i))
         tp q' loc' row' q''.
Proof.
  unfold Demo.sample_loop. intros H Hi Hi'. apply mapM_chain in H.
  destruct (chain_nth_next _ _ _ _ _ _ H _ _ _ Hi Hi')
    as (a & a' & q & q' & q'' & Ha & Ha' & Hf & Hf').
  apply py_range_nth in Ha as [-> _]. apply py_range_nth in Ha' as [-> _].
  destruct (demo_sample_spec start_time duration_seconds (Z.of_nat i) tp q)
    as (loc0 & row0 & q0 & Hs & Hpost).
  rewrite Hs in Hf. injection Hf as -> -> ->.
  destruct (demo_sample_spec start_time duration_seconds (Z.of_nat (S i)) tp q')
    as (loc1 & row1 & q1 & Hs' & Hpost').
  rewrite Hs' in Hf'. injection Hf' as -> -> ->.
  now exists q, q', q''.
Qed.

Lemma generate_demo_csv_eval now output_path duration_seconds tp p :
  Demo.generate_demo_csv now output_path duration_seconds tp p =
  match Demo.sample_loop now duration_seconds tp p with
  | Ok trace p' => Ok (output_path, write_csv (map snd trace)) p'
  | Raise e => Raise e
  end.
Proof. reflexivity. Qed.

Lemma session_loop_total session_id session_date duration_minutes tp p :
  session_id <> (-4)%Z ->
  exists trace p',
    Professional.sample_loop session_id session_date duration_minutes tp p
      = Ok trace p'.
Proof.
  intros Hid. unfold Professional.sample_loop. apply mapM_total. intros i q _.
  destruct (session_sample_spec session_id session_date duration_minutes
              i tp q Hid) as (loc & row & q' & H & _).
  now exists (loc, row), q'.
Qed.

Lemma session_loop_length session_id session_date duration_minutes tp p trace p' :
  Professional.sample_loop session_id session_date duration_minutes tp p
    = Ok trace p' ->
  length trace = Z.to_nat (duration_minutes * 60 * 20).
Proof.
  unfold Professional.sample_loop. intros H. apply mapM_chain in H.
  apply chain_length in H. now rewrite H, py_range_length.
Qed.

Lemma session_loop_nth session_id session_date duration_minutes
    tp p trace p' i loc row :
  session_id <> (-4)%Z ->
  Professional.sample_loop session_id session_date duration_minutes tp p
    = Ok trace p' ->
  nth_error trace i = Some (loc, row) ->
  exists q q',
    session_sample_post session_id session_date duration_minutes
      (Z.of_nat i) tp q loc row q'.
Proof.
  unfold Professional.sample_loop. intros Hid H Hi. apply mapM_chain in H.
  destruct (chain_nth _ _ _ _ _ _ H _ _ Hi) as (a & q & q' & Ha & Hf).
  apply py_range_nth in Ha as [-> _].
  destruct (session_sample_spec session_id session_date duration_minutes
              (Z.of_nat i) tp q Hid) as (loc0 & row0 & q0 & Hs & Hpost).
  rewrite Hs in Hf. injection Hf as -> -> ->. now exists q, q'.
Qed.

Lemma generate_session_eval session_id session_date duration_minutes tp p :
  Professional.generate_session session_id session_date duration_minutes tp p =
  match Professional.sample_loop session_id session_date duration_minutes tp p with
  | Ok trace p' => Ok (map snd trace) p'
  | Raise e => Raise e
  end.
Proof. reflexivity. Qed.

(** The rows of a session, through the trace of its sample loop. *)
Lemma generate_session_trace session_id session_date duration_minutes tp p :
  session_id <> (-4)%Z ->
  exists trace p',
    Professional.sample_loop session_id session_date duration_minutes tp p
      = Ok trace p'
    /\ Professional.generate_session session_id session_date duration_minutes
         tp p = Ok (map snd trace) p'.
Proof.
  intros Hid.
  destruct (session_loop_total session_id session_date duration_minutes tp p Hid)
    as (trace & p' & H).
  exists trace, p'. split; [assumption|].
  now rewrite generate_session_eval, H.
Qed.

Lemma generate_session_length session_id session_date duration_minutes
    tp p rows p' :
  Professional.generate_session session_id session_date duration_minutes tp p
    = Ok rows p' ->
  length rows = Z.to_nat (duration_minutes * 60 * 20).
Proof.
  rewrite generate_session_eval.
  destruct (Professional.sample_loop _ _ _ tp p) as [trace q|e] eqn:H;
    [|discriminate].
  intros E. injection E as <- _.
  rewrite length_map. eapply session_loop_length; eassumption.
Qed.

(** The samples of a run, with the cursors between which each one
    reads. *)
Lemma demo_loop_at start_time duration_seconds tp p trace p' i loc row :
  Demo.sample_loop start_time duration_seconds tp p = Ok trace p' ->
  nth_error trace i = Some (loc, row) ->
  demo_sample_post start_time duration_seconds (Z.of_nat i) tp
    (demo_cursor start_time duration_seconds tp p i) loc row
    (demo_cursor start_time duration_seconds tp p (S i)).
Proof.
  unfold Demo.sample_loop, demo_cursor. intros H Hi. apply mapM_chain in H.
  destruct (chain_cursor _ _ _ _ _ _ H _ _ Hi) as (a & Ha & Hf).
  apply py_range_nth in Ha as [-> _].
  set (lo := cursor_after _ tp p (firstn i _)) in *.
  set (hi := cursor_after _ tp p (firstn (S i) _)) in *.
  destruct (demo_sample_spec start_time duration_seconds (Z.of_nat i) tp lo)
    as (loc0 & row0 & q0 & Hs & Hpost).
  rewrite Hs in Hf. injection Hf as -> -> ->. exact Hpost.
Qed.

Lemma session_loop_at session_id session_date duration_minutes
    tp p trace p' i loc row :
  session_id <> (-4)%Z ->
  Professional.sample_loop session_id session_date duration_minutes tp p
    = Ok trace p' ->
  nth_error trace i = Some (loc, row) ->
  session_sample_post session_id session_date duration_minutes
    (Z.of_nat i) tp
    (session_cursor session_id session_date duration_minutes tp p i) loc row
    (session_cursor session_id session_date duration_minutes tp p (S i)).
Proof.
  unfold Professional.sample_loop, session_cursor. intros Hid H Hi.
  apply mapM_chain in H.
  destruct (chain_cursor _ _ _ _ _ _ H _ _ Hi) as (a & Ha & Hf).
  apply py_range_nth in Ha as [-> _].
  set (lo := cursor_after _ tp p (firstn i _)) in *.
  set (hi := cursor_after _ tp p (firstn (S i) _)) in *.
  destruct (session_sample_spec session_id session_date duration_minutes
              (Z.of_nat i) tp lo Hid) as (loc0 & row0 & q0 & Hs & Hpost).
  rewrite Hs in Hf. injection Hf as -> -> ->. exact Hpost.
Qed.

Lemma nth_error_map_snd {A B} (l : list (A * B)) i b :
  nth_error (map snd l) i = Some b ->
  exists a, nth_error l i = Some (a, b).
Proof.
  rewrite nth_error_map. destruct (nth_error l i) as [[a b']|]; simpl;
    [|discriminate].
  intros H. injection H as <-. now exists a.
Qed.

(** ** Sample count and timestamps *)

Lemma strftime_ms_sample (start i : Z) :
  strftime_ms (start + 50000 * i)%Z = (strftime_ms start + 50 * i)%Z.
Proof.
  unfold strftime_ms.
  replace (start + 50000 * i)%Z with (start + (50 * i) * 1000)%Z by lia.
  now rewrite Z.div_add by lia.
Qed.

Lemma regular_timestamps_intro start rows :
  (forall i r, nth_error rows i = Some r ->
     timestamp r = strftime_ms (start + 50000 * Z.of_nat i)%Z) ->
  regular_timestamps start rows.
Proof.
  intros H.
  assert (H' : forall i r, nth_error rows i = Some r ->
                 timestamp r = (strftime_ms start + 50 * Z.of_nat i)%Z).
  { intros i r Hi. rewrite (H i r Hi). apply strftime_ms_sample. }
  repeat split; try assumption.
  - intros i r r' Hi Hi'. rewrite (H' _ _ Hi), (H' _ _ Hi'). lia.
  - intros i j r r' Hij Hi Hj. rewrite (H' _ _ Hi), (H' _ _ Hj). lia.
Qed.

Lemma demo_rows_regular now duration_seconds tp p trace p' :
  Demo.sample_loop now duration_seconds tp p = Ok trace p' ->
  regular_timestamps now (map snd trace).
Proof.
  intros H. apply regular_timestamps_intro. intros i r Hi.
  apply nth_error_map_snd in Hi as [loc Hi].
  destruct (demo_loop_nth _ _ _ _ _ _ _ _ _ H Hi) as (q & q' & Hpost).
  destruct Hpost as (ws & q0 & Hpost). apply Hpost.
Qed.

Lemma session_rows_regular session_id session_date duration_minutes
    tp p trace p' :
  session_id <> (-4)%Z ->
  Professional.sample_loop session_id session_date duration_minutes tp p
    = Ok trace p' ->
  regular_timestamps session_date (map snd trace).
Proof.
  intros Hid H. apply regular_timestamps_intro. intros i r Hi.
  apply nth_error_map_snd in Hi as [loc Hi].
  destruct (session_loop_nth _ _ _ _ _ _ _ _ _ _ Hid H Hi) as (q & q' & Hpost).
  destruct Hpost as (ws & q0 & Hpost). apply Hpost.
Qed.

(** C3. In both scripts the sample rate is 20 Hz and a generated session
    has exactly [duration_seconds * sample_rate] rows; for
    [generate_session], whose duration is given in minutes, that is
    [duration_minutes * 60 * 20] rows.  (A session is generated unless
    [session_id = -4], where the window step is zero and [range] raises
    [ValueError].) *)
Theorem C3_sample_count :
  Demo.sample_rate = 20%Z /\ Professional.sample_rate = 20%Z /\
  (forall now output_path duration_seconds tp p,
     (0 <= duration_seconds)%Z ->
     returns (Demo.generate_demo_csv now output_path duration_seconds tp p)
       (fun f _ =>
          Z.of_nat (length (data_rows (snd f)))
          = (duration_seconds * Demo.sample_rate)%Z)) /\
  (forall session_id session_date duration_minutes tp p,
     session_id <> (-4)%Z -> (0 <= duration_minutes)%Z ->
     returns (Professional.generate_session session_id session_date
                duration_minutes tp p)
       (fun rows _ =>
          Z.of_nat (length rows)
          = (duration_minutes * 60 * Professional.sample_rate)%Z)).
Proof.
  split; [reflexivity|]. split; [reflexivity|]. split.
  - intros now output_path d tp p Hd.
    rewrite generate_demo_csv_eval.
    destruct (demo_loop_total now d tp p) as (trace & p' & H).
    rewrite H. simpl. rewrite length_map, (demo_loop_length _ _ _ _ _ _ H).
    unfold Demo.sample_rate. lia.
  - intros sid date dur tp p Hid Hd.
    destruct (generate_session_trace sid date dur tp p Hid)
      as (trace & p' & H & ->).
    simpl. rewrite length_map, (session_loop_length _ _ _ _ _ _ _ H).
    unfold Professional.sample_rate. lia.
Qed.

Lemma C3_sample_count_witness :
  ((0 <= 120)%Z /\
   returns (Demo.generate_demo_csv 0%Z "oralable_demo_data.csv" 120
              (tape_const 0 0 0) 0%nat)
     (fun f _ => Z.of_nat (length (data_rows (snd f))) = 2400%Z)) /\
  ((1 <> -4)%Z /\ (0 <= 8)%Z /\
   returns (Professional.generate_session 1 0%Z 8 (tape_const 0 0 0) 0%nat)
     (fun rows _ => Z.of_nat (length rows) = 9600%Z)).
Proof.
  split.
  - split; [lia|].
    apply (proj1 (proj2 (proj2 C3_sample_count))
             0%Z "oralable_demo_data.csv"%string 120%Z (tape_const 0 0 0) 0%nat).
    lia.
  - split; [lia|]. split; [lia|].
    apply (proj2 (proj2 (proj2 C3_sample_count))
             1%Z 0%Z 8%Z (tape_const 0 0 0) 0%nat); lia.
Defined.

(** C4. In both scripts the timestamps of a session start at the
    session start time and advance by exactly one sample period
    (50 ms = 1/20 s) from each row to the next, hence are strictly
    increasing; with [duration_seconds = 120] there are 2400 rows, the
    first stamped with the start time and the last with the start time
    plus 119.95 s.  Timestamps are compared as printed, i.e. at
    millisecond precision. *)
Theorem C4_timestamps :
  (forall now output_path duration_seconds tp p,
     returns (Demo.generate_demo_csv now output_path duration_seconds tp p)
       (fun f _ => regular_timestamps now (data_rows (snd f)))) /\
  (forall now output_path tp p,
     returns (Demo.generate_demo_csv now output_path 120 tp p)
       (fun f _ =>
          length (data_rows (snd f)) = 2400%nat /\
          exists first last,
            nth_error (data_rows (snd f)) 0 = Some first /\
            nth_error (data_rows (snd f)) 2399 = Some last /\
            timestamp first = strftime_ms now /\
            timestamp last = strftime_ms (now + 119950000)%Z /\
            timestamp last = (timestamp first + 119950)%Z)) /\
  (forall session_id session_date duration_minutes tp p,
     session_id <> (-4)%Z ->
     returns (Professional.generate_session session_id session_date
                duration_minutes tp p)
       (fun rows _ => regular_timestamps session_date rows)).
Proof.
  split; [|split].
  - intros now output_path d tp p.
    rewrite generate_demo_csv_eval.
    destruct (demo_loop_total now d tp p) as (trace & p' & H).
    rewrite H. simpl. eapply demo_rows_regular; eassumption.
  - intros now output_path tp p.
    rewrite generate_demo_csv_eval.
    destruct (demo_loop_total now 120 tp p) as (trace & p' & H).
    rewrite H. cbn [returns].
    change (data_rows (snd (output_path, write_csv (map snd trace))))
      with (map snd trace).
    pose proof (demo_rows_regular _ _ _ _ _ _ H) as (_ & Hreg & _).
    assert (Hlen : length (map snd trace) = 2400%nat).
    { rewrite length_map, (demo_loop_length _ _ _ _ _ _ H). reflexivity. }
    split; [assumption|].
    destruct (nth_error (map snd trace) 0) as [first|] eqn:H0.
    2:{ apply nth_error_None in H0. lia. }
    destruct (nth_error (map snd trace) 2399) as [last|] eqn:H1.
    2:{ apply nth_error_None in H1. lia. }
    exists first, last. split; [reflexivity|]. split; [reflexivity|].
    rewrite (Hreg _ _ H0), (Hreg _ _ H1).
    replace (now + 119950000)%Z with (now + 50000 * 2399)%Z by lia.
    rewrite strftime_ms_sample. lia.
  - intros sid date dur tp p Hid.
    destruct (generate_session_trace sid date dur tp p Hid)
      as (trace & p' & H & ->).
    simpl. eapply session_rows_regular; eassumption.
Qed.

Lemma C4_timestamps_witness :
  (1 <> -4)%Z /\
  returns (Professional.generate_session 1 0%Z 8 (tape_const 0 0 0) 0%nat)
    (fun rows _ => regular_timestamps 0%Z rows).
Proof.
  split; [lia|].
  apply (proj2 (proj2 C4_timestamps) 1%Z 0%Z 8%Z (tape_const 0 0 0) 0%nat).
  lia.
Defined.

(** ** Properties of every row *)

Lemma demo_rows_Forall now duration_seconds tp p trace p' (P : Row -> Prop) :
  Demo.sample_loop now duration_seconds tp p = Ok trace p' ->
  (forall i loc row q q',
     demo_sample_post now duration_seconds i tp q loc row q' -> P row) ->
  Forall P (map snd trace).
Proof.
  intros H HP. apply Forall_forall. intros r Hr.
  apply In_nth_error in Hr as [i Hi].
  apply nth_error_map_snd in Hi as [loc Hi].
  destruct (demo_loop_nth _ _ _ _ _ _ _ _ _ H Hi) as (q & q' & Hpost).
  eapply HP; eassumption.
Qed.

Lemma session_rows_Forall session_id session_date duration_minutes
    tp p trace p' (P : Row -> Prop) :
  session_id <> (-4)%Z ->
  Professional.sample_loop session_id session_date duration_minutes tp p
    = Ok trace p' ->
  (forall i loc row q q',
     session_sample_post session_id session_date duration_minutes
       i tp q loc row q' -> P row) ->
  Forall P (map snd trace).
Proof.
  intros Hid H HP. apply Forall_forall. intros r Hr.
  apply In_nth_error in Hr as [i Hi].
  apply nth_error_map_snd in Hi as [loc Hi].
  destruct (session_loop_nth _ _ _ _ _ _ _ _ _ _ Hid H Hi) as (q & q' & Hpost).
  eapply HP; eassumption.
Qed.

(** ** The files of the multi-session script *)

Lemma write_session_eval s tp p :
  Professional.write_session s tp p =
  match Professional.generate_session (Professional.id s) (Professional.date s)
          (Professional.duration s) tp p with
  | Ok rows q => Ok (Professional.session_filename s, write_csv rows) q
  | Raise e => Raise e
  end.
Proof. reflexivity. Qed.

(** [generate_professional_demo] runs [generate_session] six times on
    the same random source, one run after the other: three times for the
    per-session files and three more times for the combined file. *)
Lemma professional_demo_spec now1 now2 now3 tp p :
  exists r1 r2 r3 r1' r2' r3' q1 q2 q3 q4 q5 q6,
    Professional.generate_session 1 (now1 - timedelta_days 5)%Z 8 tp p
      = Ok r1 q1 /\
    Professional.generate_session 2 (now2 - timedelta_days 3)%Z 10 tp q1
      = Ok r2 q2 /\
    Professional.generate_session 3 (now3 - timedelta_days 1)%Z 12 tp q2
      = Ok r3 q3 /\
    Professional.generate_session 1 (now1 - timedelta_days 5)%Z 8 tp q3
      = Ok r1' q4 /\
    Professional.generate_session 2 (now2 - timedelta_days 3)%Z 10 tp q4
      = Ok r2' q5 /\
    Professional.generate_session 3 (now3 - timedelta_days 1)%Z 12 tp q5
      = Ok r3' q6 /\
    Professional.generate_professional_demo now1 now2 now3 tp p
      = Ok [ ("demo_participant_session_1.csv"%string, write_csv r1);
             ("demo_participant_session_2.csv"%string, write_csv r2);
             ("demo_participant_session_3.csv"%string, write_csv r3);
             ("demo_participant_all_sessions.csv"%string,
              write_csv (r1' ++ r2' ++ r3')) ] q6.
Proof.
  destruct (generate_session_trace 1 (now1 - timedelta_days 5)%Z 8 tp p)
    as (t1 & q1 & _ & H1); [lia|].
  destruct (generate_session_trace 2 (now2 - timedelta_days 3)%Z 10 tp q1)
    as (t2 & q2 & _ & H2); [lia|].
  destruct (generate_session_trace 3 (now3 - timedelta_days 1)%Z 12 tp q2)
    as (t3 & q3 & _ & H3); [lia|].
  destruct (generate_session_trace 1 (now1 - timedelta_days 5)%Z 8 tp q3)
    as (t4 & q4 & _ & H4); [lia|].
  destruct (generate_session_trace 2 (now2 - timedelta_days 3)%Z 10 tp q4)
    as (t5 & q5 & _ & H5); [lia|].
  destruct (generate_session_trace 3 (now3 - timedelta_days 1)%Z 12 tp q5)
    as (t6 & q6 & _ & H6); [lia|].
  exists (map snd t1), (map snd t2), (map snd t3),
         (map snd t4), (map snd t5), (map snd t6), q1, q2, q3, q4, q5, q6.
  repeat (split; [assumption|]).
  unfold Professional.generate_professional_demo, Professional.write_sessions,
    Professional.sessions, Professional.collect_all.
  unfold bind at 1. simpl mapM.
  unfold bind at 1. rewrite write_session_eval.
  cbn [Professional.id Professional.date Professional.duration].
  rewrite H1.
  unfold bind at 1. unfold bind at 1. rewrite write_session_eval.
  cbn [Professional.id Professional.date Professional.duration].
  rewrite H2.
  unfold bind at 1. unfold bind at 1. rewrite write_session_eval.
  cbn [Professional.id Professional.date Professional.duration].
  rewrite H3.
  cbv beta iota delta [bind ret foldM].
  cbn [Professional.id Professional.date Professional.duration].
  rewrite H4, H5, H6.
  rewrite app_nil_l, <- app_assoc. reflexivity.
Qed.

(** ** The cursor only moves forward *)

Lemma chain_mono {A B} (f : A -> M B) tp p l bs p' :
  (forall a q b q', f a tp q = Ok b q' -> (q <= q')%nat) ->
  run_chain f tp p l bs p' -> (p <= p')%nat.
Proof.
  intros Hf. induction 1 as [|p a b p' l bs p'' Hfa Hc IH]; [lia|].
  apply Hf in Hfa. lia.
Qed.

Lemma clench_loop_cursor c t ws tp p st q :
  clench_loop c t ws tp p = Ok st q -> (p <= q)%nat.
Proof.
  unfold clench_loop.
  destruct (clench_fold_total c t ws (0, []) tp p) as (st' & q' & -> & Hq).
  intros H. injection H as _ <-. lia.
Qed.

Lemma session_sample_cursor session_id session_date duration_minutes i tp p b p' :
  session_id <> (-4)%Z ->
  Professional.sample session_id session_date duration_minutes i tp p = Ok b p' ->
  (p + 7 <= p')%nat.
Proof.
  intros Hid H.
  destruct (session_sample_spec session_id session_date duration_minutes
              i tp p Hid) as (loc & row & q' & Hs & Hpost).
  rewrite Hs in H. injection H as _ <-.
  destruct Hpost as (ws & q & _ & Hloop & -> & _).
  apply clench_loop_cursor in Hloop. lia.
Qed.

Lemma generate_session_cursor session_id session_date duration_minutes
    tp p rows p' :
  session_id <> (-4)%Z ->
  Professional.generate_session session_id session_date duration_minutes tp p
    = Ok rows p' ->
  (p <= p')%nat.
Proof.
  intros Hid. rewrite generate_session_eval.
  destruct (Professional.sample_loop _ _ _ tp p) as [trace q|e] eqn:H;
    [|discriminate].
  intros E. injection E as _ <-.
  unfold Professional.sample_loop in H. apply mapM_chain in H.
  eapply chain_mono; [|eassumption].
  intros a q0 b q0' Hf. apply session_sample_cursor in Hf; [lia|assumption].
Qed.

(** ** The first row of a session

    At [t = 0] all sinusoids vanish and the clench loop yields [0], so
    the first row shows the random draws alone. *)
Lemma session_first_row session_id session_date duration_minutes tp p :
  (-4 < session_id)%Z -> (0 < duration_minutes)%Z ->
  exists r rest q0 p',
    Professional.generate_session session_id session_date duration_minutes tp p
      = Ok (r :: rest) p' /\
    (p <= q0)%nat /\ (q0 + 7 <= p')%nat /\
    ppg_ir r = py_int (48000 + normal (tp q0) * 250) /\
    ppg_red r = int_fmul (ppg_ir r) b64_0_7_num b64_0_7_exp /\
    ppg_green r = py_int (IZR (ppg_ir r) * 0.5) /\
    spo2 r = fmt_fixed 1 (98.0 + normal (tp (q0 + 6)%nat) * 0.4).
Proof.
  intros Hid Hdur.
  assert (Hid' : session_id <> (-4)%Z) by lia.
  destruct (generate_session_trace session_id session_date duration_minutes
              tp p Hid') as (trace & p' & Hloop & Hgen).
  unfold Professional.sample_loop in Hloop. apply mapM_chain in Hloop.
  destruct (py_range_cons (duration_minutes * 60 * Professional.sample_rate))
    as [l Hl]; [unfold Professional.sample_rate; lia|].
  rewrite Hl in Hloop.
  apply chain_head in Hloop as ([loc r] & q1 & trace' & -> & Hs & Hrest).
  destruct (session_sample_spec session_id session_date duration_minutes
              0 tp p Hid') as (loc0 & row0 & q0' & Hs0 & Hpost).
  rewrite Hs0 in Hs. injection Hs as -> -> ->.
  destruct Hpost as (ws & q & Hws & Hcl & -> & Ht & _ & Hb & Hc & Hbr & Hn
                     & Hir & Hred & Hgreen & _ & Hsr & Hsp & _).
  assert (Ht0 : Professional.t loc = 0) by (rewrite Ht; lra).
  exists r, (map snd trace'), q, p'.
  split; [exact Hgen|].
  split; [eapply clench_loop_cursor; eassumption|].
  split.
  { apply chain_mono in Hrest; [lia|].
    intros a qa b qb Hf. apply session_sample_cursor in Hf; [lia|assumption]. }
  split; [|split; [assumption|split; [assumption|]]].
  - rewrite Hir, Hb, Hc, Hbr, Hn, Ht0.
    replace (IZR 0 / 20) with 0 in Hcl by lra.
    unfold clench_loop in Hcl.
    apply clench_fold_origin in Hcl as [Hamp _].
    + simpl in Hamp. rewrite Hamp.
      replace (0 / 45) with 0 by lra.
      replace (2 * PI * (72 / 60) * 0) with 0 by ring.
      replace (2 * PI * (14 / 60) * 0) with 0 by ring.
      rewrite sin_0. unfold gauss_of. f_equal. ring.
    + simpl. lra.
    + intros s Hs. eapply py_range3_nonneg; [|eassumption..]. lia.
    + reflexivity.
  - rewrite Hsp, Hsr. unfold gauss_of. f_equal. ring.
Qed.

(** ** Battery *)

(** C10. Every sample of [generate_session] carries
    [battery = 90 - session_id * 5], and there is one such row per
    sample; the script's three sessions have ids 1, 2, 3, so the 9600,
    12000 and 14400 rows of their files carry 85, 80 and 75; every row
    of the single-session script, one per sample, carries 85. *)
Theorem C10_battery :
  (forall now output_path duration_seconds tp p,
     returns (Demo.generate_demo_csv now output_path duration_seconds tp p)
       (fun f _ =>
          length (data_rows (snd f)) = Z.to_nat (duration_seconds * 20) /\
          Forall (fun r => battery r = 85%Z) (data_rows (snd f)))) /\
  (forall session_id session_date duration_minutes tp p,
     session_id <> (-4)%Z ->
     returns (Professional.generate_session session_id session_date
                duration_minutes tp p)
       (fun rows _ =>
          length rows = Z.to_nat (duration_minutes * 60 * 20) /\
          Forall (fun r => battery r = (90 - session_id * 5)%Z) rows)) /\
  (forall now1 now2 now3 tp p,
     map Professional.id (Professional.sessions now1 now2 now3)
       = [1; 2; 3]%Z /\
     returns (Professional.generate_professional_demo now1 now2 now3 tp p)
       (fun fs _ =>
          exists f1 f2 f3,
            file_named "demo_participant_session_1.csv" fs = Some f1 /\
            file_named "demo_participant_session_2.csv" fs = Some f2 /\
            file_named "demo_participant_session_3.csv" fs = Some f3 /\
            Z.of_nat (length (data_rows f1)) = 9600%Z /\
            Z.of_nat (length (data_rows f2)) = 12000%Z /\
            Z.of_nat (length (data_rows f3)) = 14400%Z /\
            Forall (fun r => battery r = 85%Z) (data_rows f1) /\
            Forall (fun r => battery r = 80%Z) (data_rows f2) /\
            Forall (fun r => battery r = 75%Z) (data_rows f3))).
Proof.
  assert (Hsession : forall session_id session_date duration_minutes tp p,
     session_id <> (-4)%Z ->
     returns (Professional.generate_session session_id session_date
                duration_minutes tp p)
       (fun rows _ =>
          length rows = Z.to_nat (duration_minutes * 60 * 20) /\
          Forall (fun r => battery r = (90 - session_id * 5)%Z) rows)).
  { intros sid date dur tp p Hid.
    destruct (generate_session_trace sid date dur tp p Hid)
      as (trace & p' & H & ->).
    cbn [returns]. split.
    - rewrite length_map. eapply session_loop_length; eassumption.
    - eapply session_rows_Forall; [eassumption..|].
      intros i loc row q q' (ws & q0 & Hpost). apply Hpost. }
  split; [|split; [exact Hsession|]].
  - intros now output_path d tp p.
    rewrite generate_demo_csv_eval.
    destruct (demo_loop_total now d tp p) as (trace & p' & H).
    rewrite H. cbn [returns snd data_rows write_csv]. split.
    + rewrite length_map. eapply demo_loop_length; eassumption.
    + eapply demo_rows_Forall; [eassumption|].
      intros i loc row q q' (ws & q0 & Hpost). apply Hpost.
  - intros now1 now2 now3 tp p. split; [reflexivity|].
    destruct (professional_demo_spec now1 now2 now3 tp p)
      as (r1 & r2 & r3 & r1' & r2' & r3' & q1 & q2 & q3 & q4 & q5 & q6
          & H1 & H2 & H3 & _ & _ & _ & ->).
    cbn [returns].
    exists (write_csv r1), (write_csv r2), (write_csv r3).
    do 3 (split; [reflexivity|]).
    pose proof (Hsession 1%Z (now1 - timedelta_days 5)%Z 8%Z tp p
                  ltac:(lia)) as B1.
    pose proof (Hsession 2%Z (now2 - timedelta_days 3)%Z 10%Z tp q1
                  ltac:(lia)) as B2.
    pose proof (Hsession 3%Z (now3 - timedelta_days 1)%Z 12%Z tp q2
                  ltac:(lia)) as B3.
    rewrite H1 in B1. rewrite H2 in B2. rewrite H3 in B3.
    cbn [returns] in B1, B2, B3. cbn [data_rows write_csv].
    destruct B1 as [L1 B1]. destruct B2 as [L2 B2]. destruct B3 as [L3 B3].
    rewrite L1, L2, L3.
    split; [lia|]. split; [lia|]. split; [lia|].
    split; [assumption|]. split; assumption.
Qed.

Lemma C10_battery_witness :
  (2 <> -4)%Z /\
  returns (Professional.generate_session 2 0%Z 10 (tape_const 0 0 0) 0%nat)
    (fun rows _ =>
       length rows = Z.to_nat (10 * 60 * 20) /\
       Forall (fun r => battery r = 80%Z) rows).
Proof.
  split; [lia|].
  apply (proj1 (proj2 C10_battery) 2%Z 0%Z 10%Z (tape_const 0 0 0) 0%nat).
  lia.
Defined.

(** ** Ranges of [ppg_ir] and [spo2] *)

Lemma clamp_spo2_range x : 95 <= Rmax 95 (Rmin 100 x) <= 100.
Proof.
  unfold Rmax, Rmin.
  destruct (Rle_dec 100 x); destruct (Rle_dec 95 _); lra.
Qed.

Lemma fmt_tenths_bounds a b x :
  IZR a <= x * 10 <= IZR b -> (a <= fmt_fixed 1 x <= b)%Z.
Proof.
  intros H. unfold fmt_fixed. apply round_half_even_range. simpl. lra.
Qed.

Lemma fmt_tenths_range x :
  95 <= x <= 100 -> (950 <= fmt_fixed 1 x <= 1000)%Z.
Proof. intros H. apply fmt_tenths_bounds. lra. Qed.

(** The unclamped PPG sum of the multi-session script, under the bound
    of [random.gauss]. *)
Lemma session_ppg_tight session_id session_date duration_minutes
    i tp p loc row p' :
  wf_source tp -> wf_gauss tp ->
  session_sample_post session_id session_date duration_minutes
    i tp p loc row p' ->
  (39950 <= ppg_ir row <= 74050)%Z.
Proof.
  intros Hwf Hz (ws & q & _ & Hcl & _ & Ht & _ & Hb & Hc & Hbr & Hn & Hir & _).
  unfold clench_loop in Hcl.
  apply clench_fold_bound in Hcl;
    [|apply sane_professional|assumption|simpl; lra].
  simpl in Hcl.
  pose proof (SIN_bound (Professional.t loc / 45)) as S1.
  pose proof (SIN_bound (2 * PI * (72 / 60) * Professional.t loc)) as S2.
  pose proof (SIN_bound (2 * PI * (14 / 60) * Professional.t loc)) as S3.
  pose proof (Hz q) as Hq.
  rewrite Hir. apply py_int_nonneg_range;
    rewrite Hb, Hc, Hbr, Hn; unfold gauss_of; lra.
Qed.

(** C1. Every sample of a generated session, in either script, has its
    [ppg_ir] within [[0, 262143]], and there is one row per sample.  In
    the single-session script this is the clamp.  The multi-session
    script has no clamp; there the five components are bounded
    (baseline 44000 to 52000, cardiac and breathing at most 1200 and
    600 in absolute value, clench 0 to 18000, and a noise of at most 9
    standard deviations of 250, the bound of [random.gauss]), which
    keeps [ppg_ir] within [[39950, 74050]]. *)
Theorem C1_ppg_ir_range :
  (forall now output_path duration_seconds tp p,
     returns (Demo.generate_demo_csv now output_path duration_seconds tp p)
       (fun f _ =>
          length (data_rows (snd f)) = Z.to_nat (duration_seconds * 20) /\
          Forall (fun r => (0 <= ppg_ir r <= 262143)%Z) (data_rows (snd f)))) /\
  (forall session_id session_date duration_minutes tp p,
     session_id <> (-4)%Z -> wf_source tp -> wf_gauss tp ->
     returns (Professional.generate_session session_id session_date
                duration_minutes tp p)
       (fun rows _ =>
          length rows = Z.to_nat (duration_minutes * 60 * 20) /\
          Forall (fun r => (0 <= ppg_ir r <= 262143)%Z /\
                           (39950 <= ppg_ir r <= 74050)%Z) rows)).
Proof.
  split.
  - intros now output_path d tp p.
    rewrite generate_demo_csv_eval.
    destruct (demo_loop_total now d tp p) as (trace & p' & H).
    rewrite H. cbn [returns snd data_rows write_csv]. split.
    + rewrite length_map. eapply demo_loop_length; eassumption.
    + eapply demo_rows_Forall; [eassumption|].
      intros i loc row q q' (ws & q0 & Hpost).
      decompose [and] Hpost.
      match goal with E : ppg_ir row = _ |- _ => rewrite E end. lia.
  - intros sid date dur tp p Hid Hwf Hz.
    destruct (generate_session_trace sid date dur tp p Hid)
      as (trace & p' & H & ->).
    cbn [returns]. split.
    + rewrite length_map. eapply session_loop_length; eassumption.
    + eapply session_rows_Forall; [eassumption..|].
      intros i loc row q q' Hpost.
      pose proof (session_ppg_tight _ _ _ _ _ _ _ _ _ Hwf Hz Hpost). lia.
Qed.

Lemma wf_tape_const u z b : 0 <= u <= 1 -> wf_source (tape_const u z b).
Proof. intros H n. exact H. Qed.

Lemma wf_gauss_tape_const u z b : -9 <= z <= 9 -> wf_gauss (tape_const u z b).
Proof. intros H n. exact H. Qed.

Lemma C1_ppg_ir_range_witness :
  (1 <> -4)%Z /\ wf_source (tape_const 0 0 0) /\ wf_gauss (tape_const 0 0 0) /\
  returns (Professional.generate_session 1 0%Z 8 (tape_const 0 0 0) 0%nat)
    (fun rows _ =>
       length rows = Z.to_nat (8 * 60 * 20) /\
       Forall (fun r => (0 <= ppg_ir r <= 262143)%Z /\
                        (39950 <= ppg_ir r <= 74050)%Z) rows).
Proof.
  assert (H1 : (1 <> -4)%Z) by lia.
  assert (H2 : wf_source (tape_const 0 0 0)) by (intros n; simpl; lra).
  assert (H3 : wf_gauss (tape_const 0 0 0)) by (intros n; simpl; lra).
  split; [exact H1|]. split; [exact H2|]. split; [exact H3|].
  exact (proj2 C1_ppg_ir_range 1%Z 0%Z 8%Z (tape_const 0 0 0) 0%nat H1 H2 H3).
Defined.

(** C2, as far as it holds.  In the single-session script [spo2] is
    clamped and every sample is printed within 95.0 and 100.0 (950 to
    1000 tenths).  The multi-session script does not clamp: the [spo2]
    of a sample is [98.0 + gauss(0, 0.4)] printed with one decimal,
    hence within half a tenth of [98.0 + 0.4 z] (0.501 leaves room for
    the float rounding of the sum), where [z] is the last cell the
    sample reads; it lies within 95.0 and 100.0 whenever that draw is
    between -7.5 and +5 standard deviations, and within 94.4 and 101.6
    for every draw that [random.gauss] can return. *)
Theorem C2_spo2_range :
  (forall now output_path duration_seconds tp p,
     returns (Demo.generate_demo_csv now output_path duration_seconds tp p)
       (fun f _ =>
          length (data_rows (snd f)) = Z.to_nat (duration_seconds * 20) /\
          Forall (fun r => (950 <= spo2 r <= 1000)%Z) (data_rows (snd f)))) /\
  (forall session_id session_date duration_minutes tp p,
     session_id <> (-4)%Z ->
     returns (Professional.generate_session session_id session_date
                duration_minutes tp p)
       (fun rows _ =>
          length rows = Z.to_nat (duration_minutes * 60 * 20) /\
          forall i r, nth_error rows i = Some r ->
            let lo := session_cursor session_id session_date
                        duration_minutes tp p i in
            let hi := session_cursor session_id session_date
                        duration_minutes tp p (S i) in
            let z := normal (tp (Nat.pred hi)) in
            (lo < hi)%nat /\
            980 + 4 * z - 0.501 <= IZR (spo2 r) <= 980 + 4 * z + 0.501 /\
            (-7.5 <= z <= 5 -> (950 <= spo2 r <= 1000)%Z) /\
            (-9 <= z <= 9 -> (944 <= spo2 r <= 1016)%Z))).
Proof.
  split.
  - intros now output_path d tp p.
    rewrite generate_demo_csv_eval.
    destruct (demo_loop_total now d tp p) as (trace & p' & H).
    rewrite H. cbn [returns snd data_rows write_csv]. split.
    + rewrite length_map. eapply demo_loop_length; eassumption.
    + eapply demo_rows_Forall; [eassumption|].
      intros i loc row q q' (ws & q0 & Hpost).
      decompose [and] Hpost.
      match goal with E : spo2 row = _ |- _ => rewrite E end.
      match goal with E : Demo.spo2_raw loc = _ |- _ => rewrite E end.
      apply fmt_tenths_range, clamp_spo2_range.
  - intros sid date dur tp p Hid.
    destruct (generate_session_trace sid date dur tp p Hid)
      as (trace & p' & H & ->).
    cbn [returns]. split.
    + rewrite length_map. eapply session_loop_length; eassumption.
    + intros i r Hi. apply nth_error_map_snd in Hi as [loc Hi].
      pose proof (session_loop_at _ _ _ _ _ _ _ _ _ _ Hid H Hi) as Hpost.
      cbv zeta.
      set (lo := session_cursor sid date dur tp p i) in *.
      set (hi := session_cursor sid date dur tp p (S i)) in *.
      destruct Hpost as (ws & q & _ & Hcl & Hhi & Hpost).
      apply clench_loop_cursor in Hcl.
      decompose [and] Hpost.
      assert (Hq : Nat.pred hi = (q + 6)%nat) by lia.
      rewrite Hq.
      assert (E : spo2 r = fmt_fixed 1 (98.0 + normal (tp (q + 6)%nat) * 0.4)).
      { match goal with E : spo2 r = _ |- _ => rewrite E end.
        match goal with E : Professional.spo2_raw loc = _ |- _ => rewrite E end.
        unfold gauss_of. f_equal. lra. }
      split; [lia|]. split.
      { rewrite E. unfold fmt_fixed.
        pose proof (round_half_even_error
                      ((98.0 + normal (tp (q + 6)%nat) * 0.4) * 10 ^ 1)) as Hr.
        simpl in Hr. simpl. lra. }
      split; intros Hz; rewrite E; apply fmt_tenths_bounds; lra.
Qed.

Lemma C2_spo2_range_witness :
  (1 <> -4)%Z /\
  returns (Professional.generate_session 1 0%Z 8 (tape_const 0 0 0) 0%nat)
    (fun rows _ =>
       length rows = Z.to_nat (8 * 60 * 20) /\
       forall i r, nth_error rows i = Some r ->
         let lo := session_cursor 1 0%Z 8 (tape_const 0 0 0) 0%nat i in
         let hi := session_cursor 1 0%Z 8 (tape_const 0 0 0) 0%nat (S i) in
         let z := normal (tape_const 0 0 0 (Nat.pred hi)) in
         (lo < hi)%nat /\
         980 + 4 * z - 0.501 <= IZR (spo2 r) <= 980 + 4 * z + 0.501 /\
         (-7.5 <= z <= 5 -> (950 <= spo2 r <= 1000)%Z) /\
         (-9 <= z <= 9 -> (944 <= spo2 r <= 1016)%Z)).
Proof.
  assert (H1 : (1 <> -4)%Z) by lia.
  split; [exact H1|].
  exact (proj2 C2_spo2_range 1%Z 0%Z 8%Z (tape_const 0 0 0) 0%nat H1).
Defined.

(** C2 fails for the multi-session script: when the SpO2 jitter of the
    first sample is 6 standard deviations above the mean, the first row
    of session 1 prints [spo2] as 100.4. *)
Lemma C2_spo2_unclamped :
  wf_source (tape_const 0 6 0) /\ wf_gauss (tape_const 0 6 0) /\
  exists r rest p',
    Professional.generate_session 1 0%Z 8 (tape_const 0 6 0) 0%nat
      = Ok (r :: rest) p' /\
    spo2 r = 1004%Z /\ ~ (950 <= spo2 r <= 1000)%Z.
Proof.
  split; [apply wf_tape_const; lra|].
  split; [apply wf_gauss_tape_const; lra|].
  destruct (session_first_row 1 0%Z 8 (tape_const 0 6 0) 0%nat)
    as (r & rest & q0 & p' & Hgen & _ & _ & _ & _ & _ & Hsp); [lia..|].
  exists r, rest, p'. split; [assumption|].
  assert (E : spo2 r = 1004%Z).
  { rewrite Hsp. unfold fmt_fixed. simpl.
    replace ((98.0 + 6 * 0.4) * (10 * 1)) with (IZR 1004) by lra.
    apply round_half_even_IZR. }
  split; [assumption | lia].
Qed.

(** ** The red and green channels *)

Lemma py_int_error x : x - 1 < IZR (py_int x) < x + 1.
Proof.
  unfold py_int. destruct (Rle_dec 0 x).
  - pose proof (py_floor_spec x). lra.
  - pose proof (py_floor_spec (- x)). rewrite opp_IZR. lra.
Qed.

Lemma rne_shift_error n s :
  (0 < s)%Z -> (2 * Z.abs (rne_shift n s * 2 ^ s - n) <= 2 ^ s)%Z.
Proof.
  intros Hs. unfold rne_shift.
  assert (HT : (2 ^ s = 2 * 2 ^ (s - 1))%Z).
  { rewrite <- Z.pow_succ_r by lia. f_equal. lia. }
  assert (Hh : (0 < 2 ^ (s - 1))%Z) by (apply Z.pow_pos_nonneg; lia).
  pose proof (Z.div_mod n (2 ^ s) ltac:(lia)) as Hdm.
  pose proof (Z.mod_pos_bound n (2 ^ s) ltac:(lia)) as Hr.
  set (T := (2 ^ s)%Z) in *. set (h := (2 ^ (s - 1))%Z) in *.
  set (q := (n / T)%Z) in *. set (r := (n mod T)%Z) in *.
  destruct (Z.ltb_spec r h); [lia|].
  destruct (Z.ltb_spec h r); [lia|].
  destruct (Z.even q); lia.
Qed.

(** An integer of at most 53 bits is a binary64 number. *)
Lemma round53_small n : (Z.abs n < 2 ^ 53)%Z -> round53 n = n.
Proof.
  intros H. unfold round53.
  destruct (Z.leb_spec (Z.log2 (Z.abs n) + 1 - 53) 0) as [|Hs];
    [reflexivity|].
  exfalso.
  destruct (Z.eq_dec (Z.abs n) 0) as [E|E].
  - rewrite E in Hs. simpl in Hs. lia.
  - apply Z.log2_lt_pow2 in H; lia.
Qed.

(** Rounding to 53 bits moves a number by at most half a unit [T] in the
    last place, and [T] is at most [2^-52] times the number. *)
Lemma round53_error P :
  (0 <= P)%Z ->
  exists T, (0 < T)%Z /\ (2 * Z.abs (round53 P - P) <= T)%Z /\
            (T = 1%Z \/ (2 ^ 52 * T <= P)%Z) /\ (T = 1%Z -> round53 P = P).
Proof.
  intros HP. unfold round53. rewrite (Z.abs_eq P) by assumption.
  destruct (Z.leb_spec (Z.log2 P + 1 - 53) 0) as [Hs|Hs].
  - exists 1%Z. split; [lia|]. split; [lia|].
    split; [now left | reflexivity].
  - exists (2 ^ (Z.log2 P + 1 - 53))%Z.
    assert (HPpos : (0 < P)%Z).
    { destruct (Z.eq_dec P 0) as [->|]; [simpl in Hs; lia | lia]. }
    split; [apply Z.pow_pos_nonneg; lia|].
    split; [apply rne_shift_error; lia|].
    split.
    + right. rewrite <- Z.pow_add_r by lia.
      replace (52 + (Z.log2 P + 1 - 53))%Z with (Z.log2 P) by lia.
      apply Z.log2_spec. assumption.
    + intros E. exfalso.
      assert (2 ^ 1 <= 2 ^ (Z.log2 P + 1 - 53))%Z
        by (apply Z.pow_le_mono_r; lia).
      change (2 ^ 1)%Z with 2%Z in *. lia.
Qed.

(** [int(n * 0.7)] is [7 n / 10] rounded down, or one less: the float
    [0.7] lies below 7/10, and the product is rounded before it is
    truncated. *)
Lemma int_fmul_0_7_bounds n :
  (0 <= n < 2 ^ 48)%Z ->
  (7 * n - 10 <= 10 * int_fmul n b64_0_7_num b64_0_7_exp <= 7 * n)%Z.
Proof.
  intros Hn. unfold int_fmul, b64_0_7_num, b64_0_7_exp.
  change (2 ^ 48)%Z with 281474976710656%Z in Hn.
  rewrite (round53_small n)
    by (change (2 ^ 53)%Z with 9007199254740992%Z; lia).
  destruct (round53_error (n * 3152519739159347) ltac:(lia))
    as (T & HT & Herr & Hlow & Hone).
  set (P' := round53 (n * 3152519739159347)) in *.
  change (2 ^ 52)%Z with 4503599627370496%Z in *.
  assert (HP' : (0 <= P')%Z).
  { destruct Hlow as [->|Hlow]; [rewrite Hone by reflexivity; lia|]. lia. }
  rewrite Z.quot_div_nonneg by lia.
  pose proof (Z.div_mod P' 4503599627370496 ltac:(lia)) as Hdm.
  pose proof (Z.mod_pos_bound P' 4503599627370496 ltac:(lia)) as Hr.
  set (red := (P' / 4503599627370496)%Z) in *.
  destruct Hlow as [->|Hlow].
  - rewrite Hone in * by reflexivity. lia.
  - lia.
Qed.

(** [int(n * 0.5)] is [n / 2] rounded down; the product is exact in
    binary64. *)
Lemma py_int_half n :
  (0 <= n)%Z -> (n - 1 <= 2 * py_int (IZR n * 0.5) <= n)%Z.
Proof.
  intros Hn. apply IZR_le in Hn.
  pose proof (py_floor_spec (IZR n * 0.5)) as Fs.
  unfold py_int. destruct (Rle_dec 0 (IZR n * 0.5)); [|lra].
  split.
  - apply Z.lt_succ_r, lt_IZR. rewrite succ_IZR, mult_IZR, minus_IZR. lra.
  - apply le_IZR. rewrite mult_IZR. lra.
Qed.


Lemma int_fmul_0_7_small :
  int_fmul 0 b64_0_7_num b64_0_7_exp = 0%Z /\
  int_fmul 1 b64_0_7_num b64_0_7_exp = 0%Z /\
  int_fmul 2 b64_0_7_num b64_0_7_exp = 1%Z /\
  int_fmul 3 b64_0_7_num b64_0_7_exp = 2%Z /\
  int_fmul 4 b64_0_7_num b64_0_7_exp = 2%Z.
Proof. repeat split; vm_compute; reflexivity. Qed.

(** [int(n * 0.5) <= int(n * 0.7) <= n] for a Python integer [n] that
    is not negative. *)
Lemma channel_order n :
  (0 <= n < 2 ^ 48)%Z ->
  (0 <= py_int (IZR n * 0.5) <= int_fmul n b64_0_7_num b64_0_7_exp)%Z /\
  (int_fmul n b64_0_7_num b64_0_7_exp <= n)%Z.
Proof.
  intros Hn.
  pose proof (int_fmul_0_7_bounds n Hn) as Hr.
  pose proof (py_int_half n ltac:(lia)) as Hg.
  destruct (Z_lt_le_dec n 5) as [Hs|Hs]; [|lia].
  destruct int_fmul_0_7_small as (E0 & E1 & E2 & E3 & E4).
  assert (C : n = 0%Z \/ n = 1%Z \/ n = 2%Z \/ n = 3%Z \/ n = 4%Z) by lia.
  destruct C as [-> | [-> | [-> | [-> | ->]]]];
    rewrite ?E0, ?E1, ?E2, ?E3, ?E4 in *; lia.
Qed.




(** ** Clench windows do not overlap *)

Lemma demo_sample_one_hit start_time duration_seconds i tp p loc row p' :
  wf_source tp ->
  demo_sample_post start_time duration_seconds i tp p loc row p' ->
  (length (Demo.clench_hits loc) <= 1)%nat.
Proof.
  intros Hwf (ws & q & Hws & Hcl & _).
  unfold clench_loop in Hcl.
  change (length (snd (Demo.clench_amplitude loc, Demo.clench_hits loc)) <= 1)%nat.
  eapply clench_fold_one_hit with (gap := 15%Z);
    [apply sane_demo | exact Hwf | simpl; lra | | exact Hcl].
  eapply py_range3_spaced; [|eassumption]. lia.
Qed.

Lemma session_sample_one_hit session_id session_date duration_minutes
    i tp p loc row p' :
  (-2 <= session_id)%Z -> wf_source tp ->
  session_sample_post session_id session_date duration_minutes
    i tp p loc row p' ->
  (length (Professional.clench_hits loc) <= 1)%nat.
Proof.
  intros Hid Hwf (ws & q & Hws & Hcl & _).
  unfold clench_loop in Hcl.
  change (length (snd (Professional.clench_amplitude loc,
                       Professional.clench_hits loc)) <= 1)%nat.
  eapply clench_fold_one_hit with (gap := (12 + session_id * 3)%Z);
    [apply sane_professional | exact Hwf | | | exact Hcl].
  - cbn [Professional.clench d_max].
    assert (H : (6 <= 12 + session_id * 3)%Z) by lia.
    apply IZR_le in H. lra.
  - eapply py_range3_spaced; [|eassumption]. lia.
Qed.

(** C9. The window starts are 15 s apart in the single-session script
    and [12 + 3 * session_id] s apart in the multi-session script, which
    exceeds the longest clench (4 s and 3.5 s); hence, whatever the time
    [t], at most one window test of the clench loop succeeds, and every
    sample of a generated session has at most one active window.  For
    the multi-session script this covers every [session_id >= -2], in
    particular the ids 1, 2, 3 the script uses. *)
Theorem C9_one_window_at_a_time :
  (d_max Demo.clench = 4 /\ d_max Demo.clench < 15) /\
  (forall session_id, (-2 <= session_id)%Z ->
     d_max Professional.clench = 3.5 /\
     d_max Professional.clench < IZR (12 + session_id * 3)) /\
  (forall t duration_seconds windows tp p,
     wf_source tp ->
     py_range3 0 duration_seconds 15 = Some windows ->
     returns (clench_loop Demo.clench t windows tp p)
       (fun st _ => (length (snd st) <= 1)%nat)) /\
  (forall t session_id duration_minutes windows tp p,
     (-2 <= session_id)%Z -> wf_source tp ->
     py_range3 0 (duration_minutes * 60) (12 + session_id * 3) = Some windows ->
     returns (clench_loop Professional.clench t windows tp p)
       (fun st _ => (length (snd st) <= 1)%nat)) /\
  (forall start_time duration_seconds tp p,
     wf_source tp ->
     returns (Demo.sample_loop start_time duration_seconds tp p)
       (fun trace _ =>
          Forall (fun lr => (length (Demo.clench_hits (fst lr)) <= 1)%nat)
                 trace)) /\
  (forall session_id session_date duration_minutes tp p,
     (-2 <= session_id)%Z -> wf_source tp ->
     returns (Professional.sample_loop session_id session_date
                duration_minutes tp p)
       (fun trace _ =>
          Forall (fun lr =>
                    (length (Professional.clench_hits (fst lr)) <= 1)%nat)
                 trace)).
Proof.
  split; [simpl; lra|].
  split.
  { intros sid Hid. split; [simpl; lra|]. cbn [Professional.clench d_max].
    assert (H : (6 <= 12 + sid * 3)%Z) by lia. apply IZR_le in H. lra. }
  split.
  { intros t d ws tp p Hwf Hws. unfold clench_loop.
    destruct (clench_fold_total Demo.clench t ws (0, []) tp p)
      as (st & q & H & _).
    rewrite H. cbn [returns].
    eapply clench_fold_one_hit with (gap := 15%Z);
      [apply sane_demo | exact Hwf | simpl; lra | | exact H].
    eapply py_range3_spaced; [|eassumption]. lia. }
  split.
  { intros t sid dur ws tp p Hid Hwf Hws. unfold clench_loop.
    destruct (clench_fold_total Professional.clench t ws (0, []) tp p)
      as (st & q & H & _).
    rewrite H. cbn [returns].
    eapply clench_fold_one_hit with (gap := (12 + sid * 3)%Z);
      [apply sane_professional | exact Hwf | | | exact H].
    - cbn [Professional.clench d_max].
      assert (H6 : (6 <= 12 + sid * 3)%Z) by lia.
      apply IZR_le in H6. lra.
    - eapply py_range3_spaced; [|eassumption]. lia. }
  split.
  - intros start d tp p Hwf.
    destruct (demo_loop_total start d tp p) as (trace & p' & H).
    rewrite H. cbn [returns]. apply Forall_forall. intros [loc row] Hin.
    apply In_nth_error in Hin as [i Hi].
    destruct (demo_loop_nth _ _ _ _ _ _ _ _ _ H Hi) as (q & q' & Hpost).
    simpl. eapply demo_sample_one_hit; eassumption.
  - intros sid date dur tp p Hid Hwf.
    assert (Hid' : sid <> (-4)%Z) by lia.
    destruct (session_loop_total sid date dur tp p Hid') as (trace & p' & H).
    rewrite H. cbn [returns]. apply Forall_forall. intros [loc row] Hin.
    apply In_nth_error in Hin as [i Hi].
    destruct (session_loop_nth _ _ _ _ _ _ _ _ _ _ Hid' H Hi)
      as (q & q' & Hpost).
    simpl. eapply session_sample_one_hit; eassumption.
Qed.

Lemma C9_one_window_at_a_time_witness :
  ((-2 <= 1)%Z /\ d_max Professional.clench < IZR (12 + 1 * 3)) /\
  (wf_source (tape_const (1 / 2) 0 0) /\
   py_range3 0 60 15 = Some [0; 15; 30; 45]%Z /\
   returns (clench_loop Demo.clench 1.5 [0; 15; 30; 45]%Z
              (tape_const (1 / 2) 0 0) 0%nat)
     (fun st _ => (length (snd st) <= 1)%nat)) /\
  ((-2 <= 1)%Z /\
   py_range3 0 (1 * 60) (12 + 1 * 3) = Some [0; 15; 30; 45]%Z /\
   returns (clench_loop Professional.clench 1.5 [0; 15; 30; 45]%Z
              (tape_const (1 / 2) 0 0) 0%nat)
     (fun st _ => (length (snd st) <= 1)%nat)) /\
  returns (Demo.sample_loop 0%Z 120 (tape_const (1 / 2) 0 0) 0%nat)
    (fun trace _ =>
       Forall (fun lr => (length (Demo.clench_hits (fst lr)) <= 1)%nat)
              trace) /\
  returns (Professional.sample_loop 1 0%Z 8 (tape_const (1 / 2) 0 0) 0%nat)
    (fun trace _ =>
       Forall (fun lr =>
                 (length (Professional.clench_hits (fst lr)) <= 1)%nat)
              trace).
Proof.
  assert (H1 : (-2 <= 1)%Z) by lia.
  assert (H2 : wf_source (tape_const (1 / 2) 0 0)) by (intros n; simpl; lra).
  assert (H3 : py_range3 0 60 15 = Some [0; 15; 30; 45]%Z) by reflexivity.
  assert (H4 : py_range3 0 (1 * 60) (12 + 1 * 3) = Some [0; 15; 30; 45]%Z)
    by reflexivity.
  destruct C9_one_window_at_a_time as (_ & T2 & T3 & T4 & T5 & T6).
  split; [split; [exact H1 | exact (proj2 (T2 1%Z H1))]|].
  split.
  { split; [exact H2|]. split; [exact H3|].
    exact (T3 1.5 60%Z _ (tape_const (1 / 2) 0 0) 0%nat H2 H3). }
  split.
  { split; [exact H1|]. split; [exact H4|].
    exact (T4 1.5 1%Z 1%Z _ (tape_const (1 / 2) 0 0) 0%nat H1 H2 H4). }
  split.
  - exact (T5 0%Z 120%Z (tape_const (1 / 2) 0 0) 0%nat H2).
  - exact (T6 1%Z 0%Z 8%Z (tape_const (1 / 2) 0 0) 0%nat H1 H2).
Defined.

(** ** The clench envelope of one sample *)

Lemma div_bounds t d lo hi :
  0 < d -> lo * d <= t <= hi * d -> lo <= t / d <= hi.
Proof.
  intros Hd [H1 H2].
  assert (E : t / d * d = t) by (field; lra).
  split; apply (Rmult_le_reg_r d); try assumption; rewrite ?E; assumption.
Qed.

Lemma trapezoid_plateau start d r a t :
  0 < d -> 0 < r ->
  start + r * d <= t <= start + (1 - r) * d ->
  trapezoid start d r a t = a.
Proof.
  intros Hd Hr [H1 H2]. unfold trapezoid.
  assert (Hp : r <= (t - start) / d <= 1 - r) by (apply div_bounds; lra).
  assert (E1 : Rltb t start = false) by (apply Rltb_false; nra).
  assert (E2 : Rleb (start + d) t = false) by (apply Rleb_false; nra).
  assert (E3 : Rltb ((t - start) / d) r = false) by (apply Rltb_false; lra).
  assert (E4 : Rltb (1 - r) ((t - start) / d) = false)
    by (apply Rltb_false; lra).
  now rewrite E1, E2, E3, E4.
Qed.

(** A window whose test succeeds assigns the value of the trapezoid
    built from the two cells it has just read. *)
Lemma clench_window_trapezoid c t s tp p a q :
  fall c = 1 - ramp c ->
  clench_window c t s tp p = Ok (Some a) q ->
  let d := uniform_of (d_min c) (d_max c) (tp p) in
  IZR s <= t < IZR s + d /\
  a = trapezoid (IZR s) d (ramp c)
        (uniform_of (a_min c) (a_max c) (tp (S p))) t.
Proof.
  intros Hfall. rewrite clench_window_eval. cbv zeta.
  destruct (Rleb (IZR s) t) eqn:E1; [|discriminate].
  destruct (Rltb t _) eqn:E2; [|discriminate]. simpl.
  intros H. injection H as <- _.
  pose proof E1 as E1'. pose proof E2 as E2'.
  apply Rleb_true in E1'. apply Rltb_true in E2'.
  split; [lra|]. unfold trapezoid.
  assert (F1 : Rltb t (IZR s) = false) by (apply Rltb_false; lra).
  assert (F2 : Rleb (IZR s + uniform_of (d_min c) (d_max c) (tp p)) t = false)
    by (apply Rleb_false; lra).
  rewrite F1, F2, Hfall. reflexivity.
Qed.

(** A window moves the cursor by one cell, and by two when its test
    succeeds. *)
Lemma clench_window_cursor c t s tp p r q :
  clench_window c t s tp p = Ok r q ->
  (r = None /\ q = S p) \/ ((exists a, r = Some a) /\ q = S (S p)).
Proof.
  rewrite clench_window_eval. cbv zeta.
  destruct (_ && _); intros H; injection H as <- <-; [right | left]; eauto.
Qed.

Lemma own_envelope_weaken c tp lo hi lo' hi' t amp hits :
  (lo' <= lo)%nat -> (hi <= hi')%nat ->
  own_envelope c tp lo hi t amp hits -> own_envelope c tp lo' hi' t amp hits.
Proof.
  intros Hlo Hhi [H|(s & q & Hh & H1 & H2 & H)]; [now left|].
  right. exists s, q. split; [exact Hh|]. split; [lia|]. split; [lia|].
  exact H.
Qed.

(** The clench loop started at cell [p] and stopped at cell [q] leaves
    the trapezoid of the two cells that the active window read, which
    lie between [p] and [q]. *)
Lemma clench_fold_own c t tp gap ws : forall p amp hits q,
  sane c -> fall c = 1 - ramp c -> wf_source tp ->
  d_max c <= IZR gap -> spaced gap ws ->
  foldM (clench_step c t) (0, []) ws tp p = Ok (amp, hits) q ->
  own_envelope c tp p q t amp hits.
Proof.
  induction ws as [|s ws IH]; intros p amp hits q Hc Hfall Hwf Hgap Hsp.
  - simpl. unfold ret. intros H. injection H as <- <- _. now left.
  - destruct Hsp as [Hs Hsp].
    rewrite foldM_cons, clench_step_eval.
    destruct (clench_window c t s tp p) as [[a|] q1|e] eqn:Hw;
      [| |discriminate].
    + destruct (clench_window_bound _ _ _ _ _ _ _ Hc Hwf Hw) as [_ Hin].
      destruct (clench_window_trapezoid _ _ _ _ _ _ _ Hfall Hw) as [Ht Ha].
      destruct (clench_window_cursor _ _ _ _ _ _ _ Hw) as [[E _]|[_ ->]];
        [discriminate|].
      rewrite clench_fold_inactive.
      * intros H. injection H as <- <- <-. right. exists s, p.
        split; [reflexivity|]. split; [lia|]. split; [lia|]. cbv zeta.
        destruct Hc as (Hd & _ & _ & Hamp).
        split; [apply uniform_of_range; [apply Hd | apply Hwf]|].
        split; [apply uniform_of_range; [apply Hamp | apply Hwf]|].
        split; assumption.
      * assumption.
      * apply Hc.
      * intros s' Hs'. left. apply Hs in Hs'. apply IZR_le in Hs'.
        rewrite plus_IZR in Hs'. lra.
    + destruct (clench_window_cursor _ _ _ _ _ _ _ Hw) as [[_ ->]|[[a E] _]];
        [|discriminate].
      intros H. eapply own_envelope_weaken; [| |eapply IH; eassumption]; lia.
Qed.

Lemma py_range3_head stop step :
  (0 < stop)%Z -> (0 < step)%Z ->
  exists rest, py_range3 0 stop step = Some (0%Z :: rest)
               /\ forall s, In s rest -> (step <= s)%Z.
Proof.
  intros Hstop Hstep. unfold py_range3, range_len.
  destruct (Z.eqb_spec step 0) as [|_]; [lia|].
  destruct (Z.ltb_spec 0 step) as [_|]; [|lia].
  destruct (Z.ltb_spec 0 stop) as [_|]; [|lia].
  assert (Hn : (1 <= (stop - 0 + step - 1) / step)%Z).
  { apply Z.div_le_lower_bound; lia. }
  destruct (Z.to_nat ((stop - 0 + step - 1) / step)) as [|n] eqn:E; [lia|].
  simpl seq. rewrite map_cons.
  exists (map (fun k => (0 + Z.of_nat k * step)%Z) (seq 1 n)).
  split; [reflexivity|].
  intros s Hs. apply in_map_iff in Hs as (k & <- & Hk).
  apply in_seq in Hk. nia.
Qed.

Lemma py_range3_multiple stop step l s :
  py_range3 0 stop step = Some l -> In s l ->
  exists k, s = (Z.of_nat k * step)%Z.
Proof.
  unfold py_range3. destruct (step =? 0)%Z; [discriminate|].
  intros H Hs. injection H as <-.
  apply in_map_iff in Hs as (k & <- & _). exists k. lia.
Qed.

(** A single window starting at [0], sampled on the part of the time
    axis where every admissible clench is on its plateau. *)
Lemma demo_plateau_eval t tp p :
  wf_source tp -> 0.8 <= t <= 1.6 ->
  clench_loop Demo.clench t [0%Z] tp p
  = Ok (uniform_of 10000 20000 (tp (S p)), [0%Z]) (S (S p)).
Proof.
  intros Hwf Ht. unfold clench_loop.
  rewrite foldM_cons, clench_step_eval, clench_window_eval. cbv zeta.
  cbn [Demo.clench d_min d_max ramp fall a_min a_max].
  pose proof (uniform_of_range 2 4 (tp p) ltac:(lra) (Hwf p)) as Hd.
  set (d := uniform_of 2 4 (tp p)) in *.
  assert (Hp : 0.2 <= (t - 0) / d <= 0.8) by (apply div_bounds; lra).
  assert (E1 : Rleb 0 t = true) by (apply Rleb_true; lra).
  assert (E2 : Rltb t (0 + d) = true) by (apply Rltb_true; lra).
  assert (E3 : Rltb ((t - 0) / d) 0.2 = false) by (apply Rltb_false; lra).
  assert (E4 : Rltb 0.8 ((t - 0) / d) = false) by (apply Rltb_false; lra).
  rewrite E1, E2, E3, E4. reflexivity.
Qed.

(** The envelope of a sample of [generate_demo_csv.py] that reads the
    cells from [p] up to [p']. *)
Lemma demo_sample_own start_time duration_seconds i tp p loc row p' :
  wf_source tp ->
  demo_sample_post start_time duration_seconds i tp p loc row p' ->
  (p < p')%nat /\
  own_envelope Demo.clench tp p p' (Demo.t loc)
    (Demo.clench_amplitude loc) (Demo.clench_hits loc).
Proof.
  intros Hwf (ws & q & Hws & Hcl & Hq & Ht & _). rewrite Ht.
  pose proof (clench_loop_cursor _ _ _ _ _ _ _ Hcl) as Hc.
  split; [lia|].
  unfold clench_loop in Hcl.
  eapply own_envelope_weaken with (lo := S p) (hi := q); [lia | lia |].
  eapply clench_fold_own with (gap := 15%Z);
    [apply sane_demo | simpl; lra | exact Hwf | simpl; lra | | exact Hcl].
  eapply py_range3_spaced; [|eassumption]. lia.
Qed.

Lemma session_sample_own session_id session_date duration_minutes
    i tp p loc row p' :
  (-2 <= session_id)%Z -> wf_source tp ->
  session_sample_post session_id session_date duration_minutes
    i tp p loc row p' ->
  (p < p')%nat /\
  own_envelope Professional.clench tp p p' (Professional.t loc)
    (Professional.clench_amplitude loc) (Professional.clench_hits loc).
Proof.
  intros Hid Hwf (ws & q & Hws & Hcl & Hq & Ht & _). rewrite Ht.
  pose proof (clench_loop_cursor _ _ _ _ _ _ _ Hcl) as Hc.
  split; [lia|].
  unfold clench_loop in Hcl.
  eapply own_envelope_weaken with (lo := p) (hi := q); [lia | lia |].
  eapply clench_fold_own with (gap := (12 + session_id * 3)%Z);
    [apply sane_professional | simpl; lra | exact Hwf | | | exact Hcl].
  - cbn [Professional.clench d_max].
    assert (H : (6 <= 12 + session_id * 3)%Z) by lia.
    apply IZR_le in H. lra.
  - eapply py_range3_spaced; [|eassumption]. lia.
Qed.

(** Cursors that advance at every sample: the cells of an earlier
    sample lie before those of a later one. *)
Lemma cursor_steps (c : nat -> nat) (n : nat) :
  (forall k, (k < n)%nat -> (c k < c (S k))%nat) ->
  forall i j, (i < j)%nat -> (j < n)%nat -> (c (S i) <= c j)%nat.
Proof.
  intros Hstep i j Hij. induction Hij as [|m Hm IH]; intros Hj; [lia|].
  specialize (IH ltac:(lia)). specialize (Hstep m ltac:(lia)). lia.
Qed.

(** C5, as far as it holds.  The clench loop runs afresh for every
    sample: it draws a new duration for every window and a new amplitude
    for the window that is active, so neither the duration nor the
    plateau is fixed per window.  Every sample reads cells of the random
    source that no other sample reads (sample [i] reads the cells from
    its cursor up to the cursor of sample [i + 1], and the cursors
    increase).  For every sample, the clench amplitude is [0] when no
    window is active, and otherwise the value at [t] of the trapezoid
    (linear rise over the first 20 %, resp. 15 %, of the duration,
    plateau, linear descent over the last 20 %, resp. 15 %) whose
    duration and plateau amplitude are two consecutive cells among that
    sample's own.  At [t = 1.5] in the window starting at [0], when the
    sample draws the duration 3.0, the amplitude is the sample's own
    plateau draw, between 10000 and 20000, hence non-zero.  For a [t]
    outside [[s, s + d_max)] for every window start [s] the amplitude is
    [0]; so it is at [t = 10] with the 15 s spacing. *)
Theorem C5_envelope_per_sample :
  (ramp Demo.clench = 0.2 /\ ramp Professional.clench = 0.15) /\
  (forall start_time duration_seconds tp p,
     wf_source tp ->
     returns (Demo.sample_loop start_time duration_seconds tp p)
       (fun trace _ =>
          length trace = Z.to_nat (duration_seconds * 20) /\
          (forall i loc row, nth_error trace i = Some (loc, row) ->
             let lo := demo_cursor start_time duration_seconds tp p i in
             let hi := demo_cursor start_time duration_seconds tp p (S i) in
             (lo < hi)%nat /\
             own_envelope Demo.clench tp lo hi (Demo.t loc)
               (Demo.clench_amplitude loc) (Demo.clench_hits loc)) /\
          (forall i j, (i < j)%nat -> (j < length trace)%nat ->
             (demo_cursor start_time duration_seconds tp p (S i)
              <= demo_cursor start_time duration_seconds tp p j)%nat))) /\
  (forall session_id session_date duration_minutes tp p,
     (-2 <= session_id)%Z -> wf_source tp ->
     returns (Professional.sample_loop session_id session_date
                duration_minutes tp p)
       (fun trace _ =>
          length trace = Z.to_nat (duration_minutes * 60 * 20) /\
          (forall i loc row, nth_error trace i = Some (loc, row) ->
             let lo := session_cursor session_id session_date
                         duration_minutes tp p i in
             let hi := session_cursor session_id session_date
                         duration_minutes tp p (S i) in
             (lo < hi)%nat /\
             own_envelope Professional.clench tp lo hi (Professional.t loc)
               (Professional.clench_amplitude loc)
               (Professional.clench_hits loc)) /\
          (forall i j, (i < j)%nat -> (j < length trace)%nat ->
             (session_cursor session_id session_date
                duration_minutes tp p (S i)
              <= session_cursor session_id session_date
                   duration_minutes tp p j)%nat))) /\
  (forall duration_seconds windows tp p,
     wf_source tp -> (0 < duration_seconds)%Z ->
     py_range3 0 duration_seconds 15 = Some windows ->
     uniform_of 2 4 (tp p) = 3.0 ->
     returns (clench_loop Demo.clench 1.5 windows tp p)
       (fun st _ =>
          st = (uniform_of 10000 20000 (tp (S p)), [0%Z]) /\
          10000 <= fst st <= 20000 /\ fst st <> 0)) /\
  (forall c t windows tp p,
     wf_source tp -> d_min c <= d_max c ->
     (forall s, In s windows -> t < IZR s \/ IZR s + d_max c <= t) ->
     returns (clench_loop c t windows tp p) (fun st _ => st = (0, []))) /\
  (forall duration_seconds windows tp p,
     wf_source tp ->
     py_range3 0 duration_seconds 15 = Some windows ->
     returns (clench_loop Demo.clench 10 windows tp p)
       (fun st _ => st = (0, []))).
Proof.
  assert (Hout : forall c t windows tp p,
     wf_source tp -> d_min c <= d_max c ->
     (forall s, In s windows -> t < IZR s \/ IZR s + d_max c <= t) ->
     returns (clench_loop c t windows tp p) (fun st _ => st = (0, []))).
  { intros c t ws tp p Hwf Hd Hs. unfold clench_loop.
    rewrite clench_fold_inactive by assumption. reflexivity. }
  split; [split; reflexivity|].
  split.
  { intros start d tp p Hwf.
    destruct (demo_loop_total start d tp p) as (trace & p' & H).
    rewrite H. cbn [returns].
    assert (Hown : forall i loc row, nth_error trace i = Some (loc, row) ->
              (demo_cursor start d tp p i < demo_cursor start d tp p (S i))%nat
              /\ own_envelope Demo.clench tp (demo_cursor start d tp p i)
                   (demo_cursor start d tp p (S i)) (Demo.t loc)
                   (Demo.clench_amplitude loc) (Demo.clench_hits loc)).
    { intros i loc row Hi.
      eapply demo_sample_own; [exact Hwf|].
      eapply demo_loop_at; eassumption. }
    split; [eapply demo_loop_length; eassumption|].
    split; [exact Hown|].
    apply cursor_steps. intros k Hk.
    destruct (nth_error trace k) as [[loc row]|] eqn:Ek.
    - apply (Hown k loc row Ek).
    - apply nth_error_None in Ek. lia. }
  split.
  { intros sid date dur tp p Hid Hwf.
    assert (Hid' : sid <> (-4)%Z) by lia.
    destruct (session_loop_total sid date dur tp p Hid') as (trace & p' & H).
    rewrite H. cbn [returns].
    assert (Hown : forall i loc row, nth_error trace i = Some (loc, row) ->
              (session_cursor sid date dur tp p i
               < session_cursor sid date dur tp p (S i))%nat
              /\ own_envelope Professional.clench tp
                   (session_cursor sid date dur tp p i)
                   (session_cursor sid date dur tp p (S i))
                   (Professional.t loc) (Professional.clench_amplitude loc)
                   (Professional.clench_hits loc)).
    { intros i loc row Hi.
      eapply session_sample_own; [exact Hid | exact Hwf |].
      eapply session_loop_at; eassumption. }
    split; [eapply session_loop_length; eassumption|].
    split; [exact Hown|].
    apply cursor_steps. intros k Hk.
    destruct (nth_error trace k) as [[loc row]|] eqn:Ek.
    - apply (Hown k loc row Ek).
    - apply nth_error_None in Ek. lia. }
  split.
  { intros d ws tp p Hwf Hd Hws Hdur.
    destruct (py_range3_head d 15 Hd ltac:(lia)) as (rest & Hrest & Hge).
    rewrite Hrest in Hws. injection Hws as <-.
    unfold clench_loop.
    rewrite foldM_cons, clench_step_eval, clench_window_eval. cbv zeta.
    cbn [Demo.clench d_min d_max ramp fall a_min a_max].
    rewrite Hdur.
    assert (E1 : Rleb 0 1.5 = true) by (apply Rleb_true; lra).
    assert (E2 : Rltb 1.5 (0 + 3.0) = true) by (apply Rltb_true; lra).
    assert (E3 : Rltb ((1.5 - 0) / 3.0) 0.2 = false)
      by (apply Rltb_false; lra).
    assert (E4 : Rltb 0.8 ((1.5 - 0) / 3.0) = false)
      by (apply Rltb_false; lra).
    rewrite E1, E2, E3, E4. cbn [andb snd app].
    rewrite clench_fold_inactive.
    - cbn [returns fst].
      pose proof (uniform_of_range 10000 20000 (tp (S p)) ltac:(lra)
                    (Hwf (S p))).
      split; [reflexivity|]. split; lra.
    - assumption.
    - simpl. lra.
    - intros s Hs. left. apply Hge in Hs. apply IZR_le in Hs. lra. }
  split; [exact Hout|].
  intros d ws tp p Hwf Hws. apply Hout; [assumption | simpl; lra |].
  intros s Hs. destruct (py_range3_multiple _ _ _ _ Hws Hs) as [k ->].
  cbn [Demo.clench d_max].
  destruct k as [|k].
  - right. simpl. lra.
  - left. assert (H : (15 <= Z.of_nat (S k) * 15)%Z) by lia.
    apply IZR_le in H. lra.
Qed.

Lemma C5_envelope_per_sample_witness :
  wf_source (tape_const (1 / 2) 0 0) /\ (-2 <= 1)%Z /\ (0 < 120)%Z /\
  py_range3 0 120 15 = Some [0; 15; 30; 45; 60; 75; 90; 105]%Z /\
  uniform_of 2 4 (tape_const (1 / 2) 0 0 0%nat) = 3.0 /\
  d_min Demo.clench <= d_max Demo.clench /\
  (forall s, In s [0; 15]%Z -> 10 < IZR s \/ IZR s + d_max Demo.clench <= 10) /\
  returns (Demo.sample_loop 0%Z 120 (tape_const (1 / 2) 0 0) 0%nat)
    (fun trace _ =>
       length trace = Z.to_nat (120 * 20) /\
       (forall i loc row, nth_error trace i = Some (loc, row) ->
          let lo := demo_cursor 0%Z 120 (tape_const (1 / 2) 0 0) 0%nat i in
          let hi := demo_cursor 0%Z 120 (tape_const (1 / 2) 0 0) 0%nat (S i) in
          (lo < hi)%nat /\
          own_envelope Demo.clench (tape_const (1 / 2) 0 0) lo hi (Demo.t loc)
            (Demo.clench_amplitude loc) (Demo.clench_hits loc)) /\
       (forall i j, (i < j)%nat -> (j < length trace)%nat ->
          (demo_cursor 0%Z 120 (tape_const (1 / 2) 0 0) 0%nat (S i)
           <= demo_cursor 0%Z 120 (tape_const (1 / 2) 0 0) 0%nat j)%nat)) /\
  returns (Professional.sample_loop 1 0%Z 8 (tape_const (1 / 2) 0 0) 0%nat)
    (fun trace _ =>
       length trace = Z.to_nat (8 * 60 * 20) /\
       (forall i loc row, nth_error trace i = Some (loc, row) ->
          let lo := session_cursor 1 0%Z 8 (tape_const (1 / 2) 0 0) 0%nat i in
          let hi := session_cursor 1 0%Z 8 (tape_const (1 / 2) 0 0) 0%nat
                      (S i) in
          (lo < hi)%nat /\
          own_envelope Professional.clench (tape_const (1 / 2) 0 0) lo hi
            (Professional.t loc) (Professional.clench_amplitude loc)
            (Professional.clench_hits loc)) /\
       (forall i j, (i < j)%nat -> (j < length trace)%nat ->
          (session_cursor 1 0%Z 8 (tape_const (1 / 2) 0 0) 0%nat (S i)
           <= session_cursor 1 0%Z 8 (tape_const (1 / 2) 0 0) 0%nat j)%nat)) /\
  returns (clench_loop Demo.clench 1.5 [0; 15; 30; 45; 60; 75; 90; 105]%Z
             (tape_const (1 / 2) 0 0) 0%nat)
    (fun st _ =>
       st = (uniform_of 10000 20000 (tape_const (1 / 2) 0 0 1%nat), [0%Z]) /\
       10000 <= fst st <= 20000 /\ fst st <> 0) /\
  returns (clench_loop Demo.clench 10 [0; 15]%Z (tape_const (1 / 2) 0 0) 0%nat)
    (fun st _ => st = (0, [])) /\
  returns (clench_loop Demo.clench 10 [0; 15; 30; 45; 60; 75; 90; 105]%Z
             (tape_const (1 / 2) 0 0) 0%nat)
    (fun st _ => st = (0, [])).
Proof.
  assert (H1 : wf_source (tape_const (1 / 2) 0 0)) by (intros n; simpl; lra).
  assert (H0 : (-2 <= 1)%Z) by lia.
  assert (H2 : (0 < 120)%Z) by lia.
  assert (H3 : py_range3 0 120 15 = Some [0; 15; 30; 45; 60; 75; 90; 105]%Z)
    by reflexivity.
  assert (H4 : uniform_of 2 4 (tape_const (1 / 2) 0 0 0%nat) = 3.0)
    by (unfold uniform_of; simpl; lra).
  assert (H5 : d_min Demo.clench <= d_max Demo.clench) by (simpl; lra).
  assert (H6 : forall s, In s [0; 15]%Z ->
                 10 < IZR s \/ IZR s + d_max Demo.clench <= 10).
  { intros s [<- | [<- | []]]; simpl; [right | left]; lra. }
  destruct C5_envelope_per_sample as (_ & T1 & T2 & T3 & T4 & T5).
  split; [exact H1|]. split; [exact H0|]. split; [exact H2|].
  split; [exact H3|]. split; [exact H4|]. split; [exact H5|].
  split; [exact H6|].
  split; [exact (T1 0%Z 120%Z (tape_const (1 / 2) 0 0) 0%nat H1)|].
  split; [exact (T2 1%Z 0%Z 8%Z (tape_const (1 / 2) 0 0) 0%nat H0 H1)|].
  split; [exact (T3 120%Z _ (tape_const (1 / 2) 0 0) 0%nat H1 H2 H3 H4)|].
  split; [exact (T4 Demo.clench 10 [0; 15]%Z (tape_const (1 / 2) 0 0) 0%nat
                   H1 H5 H6)|].
  exact (T5 120%Z _ (tape_const (1 / 2) 0 0) 0%nat H1 H3).
Defined.

Lemma wf_tape_harmonic : wf_source tape_harmonic.
Proof.
  intros n. simpl. pose proof (pos_INR n) as Hn.
  assert (H : 0 < / (INR n + 1)) by (apply Rinv_0_lt_compat; lra).
  split; [lra|]. rewrite <- Rinv_1. apply Rinv_le_contravar; lra.
Qed.

Lemma tape_harmonic_injective a b n m :
  a + b * unit01 (tape_harmonic n) = a + b * unit01 (tape_harmonic m) ->
  b <> 0 -> n = m.
Proof.
  simpl. intros H Hb. apply INR_eq.
  assert (E : / (INR n + 1) = / (INR m + 1)).
  { apply (Rmult_eq_reg_l b); [lra | assumption]. }
  apply Rinv_eq_reg in E. lra.
Qed.

(** C5 fails: the plateau amplitude is not one value per window.  In a
    2 s run of the single-session script the only window starts at [0];
    the samples 20 and 21 (t = 1.00 and t = 1.05) both fall into it, on
    the plateau of every trapezoid whose duration is between 2 and 4 and
    whose ramps take 15 to 20 % of it, yet their clench amplitudes
    differ: no single trapezoid passes through both. *)
Lemma C5_plateau_redrawn :
  wf_source tape_harmonic /\
  exists trace p' l20 r20 l21 r21,
    Demo.sample_loop 0%Z 2 tape_harmonic 0%nat = Ok trace p' /\
    nth_error trace 20 = Some (l20, r20) /\
    nth_error trace 21 = Some (l21, r21) /\
    Demo.t l20 = 1 /\ Demo.t l21 = 1.05 /\
    Demo.clench_hits l20 = [0%Z] /\ Demo.clench_hits l21 = [0%Z] /\
    Demo.clench_amplitude l20 <> Demo.clench_amplitude l21 /\
    ~ (exists d r a, 2 <= d <= 4 /\ 0.15 <= r <= 0.2 /\
         Demo.clench_amplitude l20 = trapezoid 0 d r a 1 /\
         Demo.clench_amplitude l21 = trapezoid 0 d r a 1.05).
Proof.
  split; [apply wf_tape_harmonic|].
  destruct (demo_loop_total 0%Z 2 tape_harmonic 0%nat) as (trace & p' & H).
  pose proof (demo_loop_length _ _ _ _ _ _ H) as Hlen.
  change (Z.to_nat (2 * 20)) with 40%nat in Hlen.
  destruct (nth_error trace 20) as [[l20 r20]|] eqn:H20.
  2:{ apply nth_error_None in H20. lia. }
  destruct (nth_error trace 21) as [[l21 r21]|] eqn:H21.
  2:{ apply nth_error_None in H21. lia. }
  destruct (demo_loop_nth_next _ _ _ _ _ _ _ _ _ _ _ H H20 H21)
    as (q & q' & q'' & P20 & P21).
  destruct P20 as (ws & q0 & Hws & Hcl & Hq & Ht & _).
  destruct P21 as (ws' & q0' & Hws' & Hcl' & Hq' & Ht' & _).
  assert (E : py_range3 0 2 15 = Some [0%Z]) by reflexivity.
  rewrite E in Hws, Hws'. injection Hws as <-. injection Hws' as <-.
  assert (T20 : IZR (Z.of_nat 20) / 20 = 1) by (simpl; lra).
  assert (T21 : IZR (Z.of_nat 21) / 20 = 1.05) by (simpl; lra).
  rewrite T20 in *. rewrite T21 in *.
  rewrite demo_plateau_eval in Hcl by (try apply wf_tape_harmonic; lra).
  rewrite demo_plateau_eval in Hcl' by (try apply wf_tape_harmonic; lra).
  injection Hcl as A20 B20 C20. injection Hcl' as A21 B21 C21.
  assert (Hne : Demo.clench_amplitude l20 <> Demo.clench_amplitude l21).
  { rewrite <- A20, <- A21. unfold uniform_of. intros Heq.
    apply tape_harmonic_injective in Heq; [lia | lra]. }
  exists trace, p', l20, r20, l21, r21.
  repeat (split; [first [reflexivity | assumption | now symmetry]|]).
  intros (d & r & a & Hd & Hr & E20 & E21).
  rewrite trapezoid_plateau in E20 by nra.
  rewrite trapezoid_plateau in E21 by nra.
  congruence.
Qed.

(** ** The cardiac component *)

Lemma py_range_cons2 n :
  (1 < n)%Z -> exists l, py_range n = 0%Z :: 1%Z :: l.
Proof.
  intros Hn. unfold py_range.
  destruct (Z.to_nat n) as [|[|k]] eqn:Hk; [lia..|].
  simpl. eauto.
Qed.

(** C6, as far as it holds.  In both scripts the cardiac component is
    [Camp * sin(2 pi (bpm / 60) t)].  In the single-session script
    (Camp = 1500) [bpm] is [70 + uniform(-2, 2)], hence within 68 and
    72, and it is drawn anew for every sample: consecutive samples read
    it from different cells of the random source.  In the multi-session
    script (Camp = 1200) [bpm] is the constant 72 and is not
    randomized. *)
Theorem C6_cardiac :
  (forall start_time duration_seconds tp p,
     returns (Demo.sample_loop start_time duration_seconds tp p)
       (fun trace _ =>
          (forall i loc row, nth_error trace i = Some (loc, row) ->
             Demo.t loc = IZR (Z.of_nat i) / 20 /\
             Demo.cardiac loc
             = 1500 * sin (2 * PI * (Demo.bpm loc / 60) * Demo.t loc) /\
             (wf_source tp -> 68 <= Demo.bpm loc <= 72)) /\
          (forall i loc row loc' row',
             nth_error trace i = Some (loc, row) ->
             nth_error trace (S i) = Some (loc', row') ->
             exists q q', (q < q')%nat /\
               Demo.bpm loc = 70 + uniform_of (-2) 2 (tp q) /\
               Demo.bpm loc' = 70 + uniform_of (-2) 2 (tp q')))) /\
  (forall session_id session_date duration_minutes tp p,
     session_id <> (-4)%Z ->
     returns (Professional.sample_loop session_id session_date
                duration_minutes tp p)
       (fun trace _ =>
          forall i loc row, nth_error trace i = Some (loc, row) ->
            Professional.t loc = IZR (Z.of_nat i) / 20 /\
            Professional.cardiac loc
            = 1200 * sin (2 * PI * (72 / 60) * Professional.t loc))).
Proof.
  split.
  - intros start d tp p.
    destruct (demo_loop_total start d tp p) as (trace & p' & H).
    rewrite H. cbn [returns]. split.
    + intros i loc row Hi.
      destruct (demo_loop_nth _ _ _ _ _ _ _ _ _ H Hi)
        as (q & q' & ws & q0 & _ & _ & _ & Ht & _ & Hb & Hc & _).
      split; [assumption|]. split; [assumption|].
      intros Hwf. rewrite Hb.
      pose proof (uniform_of_range (-2) 2 (tp q) ltac:(lra) (Hwf q)). lra.
    + intros i loc row loc' row' Hi Hi'.
      destruct (demo_loop_nth_next _ _ _ _ _ _ _ _ _ _ _ H Hi Hi')
        as (q & q' & q'' & P & P').
      destruct P as (ws & q0 & _ & Hcl & Hq & _ & _ & Hb & _).
      destruct P' as (ws' & q0' & _ & _ & _ & _ & _ & Hb' & _).
      apply clench_loop_cursor in Hcl.
      exists q, q'. split; [lia|]. split; assumption.
  - intros sid date dur tp p Hid.
    destruct (session_loop_total sid date dur tp p Hid) as (trace & p' & H).
    rewrite H. cbn [returns]. intros i loc row Hi.
    destruct (session_loop_nth _ _ _ _ _ _ _ _ _ _ Hid H Hi)
      as (q & q' & ws & q0 & _ & _ & _ & Ht & _ & _ & Hc & _).
    split; assumption.
Qed.

Lemma C6_cardiac_witness :
  (1 <> -4)%Z /\
  returns (Professional.sample_loop 1 0%Z 8 (tape_const 0 0 0) 0%nat)
    (fun trace _ =>
       forall i loc row, nth_error trace i = Some (loc, row) ->
         Professional.t loc = IZR (Z.of_nat i) / 20 /\
         Professional.cardiac loc
         = 1200 * sin (2 * PI * (72 / 60) * Professional.t loc)).
Proof.
  split; [lia|].
  apply (proj2 C6_cardiac 1%Z 0%Z 8%Z (tape_const 0 0 0) 0%nat). lia.
Defined.

(** C6 fails: [bpm] is not drawn once per call.  With a random source
    that answers 0 to the first draw and 1 to every later one, the first
    two samples of the single-session script use [bpm = 68] and
    [bpm = 72]. *)
Lemma C6_bpm_redrawn :
  wf_source tape_step /\
  exists l0 r0 l1 r1 rest p',
    Demo.sample_loop 0%Z 120 tape_step 0%nat
      = Ok ((l0, r0) :: (l1, r1) :: rest) p' /\
    Demo.bpm l0 = 68 /\ Demo.bpm l1 = 72 /\ Demo.bpm l0 <> Demo.bpm l1.
Proof.
  split.
  { intros n. simpl. destruct (Nat.eqb n 0); lra. }
  destruct (demo_loop_total 0%Z 120 tape_step 0%nat) as (trace & p' & H).
  pose proof H as Hc. unfold Demo.sample_loop in Hc.
  apply mapM_chain in Hc.
  destruct (py_range_cons2 (120 * Demo.sample_rate)) as [l Hl];
    [unfold Demo.sample_rate; lia|].
  rewrite Hl in Hc.
  apply chain_head in Hc as ([l0 r0] & q1 & trace1 & -> & Hs0 & Hc).
  apply chain_head in Hc as ([l1 r1] & q2 & trace2 & -> & Hs1 & Hc).
  destruct (demo_sample_spec 0%Z 120 0 tape_step 0%nat)
    as (a0 & b0 & c0 & E0 & P0).
  rewrite E0 in Hs0. injection Hs0 as -> -> ->.
  destruct (demo_sample_spec 0%Z 120 1 tape_step q1)
    as (a1 & b1 & c1 & E1 & P1).
  rewrite E1 in Hs1. injection Hs1 as -> -> ->.
  destruct P0 as (ws & q0 & _ & Hcl & Hq & _ & _ & Hb & _).
  destruct P1 as (ws' & q0' & _ & _ & _ & _ & _ & Hb' & _).
  apply clench_loop_cursor in Hcl.
  assert (B0 : Demo.bpm l0 = 68).
  { rewrite Hb. unfold uniform_of. simpl. lra. }
  assert (B1 : Demo.bpm l1 = 72).
  { rewrite Hb'. unfold uniform_of, tape_step.
    destruct (Nat.eqb_spec q1 0) as [->|_]; [lia|]. simpl. lra. }
  exists l0, r0, l1, r1, trace2, p'.
  split; [assumption|]. split; [assumption|]. split; [assumption|]. lra.
Qed.

(** ** The combined file of the multi-session script *)

Lemma chain_Forall2 {A B} (f : A -> M B) tp (R : B -> B -> Prop) :
  (forall a q1 b1 q1' q2 b2 q2',
     f a tp q1 = Ok b1 q1' -> f a tp q2 = Ok b2 q2' -> R b1 b2) ->
  forall l p1 bs1 p1' p2 bs2 p2',
    run_chain f tp p1 l bs1 p1' -> run_chain f tp p2 l bs2 p2' ->
    Forall2 R bs1 bs2.
Proof.
  intros HR. induction l as [|a l IH]; intros p1 bs1 p1' p2 bs2 p2' H1 H2.
  - inversion H1; inversion H2; subst. constructor.
  - inversion H1; inversion H2; subst. constructor.
    + eapply HR; eassumption.
    + eapply IH; eassumption.
Qed.

Lemma Forall2_map_snd {A B} (R : B -> B -> Prop) (l1 l2 : list (A * B)) :
  Forall2 (fun x y => R (snd x) (snd y)) l1 l2 ->
  Forall2 R (map snd l1) (map snd l2).
Proof. induction 1; simpl; constructor; assumption. Qed.

(** Two runs of [generate_session] on the same arguments agree on the
    fields that do not depend on the random source, wherever the cursor
    stands when they start. *)
Lemma generate_session_fixed_fields session_id session_date duration_minutes
    tp p1 rows1 p1' p2 rows2 p2' :
  session_id <> (-4)%Z ->
  Professional.generate_session session_id session_date duration_minutes tp p1
    = Ok rows1 p1' ->
  Professional.generate_session session_id session_date duration_minutes tp p2
    = Ok rows2 p2' ->
  Forall2 same_fixed_fields rows1 rows2.
Proof.
  intros Hid. rewrite !generate_session_eval.
  destruct (Professional.sample_loop _ _ _ tp p1) as [t1 q1|] eqn:H1;
    [|discriminate].
  destruct (Professional.sample_loop _ _ _ tp p2) as [t2 q2|] eqn:H2;
    [|discriminate].
  intros E1 E2. injection E1 as <- _. injection E2 as <- _.
  unfold Professional.sample_loop in H1, H2.
  apply mapM_chain in H1. apply mapM_chain in H2.
  apply Forall2_map_snd.
  eapply chain_Forall2; [|exact H1|exact H2].
  intros i qa [la ra] qa' qb [lb rb] qb' Ha Hb.
  destruct (session_sample_spec session_id session_date duration_minutes
              i tp qa Hid) as (l & r & q & Hs & Hpost).
  rewrite Hs in Ha. injection Ha as -> -> ->.
  destruct (session_sample_spec session_id session_date duration_minutes
              i tp qb Hid) as (l' & r' & q' & Hs' & Hpost').
  rewrite Hs' in Hb. injection Hb as -> -> ->.
  destruct Hpost as (ws & q0 & Hpost). destruct Hpost' as (ws' & q0' & Hpost').
  decompose [and] Hpost. decompose [and] Hpost'.
  unfold same_fixed_fields. simpl. repeat split; congruence.
Qed.

(** C8, as far as it holds.  The combined file is not assembled from the
    rows written to the per-session files: the script generates the
    three sessions a second time, continuing on the same random source,
    and the combined file holds the rows of this second generation, in
    session order.  They agree with the rows of the per-session files,
    taken in session order, in number and, row by row, in [timestamp],
    [battery] and [device_id]. *)
Theorem C8_all_sessions_regenerated :
  forall now1 now2 now3 tp p,
    returns (Professional.generate_professional_demo now1 now2 now3 tp p)
      (fun fs _ =>
         exists f1 f2 f3 f_all q1 q2 q3 r1' r2' r3' q4 q5 q6,
           file_named "demo_participant_session_1.csv" fs = Some f1 /\
           file_named "demo_participant_session_2.csv" fs = Some f2 /\
           file_named "demo_participant_session_3.csv" fs = Some f3 /\
           file_named "demo_participant_all_sessions.csv" fs = Some f_all /\
           Professional.generate_session 1 (now1 - timedelta_days 5)%Z 8 tp p
             = Ok (data_rows f1) q1 /\
           Professional.generate_session 2 (now2 - timedelta_days 3)%Z 10 tp q1
             = Ok (data_rows f2) q2 /\
           Professional.generate_session 3 (now3 - timedelta_days 1)%Z 12 tp q2
             = Ok (data_rows f3) q3 /\
           Professional.generate_session 1 (now1 - timedelta_days 5)%Z 8 tp q3
             = Ok r1' q4 /\
           Professional.generate_session 2 (now2 - timedelta_days 3)%Z 10 tp q4
             = Ok r2' q5 /\
           Professional.generate_session 3 (now3 - timedelta_days 1)%Z 12 tp q5
             = Ok r3' q6 /\
           data_rows f_all = r1' ++ r2' ++ r3' /\
           Forall2 same_fixed_fields
             (data_rows f1 ++ data_rows f2 ++ data_rows f3)
             (data_rows f_all)).
Proof.
  intros now1 now2 now3 tp p.
  destruct (professional_demo_spec now1 now2 now3 tp p)
    as (r1 & r2 & r3 & r1' & r2' & r3' & q1 & q2 & q3 & q4 & q5 & q6
        & H1 & H2 & H3 & H4 & H5 & H6 & ->).
  cbn [returns].
  exists (write_csv r1), (write_csv r2), (write_csv r3),
         (write_csv (r1' ++ r2' ++ r3')), q1, q2, q3, r1', r2', r3', q4, q5, q6.
  do 4 (split; [reflexivity|]).
  split; [exact H1|]. split; [exact H2|]. split; [exact H3|].
  split; [exact H4|]. split; [exact H5|]. split; [exact H6|].
  split; [reflexivity|].
  cbn [data_rows write_csv].
  repeat apply Forall2_app.
  - eapply generate_session_fixed_fields; [|exact H1|exact H4]. lia.
  - eapply generate_session_fixed_fields; [|exact H2|exact H5]. lia.
  - eapply generate_session_fixed_fields; [|exact H3|exact H6]. lia.
Qed.

Lemma wf_tape_count : wf_source tape_count.
Proof. intros n. simpl. lra. Qed.

(** C8 fails: on a random source whose Gaussian reading of cell [n] is
    [n], the first data row of the combined file differs from the first
    data row of the file of session 1 in [ppg_ir], so the combined rows
    are not the concatenation of the per-session rows. *)
Lemma C8_all_sessions_differ :
  wf_source tape_count /\
  exists fs p' f1 f2 f3 f_all,
    Professional.generate_professional_demo 0%Z 0%Z 0%Z tape_count 0%nat
      = Ok fs p' /\
    file_named "demo_participant_session_1.csv" fs = Some f1 /\
    file_named "demo_participant_session_2.csv" fs = Some f2 /\
    file_named "demo_participant_session_3.csv" fs = Some f3 /\
    file_named "demo_participant_all_sessions.csv" fs = Some f_all /\
    data_rows f_all <> data_rows f1 ++ data_rows f2 ++ data_rows f3.
Proof.
  split; [apply wf_tape_count|].
  destruct (professional_demo_spec 0%Z 0%Z 0%Z tape_count 0%nat)
    as (r1 & r2 & r3 & r1' & r2' & r3' & q1 & q2 & q3 & q4 & q5 & q6
        & H1 & H2 & H3 & H4 & H5 & H6 & Hgen).
  eexists _, _, (write_csv r1), (write_csv r2), (write_csv r3),
    (write_csv (r1' ++ r2' ++ r3')).
  split; [exact Hgen|].
  do 4 (split; [reflexivity|]).
  cbn [data_rows write_csv].
  destruct (session_first_row 1 (0 - timedelta_days 5)%Z 8 tape_count 0%nat)
    as (a & rest & c & p1 & Ha & _ & Hc & Hir & _); [lia..|].
  rewrite Ha in H1. injection H1 as <- <-.
  destruct (session_first_row 1 (0 - timedelta_days 5)%Z 8 tape_count q3)
    as (a' & rest' & c' & p4 & Ha' & Hc' & _ & Hir' & _); [lia..|].
  rewrite Ha' in H4. injection H4 as <- <-.
  apply generate_session_cursor in H2; [|lia].
  apply generate_session_cursor in H3; [|lia].
  intros E. simpl in E. injection E as E _.
  rewrite E in Hir'. rewrite Hir in Hir'. simpl in Hir'.
  rewrite !INR_IZR_INZ in Hir'.
  replace (48000 + IZR (Z.of_nat c) * 250)
    with (IZR (48000 + Z.of_nat c * 250)) in Hir'
    by (rewrite plus_IZR, mult_IZR; reflexivity).
  replace (48000 + IZR (Z.of_nat c') * 250)
    with (IZR (48000 + Z.of_nat c' * 250)) in Hir'
    by (rewrite plus_IZR, mult_IZR; reflexivity).
  rewrite !py_int_IZR in Hir'. lia.
Qed.

(* ================================================================= *)
(** * Further properties of the two scripts *)

(** ** The remaining fields of one iteration *)

Lemma demo_sample_full start_time duration_seconds i tp p :
  exists loc row p',
    Demo.sample start_time duration_seconds i tp p = Ok (loc, row) p'
    /\ demo_sample_post start_time duration_seconds i tp p loc row p'
    /\ demo_sample_rest duration_seconds i tp p loc row p'.
Proof.
  destruct (demo_sample_spec start_time duration_seconds i tp p)
    as (loc & row & p' & Hs & Hpost).
  exists loc, row, p'. split; [assumption|]. split; [assumption|].
  destruct (py_range3_some 0 duration_seconds 15) as [ws Hws]; [lia|].
  destruct (clench_fold_total Demo.clench (IZR i / 20) ws (0, []) tp (S p))
    as ([amp hits] & q & Hloop & Hq).
  revert Hs.
  cbv beta iota zeta delta [Demo.sample bind uniform gauss next_draw ret range3].
  rewrite Hws. cbv beta iota.
  change (IZR Demo.sample_rate) with 20.
  unfold clench_loop at 1. rewrite Hloop. cbv beta iota.
  destruct (Rltb 5000 amp) eqn:E; cbv beta iota;
    intros Hs; injection Hs as <- <- <-;
    exists ws, q; cbn [Demo.clench_amplitude Demo.clench_hits Demo.bpm
                       accel_x accel_y accel_z temperature heart_rate];
    rewrite E;
    (split; [assumption|]); (split; [exact Hloop|]).
  - replace (q + 3)%nat with (S (S (S q))) by lia.
    replace (q + 4)%nat with (S (S (S (S q)))) by lia.
    replace (q + 5)%nat with (S (S (S (S (S q))))) by lia.
    replace (q + 6)%nat with (S (S (S (S (S (S q)))))) by lia.
    replace (q + 7)%nat with (S (S (S (S (S (S (S q))))))) by lia.
    replace (q + 11)%nat with (S (S (S (S (S (S (S (S (S (S (S q)))))))))))
      by lia.
    cbn [Nat.sub]. repeat split; reflexivity.
  - replace (q + 3)%nat with (S (S (S q))) by lia.
    replace (q + 4)%nat with (S (S (S (S q)))) by lia.
    replace (q + 5)%nat with (S (S (S (S (S q))))) by lia.
    replace (q + 9)%nat with (S (S (S (S (S (S (S (S (S q))))))))) by lia.
    cbn [Nat.sub]. repeat split; reflexivity.
Qed.

Lemma session_sample_full session_id session_date duration_minutes i tp p :
  session_id <> (-4)%Z ->
  exists loc row p',
    Professional.sample session_id session_date duration_minutes i tp p
      = Ok (loc, row) p'
    /\ session_sample_post session_id session_date duration_minutes i
         tp p loc row p'
    /\ session_sample_rest session_id duration_minutes i tp p loc row p'.
Proof.
  intros Hid.
  destruct (session_sample_spec session_id session_date duration_minutes
              i tp p Hid) as (loc & row & p' & Hs & Hpost).
  exists loc, row, p'. split; [assumption|]. split; [assumption|].
  destruct (py_range3_some 0 (duration_minutes * 60) (12 + session_id * 3))
    as [ws Hws]; [lia|].
  destruct (clench_fold_total Professional.clench (IZR i / 20) ws (0, []) tp p)
    as ([amp hits] & q & Hloop & Hq).
  revert Hs.
  cbv beta iota zeta
      delta [Professional.sample bind uniform gauss randint next_draw ret range3].
  rewrite Hws. cbv beta iota.
  change (IZR Professional.sample_rate) with 20.
  unfold clench_loop at 1. rewrite Hloop. cbv beta iota.
  intros Hs; injection Hs as <- <- <-.
  exists ws, q.
  cbn [Professional.clench_amplitude Professional.clench_hits
       accel_x accel_y accel_z temperature].
  replace (q + 1)%nat with (S q) by lia.
  replace (q + 2)%nat with (S (S q)) by lia.
  replace (q + 3)%nat with (S (S (S q))) by lia.
  replace (q + 4)%nat with (S (S (S (S q)))) by lia.
  split; [assumption|]. split; [exact Hloop|].
  repeat split; try reflexivity. lia.
Qed.

Lemma demo_loop_nth_full start_time duration_seconds tp p trace p' i loc row :
  Demo.sample_loop start_time duration_seconds tp p = Ok trace p' ->
  nth_error trace i = Some (loc, row) ->
  exists q q',
    demo_sample_post start_time duration_seconds (Z.of_nat i) tp q loc row q'
    /\ demo_sample_rest duration_seconds (Z.of_nat i) tp q loc row q'.
Proof.
  unfold Demo.sample_loop. intros H Hi. apply mapM_chain in H.
  destruct (chain_nth _ _ _ _ _ _ H _ _ Hi) as (a & q & q' & Ha & Hf).
  apply py_range_nth in Ha as [-> _].
  destruct (demo_sample_full start_time duration_seconds (Z.of_nat i) tp q)
    as (loc0 & row0 & q0 & Hs & Hpost).
  rewrite Hs in Hf. injection Hf as -> -> ->. now exists q, q'.
Qed.

Lemma session_loop_nth_full session_id session_date duration_minutes
    tp p trace p' i loc row :
  session_id <> (-4)%Z ->
  Professional.sample_loop session_id session_date duration_minutes tp p
    = Ok trace p' ->
  nth_error trace i = Some (loc, row) ->
  exists q q',
    session_sample_post session_id session_date duration_minutes
      (Z.of_nat i) tp q loc row q'
    /\ session_sample_rest session_id duration_minutes
         (Z.of_nat i) tp q loc row q'.
Proof.
  unfold Professional.sample_loop. intros Hid H Hi. apply mapM_chain in H.
  destruct (chain_nth _ _ _ _ _ _ H _ _ Hi) as (a & q & q' & Ha & Hf).
  apply py_range_nth in Ha as [-> _].
  destruct (session_sample_full session_id session_date duration_minutes
              (Z.of_nat i) tp q Hid) as (loc0 & row0 & q0 & Hs & Hpost).
  rewrite Hs in Hf. injection Hf as -> -> ->. now exists q, q'.
Qed.

(** The same, with the cursors between which the sample reads. *)
Lemma demo_loop_at_full start_time duration_seconds tp p trace p' i loc row :
  Demo.sample_loop start_time duration_seconds tp p = Ok trace p' ->
  nth_error trace i = Some (loc, row) ->
  demo_sample_post start_time duration_seconds (Z.of_nat i) tp
    (demo_cursor start_time duration_seconds tp p i) loc row
    (demo_cursor start_time duration_seconds tp p (S i)) /\
  demo_sample_rest duration_seconds (Z.of_nat i) tp
    (demo_cursor start_time duration_seconds tp p i) loc row
    (demo_cursor start_time duration_seconds tp p (S i)).
Proof.
  unfold Demo.sample_loop, demo_cursor. intros H Hi. apply mapM_chain in H.
  destruct (chain_cursor _ _ _ _ _ _ H _ _ Hi) as (a & Ha & Hf).
  apply py_range_nth in Ha as [-> _].
  set (lo := cursor_after _ tp p (firstn i _)) in *.
  set (hi := cursor_after _ tp p (firstn (S i) _)) in *.
  destruct (demo_sample_full start_time duration_seconds (Z.of_nat i) tp lo)
    as (loc0 & row0 & q0 & Hs & Hpost).
  rewrite Hs in Hf. injection Hf as -> -> ->. exact Hpost.
Qed.

(** Properties of every element of a trace, from the postconditions of
    its iteration. *)
Lemma demo_trace_Forall start_time duration_seconds tp p trace p'
    (P : Demo.locals * Row -> Prop) :
  Demo.sample_loop start_time duration_seconds tp p = Ok trace p' ->
  (forall i loc row q q',
     demo_sample_post start_time duration_seconds i tp q loc row q' ->
     demo_sample_rest duration_seconds i tp q loc row q' -> P (loc, row)) ->
  Forall P trace.
Proof.
  intros H HP. apply Forall_forall. intros [loc row] Hin.
  apply In_nth_error in Hin as [i Hi].
  destruct (demo_loop_nth_full _ _ _ _ _ _ _ _ _ H Hi) as (q & q' & H1 & H2).
  eapply HP; eassumption.
Qed.

Lemma session_trace_Forall session_id session_date duration_minutes
    tp p trace p' (P : Professional.locals * Row -> Prop) :
  session_id <> (-4)%Z ->
  Professional.sample_loop session_id session_date duration_minutes tp p
    = Ok trace p' ->
  (forall i loc row q q',
     session_sample_post session_id session_date duration_minutes
       i tp q loc row q' ->
     session_sample_rest session_id duration_minutes i tp q loc row q' ->
     P (loc, row)) ->
  Forall P trace.
Proof.
  intros Hid H HP. apply Forall_forall. intros [loc row] Hin.
  apply In_nth_error in Hin as [i Hi].
  destruct (session_loop_nth_full _ _ _ _ _ _ _ _ _ _ Hid H Hi)
    as (q & q' & H1 & H2).
  eapply HP; eassumption.
Qed.

(** ** Errors and empty sessions *)

Lemma session_sample_raises session_date duration_minutes i tp p :
  Professional.sample (-4) session_date duration_minutes i tp p
  = Raise ValueError.
Proof. reflexivity. Qed.

(** X1. The [ValueError] of [generate_session].  For [session_id = -4]
    the window step [12 + session_id * 3] is zero and [range] raises
    [ValueError] in the first sample, provided there is a first sample;
    these are the only arguments for which the function raises
    [ValueError].  With a duration of zero or less there is no sample:
    the result is the empty list, whatever the session id, and no random
    number is drawn.  (The [OverflowError] of a date past the year 9999
    is outside the model.) *)
Theorem X1_generate_session_errors :
  (forall session_date duration_minutes tp p,
     (0 < duration_minutes)%Z ->
     Professional.generate_session (-4) session_date duration_minutes tp p
     = Raise ValueError) /\
  (forall session_id session_date duration_minutes tp p,
     Professional.generate_session session_id session_date duration_minutes
       tp p = Raise ValueError ->
     session_id = (-4)%Z /\ (0 < duration_minutes)%Z) /\
  (forall session_id session_date duration_minutes tp p,
     (duration_minutes <= 0)%Z ->
     Professional.generate_session session_id session_date duration_minutes
       tp p = Ok [] p).
Proof.
  assert (Hraise : forall session_date duration_minutes tp p,
     (0 < duration_minutes)%Z ->
     Professional.generate_session (-4) session_date duration_minutes tp p
     = Raise ValueError).
  { intros date dur tp p Hdur.
    rewrite generate_session_eval. unfold Professional.sample_loop.
    destruct (py_range_cons (dur * 60 * Professional.sample_rate))
      as [l ->]; [unfold Professional.sample_rate; lia|].
    cbn [mapM]. unfold bind at 1. now rewrite session_sample_raises. }
  assert (Hempty : forall session_id session_date duration_minutes tp p,
     (duration_minutes <= 0)%Z ->
     Professional.generate_session session_id session_date duration_minutes
       tp p = Ok [] p).
  { intros sid date dur tp p Hdur.
    rewrite generate_session_eval. unfold Professional.sample_loop, py_range.
    replace (Z.to_nat (dur * 60 * Professional.sample_rate)) with 0%nat
      by (unfold Professional.sample_rate; lia).
    reflexivity. }
  split; [exact Hraise|]. split; [|exact Hempty].
  intros sid date dur tp p H.
  destruct (Z.eq_dec sid (-4)) as [->|Hid].
  - split; [reflexivity|].
    destruct (Z_lt_le_dec 0 dur) as [Hd|Hd]; [exact Hd|].
    rewrite Hempty in H by exact Hd. discriminate.
  - destruct (generate_session_trace sid date dur tp p Hid)
      as (trace & p' & _ & E).
    rewrite E in H. discriminate.
Qed.

Lemma X1_generate_session_errors_witness :
  ((0 < 8)%Z /\
   Professional.generate_session (-4) 0%Z 8 (tape_const 0 0 0) 0%nat
   = Raise ValueError) /\
  ((-4 = -4)%Z /\ (0 < 8)%Z) /\
  ((0 <= 0)%Z /\
   Professional.generate_session 1 0%Z 0 (tape_const 0 0 0) 0%nat
   = Ok [] 0%nat).
Proof.
  destruct X1_generate_session_errors as (T1 & T2 & T3).
  assert (H8 : (0 < 8)%Z) by lia.
  split; [split; [lia | exact (T1 0%Z 8%Z (tape_const 0 0 0) 0%nat H8)]|].
  split.
  - exact (T2 (-4)%Z 0%Z 8%Z (tape_const 0 0 0) 0%nat
              (T1 0%Z 8%Z (tape_const 0 0 0) 0%nat H8)).
  - split; [lia | apply T3; lia].
Defined.

(** ** The files written *)

(** X2. The file that [generate_demo_csv] writes (once [open] has
    succeeded: its failure is outside the model) is one file, at the
    path the caller gave, with the twelve-column header and one data row
    per sample; generating it only moves the random source forward.
    With a duration of zero or less the file holds the header only and
    no random number is drawn.  Run as a script, the function writes
    2400 data rows to [oralable_demo_data.csv]. *)
Theorem X2_demo_file :
  (forall now output_path duration_seconds tp p,
     returns (Demo.generate_demo_csv now output_path duration_seconds tp p)
       (fun f p' =>
          fst f = output_path /\ header (snd f) = fieldnames /\
          length (header (snd f)) = 12%nat /\
          length (data_rows (snd f))
          = Z.to_nat (duration_seconds * Demo.sample_rate) /\
          (p <= p')%nat)) /\
  (forall now output_path duration_seconds tp p,
     (duration_seconds <= 0)%Z ->
     Demo.generate_demo_csv now output_path duration_seconds tp p
     = Ok (output_path, {| header := fieldnames; data_rows := [] |}) p) /\
  (forall now tp p,
     returns (Demo.main now tp p)
       (fun f _ =>
          fst f = "oralable_demo_data.csv"%string /\
          length (data_rows (snd f)) = 2400%nat)).
Proof.
  assert (Hgen : forall now output_path duration_seconds tp p,
     returns (Demo.generate_demo_csv now output_path duration_seconds tp p)
       (fun f p' =>
          fst f = output_path /\ header (snd f) = fieldnames /\
          length (header (snd f)) = 12%nat /\
          length (data_rows (snd f))
          = Z.to_nat (duration_seconds * Demo.sample_rate) /\
          (p <= p')%nat)).
  { intros now path d tp p. rewrite generate_demo_csv_eval.
    destruct (demo_loop_total now d tp p) as (trace & p' & H).
    rewrite H. cbn [returns fst snd header data_rows write_csv].
    repeat (split; [reflexivity|]).
    split.
    - rewrite length_map. eapply demo_loop_length; eassumption.
    - unfold Demo.sample_loop in H. apply mapM_chain in H.
      eapply chain_mono; [|eassumption].
      intros a q b q' Hf.
      destruct (demo_sample_spec now d a tp q) as (l & r & q0 & Hs & Hp).
      rewrite Hs in Hf. injection Hf as _ <-.
      destruct Hp as (ws & q1 & _ & Hcl & Hq & _).
      apply clench_loop_cursor in Hcl. lia. }
  split; [exact Hgen|]. split.
  - intros now path d tp p Hd.
    rewrite generate_demo_csv_eval. unfold Demo.sample_loop, py_range.
    replace (Z.to_nat (d * Demo.sample_rate)) with 0%nat
      by (unfold Demo.sample_rate; lia).
    reflexivity.
  - intros now tp p. unfold Demo.main.
    pose proof (Hgen now "oralable_demo_data.csv"%string 120%Z tp p) as H.
    destruct (Demo.generate_demo_csv now "oralable_demo_data.csv" 120 tp p)
      as [f p'|e]; [|exact H].
    cbn [returns] in *. destruct H as (H1 & _ & _ & H4 & _).
    split; [assumption|]. rewrite H4. reflexivity.
Qed.

Lemma X2_demo_file_witness :
  (-5 <= 0)%Z /\
  Demo.generate_demo_csv 0%Z "out.csv" (-5) (tape_const 0 0 0) 0%nat
  = Ok ("out.csv"%string, {| header := fieldnames; data_rows := [] |}) 0%nat.
Proof.
  split; [lia|].
  apply (proj1 (proj2 X2_demo_file)). lia.
Defined.

Lemma generate_session_rows session_id session_date duration_minutes
    tp p rows p' :
  session_id <> (-4)%Z ->
  Professional.generate_session session_id session_date duration_minutes tp p
    = Ok rows p' ->
  regular_timestamps session_date rows /\
  Forall (fun r => device_id r = "ORALABLE-DEMO-DEVICE"%string) rows.
Proof.
  intros Hid. rewrite generate_session_eval.
  destruct (Professional.sample_loop _ _ _ tp p) as [trace q|e] eqn:H;
    [|discriminate].
  intros E. injection E as <- _. split.
  - eapply session_rows_regular; eassumption.
  - eapply session_rows_Forall; [eassumption..|].
    intros i loc row q0 q0' (ws & q1 & Hpost). apply Hpost.
Qed.

(** X3. The files that [generate_professional_demo] writes (once each
    [open] has succeeded: its failure is outside the model) are exactly
    four, in this order: one per session, named after the session ids 1,
    2, 3, and the combined file.  Each has the twelve-column header; the
    session files hold 9600, 12000 and 14400 data rows (8, 10 and 12
    minutes at 20 Hz) and the combined file holds 36000; every data row
    carries the device id [ORALABLE-DEMO-DEVICE]. *)
Theorem X3_professional_files :
  forall now1 now2 now3 tp p,
    returns (Professional.generate_professional_demo now1 now2 now3 tp p)
      (fun fs _ =>
         map fst fs
         = ["demo_participant_session_1.csv";
            "demo_participant_session_2.csv";
            "demo_participant_session_3.csv";
            "demo_participant_all_sessions.csv"]%string /\
         Forall (fun nf => header (snd nf) = fieldnames) fs /\
         map (fun nf => Z.of_nat (length (data_rows (snd nf)))) fs
         = [9600; 12000; 14400; 36000]%Z /\
         Forall (fun nf =>
                   Forall (fun r => device_id r = "ORALABLE-DEMO-DEVICE"%string)
                          (data_rows (snd nf)))
                fs).
Proof.
  intros now1 now2 now3 tp p.
  destruct (professional_demo_spec now1 now2 now3 tp p)
    as (r1 & r2 & r3 & r1' & r2' & r3' & q1 & q2 & q3 & q4 & q5 & q6
        & H1 & H2 & H3 & H4 & H5 & H6 & ->).
  cbn [returns].
  pose proof (generate_session_length _ _ _ _ _ _ _ H1) as L1.
  pose proof (generate_session_length _ _ _ _ _ _ _ H2) as L2.
  pose proof (generate_session_length _ _ _ _ _ _ _ H3) as L3.
  pose proof (generate_session_length _ _ _ _ _ _ _ H4) as L4.
  pose proof (generate_session_length _ _ _ _ _ _ _ H5) as L5.
  pose proof (generate_session_length _ _ _ _ _ _ _ H6) as L6.
  destruct (generate_session_rows 1%Z _ _ _ _ _ _ ltac:(lia) H1) as [_ D1].
  destruct (generate_session_rows 2%Z _ _ _ _ _ _ ltac:(lia) H2) as [_ D2].
  destruct (generate_session_rows 3%Z _ _ _ _ _ _ ltac:(lia) H3) as [_ D3].
  destruct (generate_session_rows 1%Z _ _ _ _ _ _ ltac:(lia) H4) as [_ D4].
  destruct (generate_session_rows 2%Z _ _ _ _ _ _ ltac:(lia) H5) as [_ D5].
  destruct (generate_session_rows 3%Z _ _ _ _ _ _ ltac:(lia) H6) as [_ D6].
  split; [reflexivity|].
  split; [repeat constructor|].
  split.
  - cbn [map snd data_rows write_csv].
    rewrite !length_app, L1, L2, L3, L4, L5, L6.
    repeat (f_equal; try lia).
  - cbn [snd data_rows write_csv].
    repeat (constructor; try assumption).
    apply Forall_app. split; [assumption|].
    apply Forall_app. split; assumption.
Qed.

(** ** Timestamps across the files *)

Lemma StronglySorted_app_lt (l1 l2 : list Z) :
  StronglySorted Z.lt l1 -> StronglySorted Z.lt l2 ->
  (forall x y, In x l1 -> In y l2 -> (x < y)%Z) ->
  StronglySorted Z.lt (l1 ++ l2).
Proof.
  intros H1 H2. induction H1 as [|a l1 Hs IH Ha]; intros Hlt; simpl.
  - assumption.
  - constructor.
    + apply IH. intros x y Hx Hy. apply Hlt; [now right | assumption].
    + apply Forall_app. split; [assumption|].
      apply Forall_forall. intros y Hy. apply Hlt; [now left | assumption].
Qed.

(** A list that starts at [base] and advances by 50 is strictly
    increasing and stays within its first and last value. *)
Lemma steps_sorted (l : list Z) : forall base,
  (forall i x, nth_error l i = Some x -> x = (base + 50 * Z.of_nat i)%Z) ->
  StronglySorted Z.lt l /\
  Forall (fun x => (base <= x <= base + 50 * (Z.of_nat (length l) - 1))%Z) l.
Proof.
  induction l as [|a l IH]; intros base H.
  - split; constructor.
  - assert (Ha : a = base) by (rewrite (H 0%nat a eq_refl); lia).
    destruct (IH (base + 50)%Z) as [Hs Hb].
    { intros i x Hi. rewrite (H (S i) x Hi). lia. }
    split.
    + constructor; [assumption|].
      eapply Forall_impl; [|exact Hb]. intros x Hx. cbv beta in Hx. lia.
    + constructor.
      * pose proof (Nat2Z.is_nonneg (length l)). cbn [length]. lia.
      * eapply Forall_impl; [|exact Hb]. intros x Hx.
        cbv beta in Hx. cbn [length]. lia.
Qed.

Lemma regular_increasing start rows :
  regular_timestamps start rows ->
  increasing_timestamps rows /\
  Forall (fun x => (strftime_ms start <= x
                    <= strftime_ms start
                       + 50 * (Z.of_nat (length rows) - 1))%Z)
         (map timestamp rows).
Proof.
  intros (_ & H & _). unfold increasing_timestamps.
  rewrite <- (length_map timestamp rows). apply steps_sorted.
  intros i x Hi. rewrite nth_error_map in Hi.
  destruct (nth_error rows i) as [r|] eqn:Hr; [|discriminate].
  simpl in Hi. injection Hi as <-. now apply H.
Qed.

(** X4. When the three readings of the clock taken for the session list
    do not go backwards, the timestamps of every file written by
    [generate_professional_demo] are strictly increasing from row to
    row, also in the combined file, across the borders between the
    sessions: each session ends long before the next one starts. *)
Theorem X4_professional_timestamps_increase :
  forall now1 now2 now3 tp p,
    (now1 <= now2 <= now3)%Z ->
    returns (Professional.generate_professional_demo now1 now2 now3 tp p)
      (fun fs _ =>
         Forall (fun nf => increasing_timestamps (data_rows (snd nf))) fs).
Proof.
  intros now1 now2 now3 tp p Hnow.
  destruct (professional_demo_spec now1 now2 now3 tp p)
    as (r1 & r2 & r3 & r1' & r2' & r3' & q1 & q2 & q3 & q4 & q5 & q6
        & H1 & H2 & H3 & H4 & H5 & H6 & ->).
  cbn [returns].
  pose proof (generate_session_length _ _ _ _ _ _ _ H4) as L4.
  pose proof (generate_session_length _ _ _ _ _ _ _ H5) as L5.
  destruct (generate_session_rows 1%Z _ _ _ _ _ _ ltac:(lia) H1) as [R1 _].
  destruct (generate_session_rows 2%Z _ _ _ _ _ _ ltac:(lia) H2) as [R2 _].
  destruct (generate_session_rows 3%Z _ _ _ _ _ _ ltac:(lia) H3) as [R3 _].
  destruct (generate_session_rows 1%Z _ _ _ _ _ _ ltac:(lia) H4) as [R4 _].
  destruct (generate_session_rows 2%Z _ _ _ _ _ _ ltac:(lia) H5) as [R5 _].
  destruct (generate_session_rows 3%Z _ _ _ _ _ _ ltac:(lia) H6) as [R6 _].
  apply regular_increasing in R1 as [S1 _].
  apply regular_increasing in R2 as [S2 _].
  apply regular_increasing in R3 as [S3 _].
  apply regular_increasing in R4 as [S4 B4].
  apply regular_increasing in R5 as [S5 B5].
  apply regular_increasing in R6 as [S6 B6].
  rewrite L4 in B4. rewrite L5 in B5.
  assert (G12 : (strftime_ms (now1 - timedelta_days 5) + 172800000
                 <= strftime_ms (now2 - timedelta_days 3))%Z).
  { unfold strftime_ms, timedelta_days.
    rewrite <- Z.div_add by lia. apply Z.div_le_mono; lia. }
  assert (G23 : (strftime_ms (now2 - timedelta_days 3) + 172800000
                 <= strftime_ms (now3 - timedelta_days 1))%Z).
  { unfold strftime_ms, timedelta_days.
    rewrite <- Z.div_add by lia. apply Z.div_le_mono; lia. }
  repeat (constructor; [assumption|]).
  constructor; [|constructor].
  cbn [snd data_rows write_csv]. unfold increasing_timestamps in *.
  rewrite !map_app.
  rewrite Forall_forall in B4, B5, B6.
  apply StronglySorted_app_lt; [assumption| |].
  - apply StronglySorted_app_lt; [assumption..|].
    intros x y Hx Hy. apply B5 in Hx. apply B6 in Hy. lia.
  - intros x y Hx Hy. apply B4 in Hx.
    apply in_app_or in Hy as [Hy|Hy]; [apply B5 in Hy | apply B6 in Hy]; lia.
Qed.

Lemma X4_professional_timestamps_increase_witness :
  (0 <= 0 <= 0)%Z /\
  returns (Professional.generate_professional_demo 0%Z 0%Z 0%Z
             (tape_const 0 0 0) 0%nat)
    (fun fs _ =>
       Forall (fun nf => increasing_timestamps (data_rows (snd nf))) fs).
Proof.
  split; [lia|].
  apply X4_professional_timestamps_increase. lia.
Defined.

(** ** Ranges of the synthesized signals *)

Lemma demo_sample_clench_bound start_time duration_seconds i tp p loc row p' :
  wf_source tp ->
  demo_sample_post start_time duration_seconds i tp p loc row p' ->
  0 <= Demo.clench_amplitude loc <= 20000.
Proof.
  intros Hwf (ws & q & _ & Hcl & _).
  unfold clench_loop in Hcl.
  apply clench_fold_bound in Hcl;
    [exact Hcl | apply sane_demo | assumption | simpl; lra].
Qed.

Lemma session_sample_clench_bound session_id session_date duration_minutes
    i tp p loc row p' :
  wf_source tp ->
  session_sample_post session_id session_date duration_minutes
    i tp p loc row p' ->
  0 <= Professional.clench_amplitude loc <= 18000.
Proof.
  intros Hwf (ws & q & _ & Hcl & _).
  unfold clench_loop in Hcl.
  apply clench_fold_bound in Hcl;
    [exact Hcl | apply sane_professional | assumption | simpl; lra].
Qed.

(** X5. Whatever the duration draws, the clench amplitude of a sample
    never leaves the range of the amplitude draws: it lies between 0 and
    20000 in the single-session script and between 0 and 18000 in the
    multi-session script.  In particular the ramps never overshoot the
    plateau and never go negative. *)
Theorem X5_clench_amplitude_range :
  (forall start_time duration_seconds tp p,
     wf_source tp ->
     returns (Demo.sample_loop start_time duration_seconds tp p)
       (fun trace _ =>
          Forall (fun lr => 0 <= Demo.clench_amplitude (fst lr) <= 20000)
                 trace)) /\
  (forall session_id session_date duration_minutes tp p,
     session_id <> (-4)%Z -> wf_source tp ->
     returns (Professional.sample_loop session_id session_date
                duration_minutes tp p)
       (fun trace _ =>
          Forall (fun lr =>
                    0 <= Professional.clench_amplitude (fst lr) <= 18000)
                 trace)).
Proof.
  split.
  - intros start d tp p Hwf.
    destruct (demo_loop_total start d tp p) as (trace & p' & H).
    rewrite H. cbn [returns]. eapply demo_trace_Forall; [eassumption|].
    intros i loc row q q' Hpost _. cbn [fst].
    eapply demo_sample_clench_bound; eassumption.
  - intros sid date dur tp p Hid Hwf.
    destruct (session_loop_total sid date dur tp p Hid) as (trace & p' & H).
    rewrite H. cbn [returns]. eapply session_trace_Forall; [eassumption..|].
    intros i loc row q q' Hpost _. cbn [fst].
    eapply session_sample_clench_bound; eassumption.
Qed.

Lemma X5_clench_amplitude_range_witness :
  (wf_source (tape_const (1 / 2) 0 0) /\
   returns (Demo.sample_loop 0%Z 120 (tape_const (1 / 2) 0 0) 0%nat)
     (fun trace _ =>
        Forall (fun lr => 0 <= Demo.clench_amplitude (fst lr) <= 20000)
               trace)) /\
  ((1 <> -4)%Z /\
   returns (Professional.sample_loop 1 0%Z 8 (tape_const (1 / 2) 0 0) 0%nat)
     (fun trace _ =>
        Forall (fun lr => 0 <= Professional.clench_amplitude (fst lr) <= 18000)
               trace)).
Proof.
  assert (H1 : wf_source (tape_const (1 / 2) 0 0)) by (intros n; simpl; lra).
  assert (H2 : (1 <> -4)%Z) by lia.
  destruct X5_clench_amplitude_range as (T1 & T2).
  split.
  - split; [exact H1|].
    exact (T1 0%Z 120%Z (tape_const (1 / 2) 0 0) 0%nat H1).
  - split; [exact H2|].
    exact (T2 1%Z 0%Z 8%Z (tape_const (1 / 2) 0 0) 0%nat H2 H1).
Defined.



(** X7. The heart rate shown by the multi-session script is always
    between 69 and 75.  The one shown by the single-session script is
    the truncated sum of the sample's own bpm and a Gaussian jitter; it
    lies between 64 and 76 as long as the Gaussian draws stay within 4
    standard deviations. *)
Theorem X7_heart_rate_range :
  (forall session_id session_date duration_minutes tp p,
     session_id <> (-4)%Z ->
     returns (Professional.generate_session session_id session_date
                duration_minutes tp p)
       (fun rows _ => Forall (fun r => (69 <= heart_rate r <= 75)%Z) rows)) /\
  (forall now output_path duration_seconds tp p,
     wf_source tp -> (forall n, -4 <= normal (tp n) <= 4) ->
     returns (Demo.generate_demo_csv now output_path duration_seconds tp p)
       (fun f _ =>
          Forall (fun r => (64 <= heart_rate r <= 76)%Z)
                 (data_rows (snd f)))).
Proof.
  split.
  - intros sid date dur tp p Hid.
    destruct (generate_session_trace sid date dur tp p Hid)
      as (trace & p' & H & ->).
    cbn [returns]. eapply session_rows_Forall; [eassumption..|].
    intros i loc row q q' (ws & q0 & Hpost).
    decompose [and] Hpost.
    match goal with E : heart_rate row = _ |- _ => rewrite E end.
    unfold randint_of.
    pose proof (Z.mod_pos_bound (bits (tp (q0 + 5)%nat)) (3 - -3 + 1)
                  ltac:(lia)).
    lia.
  - intros now path d tp p Hwf Hz.
    rewrite generate_demo_csv_eval.
    destruct (demo_loop_total now d tp p) as (trace & p' & H).
    rewrite H. cbn [returns snd data_rows write_csv].
    apply Forall_forall. intros r Hr.
    apply In_nth_error in Hr as [i Hi].
    apply nth_error_map_snd in Hi as [loc Hi].
    destruct (demo_loop_nth_full _ _ _ _ _ _ _ _ _ H Hi)
      as (q & q' & Hpost & Hrest).
    destruct Hpost as (ws & q0 & _ & _ & _ & _ & _ & Hb & _).
    destruct Hrest as (ws' & q1 & _ & _ & _ & _ & _ & Hh).
    pose proof (uniform_of_range (-2) 2 (tp q) ltac:(lra) (Hwf q)) as Hu.
    pose proof (Hz (q' - 2)%nat) as Hn.
    rewrite Hh. apply py_int_nonneg_range;
      rewrite Hb; unfold gauss_of; lra.
Qed.

Lemma X7_heart_rate_range_witness :
  ((1 <> -4)%Z /\
   returns (Professional.generate_session 1 0%Z 8 (tape_const 0 0 0) 0%nat)
     (fun rows _ => Forall (fun r => (69 <= heart_rate r <= 75)%Z) rows)) /\
  (wf_source (tape_const 0 0 0) /\
   (forall n, -4 <= normal (tape_const 0 0 0 n) <= 4) /\
   returns (Demo.generate_demo_csv 0%Z "out.csv" 120 (tape_const 0 0 0) 0%nat)
     (fun f _ =>
        Forall (fun r => (64 <= heart_rate r <= 76)%Z) (data_rows (snd f)))).
Proof.
  assert (H1 : (1 <> -4)%Z) by lia.
  assert (H2 : wf_source (tape_const 0 0 0)) by (intros n; simpl; lra).
  assert (H3 : forall n, -4 <= normal (tape_const 0 0 0 n) <= 4)
    by (intros n; simpl; lra).
  destruct X7_heart_rate_range as (T1 & T2).
  split.
  - split; [exact H1|].
    exact (T1 1%Z 0%Z 8%Z (tape_const 0 0 0) 0%nat H1).
  - split; [exact H2|]. split; [exact H3|].
    exact (T2 0%Z "out.csv"%string 120%Z (tape_const 0 0 0) 0%nat H2 H3).
Defined.

Lemma fmt_hundredths_range a b x :
  IZR a <= x * 100 <= IZR b -> (a <= fmt_fixed 2 x <= b)%Z.
Proof.
  intros H. unfold fmt_fixed. apply round_half_even_range. simpl. lra.
Qed.

(** X9. As long as the Gaussian draws stay within 4 standard
    deviations, the printed temperature stays within 36.00 and 37.00 in
    the single-session script and within 36.08 and 36.72 in the
    multi-session script. *)
Theorem X9_temperature_range :
  (forall now output_path duration_seconds tp p,
     (forall n, -4 <= normal (tp n) <= 4) ->
     returns (Demo.generate_demo_csv now output_path duration_seconds tp p)
       (fun f _ =>
          Forall (fun r => (3600 <= temperature r <= 3700)%Z)
                 (data_rows (snd f)))) /\
  (forall session_id session_date duration_minutes tp p,
     session_id <> (-4)%Z -> (forall n, -4 <= normal (tp n) <= 4) ->
     returns (Professional.generate_session session_id session_date
                duration_minutes tp p)
       (fun rows _ => Forall (fun r => (3608 <= temperature r <= 3672)%Z) rows)).
Proof.
  split.
  - intros now path d tp p Hz.
    rewrite generate_demo_csv_eval.
    destruct (demo_loop_total now d tp p) as (trace & p' & H).
    rewrite H. cbn [returns snd data_rows write_csv].
    apply Forall_forall. intros r Hr.
    apply In_nth_error in Hr as [i Hi].
    apply nth_error_map_snd in Hi as [loc Hi].
    destruct (demo_loop_nth_full _ _ _ _ _ _ _ _ _ H Hi)
      as (q & q' & _ & Hrest).
    destruct Hrest as (ws' & q1 & _ & _ & _ & _ & Ht & _).
    pose proof (Hz (q' - 3)%nat) as Hn.
    pose proof (SIN_bound (IZR (Z.of_nat i) / 20 / 60)) as S1.
    rewrite Ht. apply fmt_hundredths_range. unfold gauss_of. lra.
  - intros sid date dur tp p Hid Hz.
    destruct (generate_session_trace sid date dur tp p Hid)
      as (trace & p' & H & ->).
    cbn [returns]. apply Forall_forall. intros r Hr.
    apply In_nth_error in Hr as [i Hi].
    apply nth_error_map_snd in Hi as [loc Hi].
    destruct (session_loop_nth_full _ _ _ _ _ _ _ _ _ _ Hid H Hi)
      as (q & q' & _ & Hrest).
    destruct Hrest as (ws' & q1 & _ & _ & _ & _ & _ & _ & Ht).
    pose proof (Hz (q1 + 4)%nat) as Hn.
    pose proof (SIN_bound (IZR (Z.of_nat i) / 20 / 120)) as S1.
    rewrite Ht. apply fmt_hundredths_range. unfold gauss_of. lra.
Qed.

Lemma X9_temperature_range_witness :
  ((forall n, -4 <= normal (tape_const 0 0 0 n) <= 4) /\
   returns (Demo.generate_demo_csv 0%Z "out.csv" 120 (tape_const 0 0 0) 0%nat)
     (fun f _ =>
        Forall (fun r => (3600 <= temperature r <= 3700)%Z)
               (data_rows (snd f)))) /\
  ((1 <> -4)%Z /\
   returns (Professional.generate_session 1 0%Z 8 (tape_const 0 0 0) 0%nat)
     (fun rows _ => Forall (fun r => (3608 <= temperature r <= 3672)%Z) rows)).
Proof.
  assert (H1 : (1 <> -4)%Z) by lia.
  assert (H3 : forall n, -4 <= normal (tape_const 0 0 0 n) <= 4)
    by (intros n; simpl; lra).
  destruct X9_temperature_range as (T1 & T2).
  split.
  - split; [exact H3|].
    exact (T1 0%Z "out.csv"%string 120%Z (tape_const 0 0 0) 0%nat H3).
  - split; [exact H1|].
    exact (T2 1%Z 0%Z 8%Z (tape_const 0 0 0) 0%nat H1 H3).
Defined.

(** ** Motion artifacts *)

Lemma near_py_int x : near (py_int x) x.
Proof. unfold near. pose proof (py_int_error x). lra. Qed.

(** A sample taken where every admissible clench of the window starting
    at [s] is on its plateau: the loop reads one cell per window and one
    more, and leaves the plateau draw of that window. *)
Lemma clench_fold_plateau c t tp gap s ws : forall st p,
  sane c -> fall c = 1 - ramp c -> wf_source tp ->
  d_max c <= IZR gap -> spaced gap ws -> In s ws ->
  IZR s + ramp c * d_max c <= t <= IZR s + (1 - ramp c) * d_min c ->
  exists q,
    foldM (clench_step c t) st ws tp p
    = Ok (uniform_of (a_min c) (a_max c) (tp (S q)), snd st ++ [s])
         (p + length ws + 1)%nat
    /\ (p <= q)%nat /\ (S q < p + length ws + 1)%nat.
Proof.
  induction ws as [|s0 ws IH]; intros st p Hc Hfall Hwf Hgap Hsp Hin Ht;
    [destruct Hin|].
  destruct Hsp as [Hs Hsp].
  pose proof Hc as ((Hd0 & Hd1) & Hr & _ & _).
  assert (Hr1 : 0 < 1 - ramp c).
  { destruct (Rlt_dec 0 (1 - ramp c)); [assumption|]. exfalso. nra. }
  rewrite foldM_cons, clench_step_eval.
  destruct Hin as [->|Hin].
  - rewrite clench_window_eval. cbv zeta.
    pose proof (uniform_of_range _ _ (tp p) Hd1 (Hwf p)) as Hd.
    set (d := uniform_of (d_min c) (d_max c) (tp p)) in *.
    assert (Hp : ramp c <= (t - IZR s) / d <= 1 - ramp c)
      by (apply div_bounds; nra).
    assert (E1 : Rleb (IZR s) t = true) by (apply Rleb_true; nra).
    assert (E2 : Rltb t (IZR s + d) = true) by (apply Rltb_true; nra).
    assert (E3 : Rltb ((t - IZR s) / d) (ramp c) = false)
      by (apply Rltb_false; lra).
    assert (E4 : Rltb (fall c) ((t - IZR s) / d) = false)
      by (apply Rltb_false; lra).
    rewrite E1, E2, E3, E4. cbn [andb].
    rewrite clench_fold_inactive.
    + exists p. split; [|simpl; lia]. f_equal. simpl. lia.
    + assumption.
    + lra.
    + intros s' Hs'. left. apply Hs in Hs'. apply IZR_le in Hs'.
      rewrite plus_IZR in Hs'. nra.
  - rewrite clench_window_inactive.
    + destruct (IH st (S p) Hc Hfall Hwf Hgap Hsp Hin Ht) as (q & E & Hq1 & Hq2).
      exists q. rewrite E. split; [|simpl; lia]. f_equal. simpl. lia.
    + assumption.
    + lra.
    + right. apply Hs in Hin. apply IZR_le in Hin.
      rewrite plus_IZR in Hin. nra.
Qed.

(** X8. In the single-session script the x and y accelerometer axes of
    a sample carry the extra motion noise when the sample lies in a
    clench, at the cost of two more random draws.  With [n] window
    starts, a sample outside every window (before its start, or 4 s or
    more after it) has clench amplitude 0, reads [n + 10] cells of the
    random source, and its x and y axes are their base noise.  A sample
    taken between 0.85 s and 1.55 s after a window start, where every
    admissible clench is on its plateau, has an amplitude between 10000
    and 20000, reads [n + 13] cells, and its x and y axes are the sum of
    their base noise and of the motion noise.  The z axis is gravity
    plus its base noise in both cases.  (Each axis is a truncated
    float, hence within 1 of the value named; 1.001 leaves room for the
    float rounding.)  In a 120 s run, with 8 window starts, sample 20
    (t = 1.0) reads 21 cells and sample 200 (t = 10.0) reads 18. *)
Theorem X8_motion_artifact :
  (forall start_time duration_seconds tp p,
     wf_source tp ->
     returns (Demo.sample_loop start_time duration_seconds tp p)
       (fun trace _ =>
          length trace = Z.to_nat (duration_seconds * 20) /\
          exists windows,
            py_range3 0 duration_seconds 15 = Some windows /\
            forall i lr, nth_error trace i = Some lr ->
              Demo.t (fst lr) = IZR (Z.of_nat i) / 20 /\
              motion_rule tp windows
                (demo_cursor start_time duration_seconds tp p i)
                (demo_cursor start_time duration_seconds tp p (S i)) lr)) /\
  (forall start_time tp p,
     wf_source tp ->
     returns (Demo.sample_loop start_time 120 tp p)
       (fun trace _ =>
          exists lr20 lr200,
            nth_error trace 20 = Some lr20 /\
            nth_error trace 200 = Some lr200 /\
            10000 <= Demo.clench_amplitude (fst lr20) <= 20000 /\
            demo_cursor start_time 120 tp p 21
            = (demo_cursor start_time 120 tp p 20 + 21)%nat /\
            Demo.clench_amplitude (fst lr200) = 0 /\
            demo_cursor start_time 120 tp p 201
            = (demo_cursor start_time 120 tp p 200 + 18)%nat)).
Proof.
  assert (Hgen : forall start_time duration_seconds tp p,
     wf_source tp ->
     returns (Demo.sample_loop start_time duration_seconds tp p)
       (fun trace _ =>
          length trace = Z.to_nat (duration_seconds * 20) /\
          exists windows,
            py_range3 0 duration_seconds 15 = Some windows /\
            forall i lr, nth_error trace i = Some lr ->
              Demo.t (fst lr) = IZR (Z.of_nat i) / 20 /\
              motion_rule tp windows
                (demo_cursor start_time duration_seconds tp p i)
                (demo_cursor start_time duration_seconds tp p (S i)) lr)).
  { intros start d tp p Hwf.
    destruct (demo_loop_total start d tp p) as (trace & p' & H).
    rewrite H. cbn [returns].
    split; [eapply demo_loop_length; eassumption|].
    destruct (py_range3_some 0 d 15) as [ws Hws]; [lia|].
    exists ws. split; [exact Hws|].
    intros i [loc row] Hi. cbn [fst].
    destruct (demo_loop_at_full _ _ _ _ _ _ _ _ _ H Hi) as [Hpost Hrest].
    set (lo := demo_cursor start d tp p i) in *.
    set (hi := demo_cursor start d tp p (S i)) in *.
    destruct Hpost as (ws0 & q0 & Hws0 & _ & _ & Ht & _).
    destruct Hrest as (ws1 & q & Hws1 & Hcl & Hxy & Hz & _).
    rewrite Hws in Hws1. injection Hws1 as <-.
    split; [exact Ht|].
    assert (Hsp : spaced 15 ws) by (eapply py_range3_spaced; [lia|eassumption]).
    unfold motion_rule. cbn [fst snd]. cbv zeta. rewrite Ht.
    unfold clench_loop in Hcl. split.
    - intros Hout.
      rewrite clench_fold_inactive in Hcl;
        [|exact Hwf | simpl; lra | exact Hout].
      injection Hcl as Ha _ Hq. rewrite <- Ha in Hxy.
      assert (E : Rltb 5000 0 = false) by (apply Rltb_false; lra).
      rewrite E in Hxy. destruct Hxy as (Hhi & Hx & Hy).
      split; [now symmetry|]. split; [lia|].
      replace (lo + length ws + 4)%nat with (q + 3)%nat by lia.
      replace (lo + length ws + 5)%nat with (q + 4)%nat by lia.
      replace (lo + length ws + 6)%nat with (q + 5)%nat by lia.
      rewrite Hx, Hy, Hz.
      split; [apply near_py_int|]. split; apply near_py_int.
    - intros s Hs Hts.
      destruct (clench_fold_plateau Demo.clench (IZR (Z.of_nat i) / 20) tp
                  15 s ws (0, []) (S lo) sane_demo)
        as (q1 & E & _ & _);
        [simpl; lra | exact Hwf | simpl; lra | exact Hsp | exact Hs
         | cbn [Demo.clench ramp d_max d_min]; lra |].
      rewrite E in Hcl. injection Hcl as Ha _ Hq.
      cbn [Demo.clench a_min a_max] in Ha.
      pose proof (uniform_of_range 10000 20000 (tp (S q1)) ltac:(lra)
                    (Hwf (S q1))) as Hamp.
      rewrite Ha in Hamp.
      assert (E5 : Rltb 5000 (Demo.clench_amplitude loc) = true)
        by (apply Rltb_true; lra).
      rewrite E5 in Hxy. destruct Hxy as (Hhi & Hx & Hy).
      split; [exact Hamp|]. split; [lia|].
      replace (lo + length ws + 5)%nat with (q + 3)%nat by lia.
      replace (lo + length ws + 6)%nat with (q + 4)%nat by lia.
      replace (lo + length ws + 7)%nat with (q + 5)%nat by lia.
      replace (lo + length ws + 8)%nat with (q + 6)%nat by lia.
      replace (lo + length ws + 9)%nat with (q + 7)%nat by lia.
      rewrite Hx, Hy, Hz.
      split; [apply near_py_int|]. split; apply near_py_int. }
  split; [exact Hgen|].
  intros start tp p Hwf.
  pose proof (Hgen start 120%Z tp p Hwf) as G.
  destruct (Demo.sample_loop start 120 tp p) as [trace p'|e]; [|exact G].
  cbn [returns] in *. destruct G as (Hlen & ws & Hws & G).
  change (Z.to_nat (120 * 20)) with 2400%nat in Hlen.
  assert (Ews : ws = [0; 15; 30; 45; 60; 75; 90; 105]%Z).
  { assert (E : py_range3 0 120 15 = Some [0; 15; 30; 45; 60; 75; 90; 105]%Z)
      by reflexivity.
    rewrite E in Hws. now injection Hws. }
  subst ws.
  destruct (nth_error trace 20) as [lr20|] eqn:E20.
  2:{ apply nth_error_None in E20. lia. }
  destruct (nth_error trace 200) as [lr200|] eqn:E200.
  2:{ apply nth_error_None in E200. lia. }
  exists lr20, lr200. split; [reflexivity|]. split; [reflexivity|].
  destruct (G 20%nat lr20 E20) as (T20 & _ & P20).
  destruct (G 200%nat lr200 E200) as (T200 & O200 & _).
  change (Z.of_nat 20) with 20%Z in T20.
  change (Z.of_nat 200) with 200%Z in T200.
  destruct (P20 0%Z) as (A20 & C20 & _).
  { now left. }
  { rewrite T20. lra. }
  destruct O200 as (A200 & C200 & _).
  { intros s Hs. rewrite T200. simpl in Hs.
    destruct Hs as [<-|Hs]; [right; lra|].
    left. repeat (destruct Hs as [<-|Hs]; [lra|]). destruct Hs. }
  cbn [length] in C20, C200.
  split; [exact A20|]. split; [lia|]. split; [exact A200|lia].
Qed.

Lemma X8_motion_artifact_witness :
  wf_source (tape_const (1 / 2) 0 0) /\
  returns (Demo.sample_loop 0%Z 120 (tape_const (1 / 2) 0 0) 0%nat)
    (fun trace _ =>
       exists lr20 lr200,
         nth_error trace 20 = Some lr20 /\
         nth_error trace 200 = Some lr200 /\
         10000 <= Demo.clench_amplitude (fst lr20) <= 20000 /\
         demo_cursor 0%Z 120 (tape_const (1 / 2) 0 0) 0%nat 21
         = (demo_cursor 0%Z 120 (tape_const (1 / 2) 0 0) 0%nat 20 + 21)%nat /\
         Demo.clench_amplitude (fst lr200) = 0 /\
         demo_cursor 0%Z 120 (tape_const (1 / 2) 0 0) 0%nat 201
         = (demo_cursor 0%Z 120 (tape_const (1 / 2) 0 0) 0%nat 200 + 18)%nat).
Proof.
  assert (H1 : wf_source (tape_const (1 / 2) 0 0)) by (intros n; simpl; lra).
  split; [exact H1|].
  exact (proj2 X8_motion_artifact 0%Z (tape_const (1 / 2) 0 0) 0%nat H1).
Defined.

(** ** Sessions without clench events, and overlapping windows *)

(** X10. For [session_id <= -5] the window step [12 + session_id * 3]
    is negative, the range of window starts is empty and the session has
    no clench event at all: every sample has clench amplitude 0 and no
    active window. *)
Theorem X10_negative_step_no_clench :
  forall session_id session_date duration_minutes tp p,
    (session_id <= -5)%Z ->
    returns (Professional.sample_loop session_id session_date
               duration_minutes tp p)
      (fun trace _ =>
         Forall (fun lr =>
                   Professional.clench_amplitude (fst lr) = 0 /\
                   Professional.clench_hits (fst lr) = [])
                trace).
Proof.
  intros sid date dur tp p Hid.
  assert (Hid' : sid <> (-4)%Z) by lia.
  destruct (session_loop_total sid date dur tp p Hid') as (trace & p' & H).
  rewrite H. cbn [returns].
  pose proof (session_loop_length _ _ _ _ _ _ _ H) as Hlen.
  apply Forall_forall. intros [loc row] Hin. cbn [fst].
  assert (Hdur : (0 < dur)%Z).
  { destruct trace; [destruct Hin|]. simpl in Hlen. lia. }
  apply In_nth_error in Hin as [i Hi].
  destruct (session_loop_nth _ _ _ _ _ _ _ _ _ _ Hid' H Hi)
    as (q & q' & ws & q0 & Hws & Hcl & _).
  assert (ws = []) as ->.
  { revert Hws. unfold py_range3, range_len.
    destruct (Z.eqb_spec (12 + sid * 3) 0); [lia|].
    destruct (Z.ltb_spec 0 (12 + sid * 3)); [lia|].
    destruct (Z.ltb_spec (dur * 60) 0); [lia|].
    intros E. now injection E as <-. }
  unfold clench_loop in Hcl. simpl in Hcl. unfold ret in Hcl.
  injection Hcl as <- <- _. now split.
Qed.

Lemma X10_negative_step_no_clench_witness :
  (-5 <= -5)%Z /\
  returns (Professional.sample_loop (-5) 0%Z 8 (tape_const 0 0 0) 0%nat)
    (fun trace _ =>
       Forall (fun lr =>
                 Professional.clench_amplitude (fst lr) = 0 /\
                 Professional.clench_hits (fst lr) = [])
              trace).
Proof.
  split; [lia|].
  apply X10_negative_step_no_clench. lia.
Defined.

Lemma clench_window_active c t s tp p :
  IZR s <= t < IZR s + uniform_of (d_min c) (d_max c) (tp p) ->
  exists a, clench_window c t s tp p = Ok (Some a) (S (S p)).
Proof.
  intros [H1 H2]. rewrite clench_window_eval. cbv zeta.
  apply Rleb_true in H1. apply Rltb_true in H2. rewrite H1, H2.
  cbn [andb]. eauto.
Qed.

Lemma py_range3_head2 stop step :
  (0 < step)%Z -> (step < stop)%Z ->
  exists rest, py_range3 0 stop step = Some (0%Z :: step :: rest)
               /\ forall s, In s rest -> (2 * step <= s)%Z.
Proof.
  intros Hstep Hstop. unfold py_range3, range_len.
  destruct (Z.eqb_spec step 0) as [|_]; [lia|].
  destruct (Z.ltb_spec 0 step) as [_|]; [|lia].
  destruct (Z.ltb_spec 0 stop) as [_|]; [|lia].
  assert (Hn : (2 <= (stop - 0 + step - 1) / step)%Z).
  { apply Z.div_le_lower_bound; lia. }
  destruct (Z.to_nat ((stop - 0 + step - 1) / step)) as [|[|n]] eqn:E;
    [lia..|].
  cbn [seq map].
  exists (map (fun k => (0 + Z.of_nat k * step)%Z) (seq 2 n)).
  split.
  - repeat f_equal. lia.
  - intros s Hs. apply in_map_iff in Hs as (k & <- & Hk).
    apply in_seq in Hk. nia.
Qed.

(** X11. The non-overlap of the clench windows depends on the session
    id.  For [session_id = -3] the window starts are 3 s apart, less
    than the longest clench: a sample taken at a time [t] with
    [3 <= t < 3.5] for which the duration drawn for the first window
    exceeds [t] lies in the first and in the second window at once. *)
Theorem X11_overlapping_windows :
  forall duration_minutes t tp p,
    wf_source tp -> (0 < duration_minutes)%Z ->
    3 <= t < 3.5 ->
    t < uniform_of 1.5 3.5 (tp p) ->
    exists windows,
      py_range3 0 (duration_minutes * 60) (12 + -3 * 3) = Some windows /\
      returns (clench_loop Professional.clench t windows tp p)
        (fun st _ => snd st = [0; 3]%Z).
Proof.
  intros dur t tp p Hwf Hdur Ht Hd.
  destruct (py_range3_head2 (dur * 60) 3 ltac:(lia) ltac:(lia))
    as (rest & Hws & Hrest).
  exists (0 :: 3 :: rest)%Z. split; [exact Hws|].
  unfold clench_loop.
  destruct (clench_window_active Professional.clench t 0 tp p) as [a0 E0].
  { cbn [Professional.clench d_min d_max]. lra. }
  rewrite foldM_cons, clench_step_eval, E0.
  destruct (clench_window_active Professional.clench t 3 tp (S (S p)))
    as [a1 E1].
  { cbn [Professional.clench d_min d_max].
    pose proof (uniform_of_range 1.5 3.5 (tp (S (S p))) ltac:(lra)
                  (Hwf (S (S p)))). lra. }
  rewrite foldM_cons, clench_step_eval, E1.
  rewrite clench_fold_inactive.
  - reflexivity.
  - assumption.
  - simpl. lra.
  - intros s Hs. left. apply Hrest in Hs.
    assert (H6 : (6 <= s)%Z) by lia. apply IZR_le in H6. lra.
Qed.

Lemma X11_overlapping_windows_witness :
  wf_source (tape_const 1 0 0) /\ (0 < 8)%Z /\ 3 <= 3.2 < 3.5 /\
  3.2 < uniform_of 1.5 3.5 (tape_const 1 0 0 0%nat) /\
  exists windows,
    py_range3 0 (8 * 60) (12 + -3 * 3) = Some windows /\
    returns (clench_loop Professional.clench 3.2 windows (tape_const 1 0 0) 0%nat)
      (fun st _ => snd st = [0; 3]%Z).
Proof.
  assert (H1 : wf_source (tape_const 1 0 0)) by (intros n; simpl; lra).
  assert (H2 : (0 < 8)%Z) by lia.
  assert (H3 : 3 <= 3.2 < 3.5) by lra.
  assert (H4 : 3.2 < uniform_of 1.5 3.5 (tape_const 1 0 0 0%nat))
    by (unfold uniform_of; simpl; lra).
  split; [exact H1|]. split; [exact H2|]. split; [exact H3|].
  split; [exact H4|].
  exact (X11_overlapping_windows 8%Z 3.2 (tape_const 1 0 0) 0%nat H1 H2 H3 H4).
Defined.

(** ** The channels of the multi-session script *)

(** X12. In the multi-session script the three optical channels are
    ordered, [0 <= ppg_green <= ppg_red <= ppg_ir], where [ppg_red] is
    the code's [int(ppg_ir * 0.7)] with its binary64 product: for every
    row whose [ppg_ir] is not negative, and hence for every row of a
    session, one per sample, since [ppg_ir] stays within 39950 and
    74050. *)
Theorem X12_channel_order :
  forall session_id session_date duration_minutes tp p,
    session_id <> (-4)%Z ->
    returns (Professional.generate_session session_id session_date
               duration_minutes tp p)
      (fun rows _ =>
         length rows = Z.to_nat (duration_minutes * 60 * 20) /\
         Forall (fun r =>
                   ((0 <= ppg_ir r < 2 ^ 48)%Z ->
                    (0 <= ppg_green r <= ppg_red r)%Z /\
                    (ppg_red r <= ppg_ir r)%Z) /\
                   (wf_source tp -> wf_gauss tp ->
                    (0 <= ppg_green r <= ppg_red r)%Z /\
                    (ppg_red r <= ppg_ir r)%Z))
                rows).
Proof.
  intros sid date dur tp p Hid.
  destruct (generate_session_trace sid date dur tp p Hid)
    as (trace & p' & H & ->).
  cbn [returns]. split.
  { rewrite length_map. eapply session_loop_length; eassumption. }
  eapply session_rows_Forall; [eassumption..|].
  intros i loc row q q' Hpost.
  assert (Hord : (0 <= ppg_ir row < 2 ^ 48)%Z ->
                 (0 <= ppg_green row <= ppg_red row)%Z /\
                 (ppg_red row <= ppg_ir row)%Z).
  { destruct Hpost as (ws & q0 & Hpost). decompose [and] Hpost. intros Hir.
    match goal with E : ppg_red row = _ |- _ => rewrite E end.
    match goal with E : ppg_green row = _ |- _ => rewrite E end.
    now apply channel_order. }
  split; [exact Hord|].
  intros Hwf Hz. apply Hord.
  pose proof (session_ppg_tight _ _ _ _ _ _ _ _ _ Hwf Hz Hpost).
  change (2 ^ 48)%Z with 281474976710656%Z. lia.
Qed.

Lemma X12_channel_order_witness :
  (1 <> -4)%Z /\
  returns (Professional.generate_session 1 0%Z 8 (tape_const 0 0 0) 0%nat)
    (fun rows _ =>
       length rows = Z.to_nat (8 * 60 * 20) /\
       Forall (fun r =>
                 ((0 <= ppg_ir r < 2 ^ 48)%Z ->
                  (0 <= ppg_green r <= ppg_red r)%Z /\
                  (ppg_red r <= ppg_ir r)%Z) /\
                 (wf_source (tape_const 0 0 0) -> wf_gauss (tape_const 0 0 0) ->
                  (0 <= ppg_green r <= ppg_red r)%Z /\
                  (ppg_red r <= ppg_ir r)%Z))
              rows).
Proof.
  split; [lia|].
  apply X12_channel_order. lia.
Defined.
